(** * expense-manager: the domain layer of [expense_manager.py]

    A shallow embedding of the classes [Record], [LoanRecord], [Storage],
    [User], [Statistics] and [ReminderService], and the properties of the
    specification that concern them.

    Conventions.
    - Python [float] arithmetic is taken through the interface [Num], so that
      the same definitions run on IEEE-754 doubles ([float_num], what the
      interpreter executes) and on exact integers ([Z_num], where sums can be
      regrouped).  A JSON integer is read as the number of the same value:
      every accumulator of the program starts from a float, so Python
      converts an integer amount before it adds it.
    - A Python [dict] with string keys is a [gmap string _], a [set] of
      strings a [gset string]; JSON text on disk is identified with the value
      [json.load] returns for it.
    - Methods that mutate [self] or raise are functions in the monad [M].
    - Dataclass fields have the types of their annotations; [from_dict]
      answers [TypeError] on a value of another type (Python itself stores
      such a value unchecked and fails, if at all, where it is used).  The
      one operation whose point is that it stores unchecked values,
      [update_record], is modelled on untyped objects in [Dyn]. *)

From Stdlib Require Import Floats ZArith String Ascii Bool Lia.
From stdpp Require Import gmap strings list pretty.

Local Open Scope string_scope.
Local Open Scope Z_scope.
Set Warnings "-inexact-float".

(** ** Numbers *)

Class Num (A : Type) := {
  lit : Z -> A;                  (* the float literal [n.0]; [float(True)] is [lit 1] *)
  fadd : A -> A -> A;            (* [x + y] *)
  fsub : A -> A -> A;            (* [x - y] *)
  fle : A -> A -> bool;          (* [x <= y] *)
  of_str : string -> option A;   (* [float(s)] on a [str]; [None] is [ValueError] *)
}.

(** Arithmetic without rounding: the laws of a commutative group. *)
Class ExactNum (A : Type) `{Num A} : Prop := {
  fadd_comm : forall x y : A, fadd x y = fadd y x;
  fadd_assoc : forall x y z : A, fadd x (fadd y z) = fadd (fadd x y) z;
  fadd_0_r : forall x : A, fadd x (lit 0) = x;
  fadd_sub : forall x y : A, fsub (fadd x y) y = x;
  fsub_add : forall x y : A, fadd (fsub x y) y = x;
}.

(** IEEE-754 binary64, the [float] of CPython.  The parser of [float(str)]
    belongs to the interpreter and is a parameter. *)
Definition float_lit (n : Z) : float :=
  if n <? 0 then PrimFloat.opp (PrimFloat.of_uint63 (Uint63.of_Z (- n)))
  else PrimFloat.of_uint63 (Uint63.of_Z n).

Definition float_num (parse : string -> option float) : Num float :=
  {| lit := float_lit; fadd := PrimFloat.add; fsub := PrimFloat.sub;
     fle := PrimFloat.leb; of_str := parse |}.

(** Exact integers (amounts counted in the smallest unit). *)
Definition Z_num (parse : string -> option Z) : Num Z :=
  {| lit := fun n => n; fadd := Z.add; fsub := Z.sub; fle := Z.leb; of_str := parse |}.

(** ** Exceptions and the state monad of methods *)

Inductive exn :=
  | ValueError (msg : string)              (* raised by the program itself *)
  | Builtin                                (* raised by the interpreter: a TypeError,
                                              ValueError, KeyError, OSError, ...;
                                              class and text are not modelled *)
  | Wrapped (pre : string) (inner : exn).  (* [Exception(f"{pre}: {str(inner)}")] *)

Inductive outcome (S R : Type) :=
  | Return (r : R) (s : S)
  | Raise (e : exn) (s : S).
Arguments Return {S R} r s.
Arguments Raise {S R} e s.

Definition M (S R : Type) : Type := S -> outcome S R.

Definition ret {S R} (r : R) : M S R := fun s => Return r s.
Definition raise {S R} (e : exn) : M S R := fun s => Raise e s.
Definition bind {S R R'} (m : M S R) (k : R -> M S R') : M S R' :=
  fun s => match m s with Return r s' => k r s' | Raise e s' => Raise e s' end.
Definition get {S} : M S S := fun s => Return s s.
Definition put {S} (s : S) : M S unit := fun _ => Return tt s.
Definition modify {S} (f : S -> S) : M S unit := fun s => Return tt (f s).
(** [try: body except Exception as e: raise Exception(f"{pre}: {str(e)}")] *)
Definition rewrap {S R} (pre : string) (m : M S R) : M S R :=
  fun s => match m s with Return r s' => Return r s' | Raise e s' => Raise (Wrapped pre e) s' end.
(** an expression that may raise, evaluated inside a method *)
Definition evaluate {S R} (o : option R) : M S R :=
  match o with Some r => ret r | None => raise Builtin end.
(** a method of a component run on the state that owns it *)
Definition zoom {S T R} (gt : S -> T) (st : T -> S -> S) (m : M T R) : M S R :=
  fun s => match m (gt s) with
           | Return r t => Return r (st t s)
           | Raise e t => Raise e (st t s)
           end.

Notation "'let*' x ':=' m 'in' k" := (bind m (fun x => k))
  (at level 10, x name, m at level 100, k at level 200).
Notation "'do' m 'then' k" := (bind m (fun _ => k))
  (at level 10, m at level 100, k at level 200).

Definition state_of {S R} (o : outcome S R) : S :=
  match o with Return _ s => s | Raise _ s => s end.
Definition value_of {S R} (o : outcome S R) : option R :=
  match o with Return r _ => Some r | Raise _ _ => None end.

(** ** JSON values *)

Section Json.
Context {A : Type}.

Inductive json :=
  | JNull
  | JBool (b : bool)
  | JNum (x : A)
  | JStr (s : string)
  | JArr (l : list json)
  | JObj (m : gmap string json).

Definition as_str (v : json) : option string :=
  match v with JStr s => Some s | _ => None end.
Definition as_num (v : json) : option A :=
  match v with JNum x => Some x | _ => None end.
Definition as_bool (v : json) : option bool :=
  match v with JBool b => Some b | _ => None end.
Definition as_obj (v : json) : option (gmap string json) :=
  match v with JObj m => Some m | _ => None end.

(** The characters of a [str].  A string is held as its UTF-8 bytes: a
    character is a byte that is no continuation byte (10xxxxxx) and the
    continuation bytes after it. *)
Definition is_continuation (a : ascii) : bool :=
  (128 <=? nat_of_ascii a)%nat && (nat_of_ascii a <? 192)%nat.
Fixpoint split_characters (s : string) : string * list string :=
  match s with
  | EmptyString => (EmptyString, [])
  | String a s' =>
      let '(cont, chars) := split_characters s' in
      if is_continuation a then (String a cont, chars)
      else (EmptyString, String a cont :: chars)
  end.
Definition characters (s : string) : list string := snd (split_characters s).

(** [for x in v] where a list is expected: a list gives its items, a dict
    its keys, a string its characters; a number, boolean or [None] is not
    iterable. *)
Definition items (v : json) : option (list json) :=
  match v with
  | JArr l => Some l
  | JObj m => Some (JStr <$> (map_to_list m).*1)
  | JStr s => Some (JStr <$> characters s)
  | _ => None
  end.

(** [d.update(v)]: the keys of a mapping [v] replace or extend those of [d].
    A number, boolean, [None] or non-empty string raises; an empty string or
    list is an empty sequence of pairs and changes nothing.  (Python also
    takes a non-empty list of [key, value] pairs; no snapshot is written
    that way and it is read as malformed.) *)
Definition dict_update (d : gmap string json) (v : json) : option (gmap string json) :=
  match v with
  | JObj m => Some (m ∪ d)
  | JArr [] => Some d
  | JStr s => if String.eqb s "" then Some d else None
  | _ => None
  end.
End Json.
Arguments json A : clear implicits.

(** ** Data model *)

Module Record.
Section Record.
Context {A : Type}.

(** [@dataclass class Record] *)
Record t := mk {
  id : string;
  amount : A;
  kind : string;      (* 'income' or 'expense' *)
  category : string;
  timestamp : string; (* ISO string *)
  note : string;
  overconsumption_mark : bool;
}.

Definition field_names : gset string :=
  list_to_set ["id"; "amount"; "kind"; "category"; "timestamp"; "note";
               "overconsumption_mark"].

(** [asdict(self)] *)
Definition to_dict (r : t) : json A :=
  JObj (list_to_map
    [("id", JStr (id r)); ("amount", JNum (amount r)); ("kind", JStr (kind r));
     ("category", JStr (category r)); ("timestamp", JStr (timestamp r));
     ("note", JStr (note r));
     ("overconsumption_mark", JBool (overconsumption_mark r))]).

(** a keyword argument with a default value *)
Definition opt_field {B} (m : gmap string (json A)) (k : string)
    (cast : json A -> option B) (dflt : B) : option B :=
  match m !! k with Some v => cast v | None => Some dflt end.

(** [Record] called with the items of [d] as keywords: [d] must be a dict
    whose keys are field names and include every field without a default. *)
Definition from_dict (d : json A) : option t :=
  m ← as_obj d;
  if bool_decide (dom m ⊆ field_names) then
    i ← m !! "id" ≫= as_str;
    a ← m !! "amount" ≫= as_num;
    k ← m !! "kind" ≫= as_str;
    c ← m !! "category" ≫= as_str;
    ts ← m !! "timestamp" ≫= as_str;
    n ← opt_field m "note" as_str "";
    o ← opt_field m "overconsumption_mark" as_bool false;
    Some (mk i a k c ts n o)
  else None.
End Record.
Arguments t A : clear implicits.
End Record.

Module LoanRecord.
Section LoanRecord.
Context {A : Type}.

(** [@dataclass class LoanRecord] *)
Record t := mk {
  id : string;
  name : string;            (* who borrowed *)
  amount : A;
  loan_date : string;
  due_date : option string;
  repaid : bool;
  note : string;
}.

Definition field_names : gset string :=
  list_to_set ["id"; "name"; "amount"; "loan_date"; "due_date"; "repaid"; "note"].

Definition opt_str_to_json (o : option string) : json A :=
  match o with Some s => JStr s | None => JNull end.
Definition as_opt_str (v : json A) : option (option string) :=
  match v with JStr s => Some (Some s) | JNull => Some None | _ => None end.

Definition to_dict (l : t) : json A :=
  JObj (list_to_map
    [("id", JStr (id l)); ("name", JStr (name l)); ("amount", JNum (amount l));
     ("loan_date", JStr (loan_date l)); ("due_date", opt_str_to_json (due_date l));
     ("repaid", JBool (repaid l)); ("note", JStr (note l))]).

Definition from_dict (d : json A) : option t :=
  m ← as_obj d;
  if bool_decide (dom m ⊆ field_names) then
    i ← m !! "id" ≫= as_str;
    n ← m !! "name" ≫= as_str;
    a ← m !! "amount" ≫= as_num;
    ld ← m !! "loan_date" ≫= as_str;
    dd ← Record.opt_field m "due_date" as_opt_str None;
    rp ← Record.opt_field m "repaid" as_bool false;
    nt ← Record.opt_field m "note" as_str "";
    Some (mk i n a ld dd rp nt)
  else None.
End LoanRecord.
Arguments t A : clear implicits.
End LoanRecord.

(** ** Storage: the JSON file and its in-memory copy *)

Module Storage.
Section Storage.
Context {A : Type} `{Num A}.

(** What is found at [path]: nothing, something that cannot be opened or
    parsed, or JSON text. *)
Inductive file :=
  | NoFile
  | Garbage
  | Parsed (j : json A).

(** What one call of [save] meets. *)
Inductive write :=
  | CannotOpen   (* [open(path, 'w')] raises: the file stays as it is *)
  | Completes    (* the file is opened and [json.dump] writes the whole text *)
  | BreaksOff.   (* the file is opened, which empties it, and the dump raises
                    before the text is complete: what is left does not parse *)

Record t := mk {
  path : string;
  _data : gmap string (json A);
  disk : file;             (* the file at [path] *)
  medium : nat -> write;   (* what the calls of [save] meet, the next one first *)
}.

Definition with_data (d : gmap string (json A)) (s : t) : t :=
  mk (path s) d (disk s) (medium s).

(** a file system on which every write goes through *)
Definition sound : nat -> write := fun _ => Completes.

Definition default_settings : gmap string (json A) :=
  list_to_map
    [("initial_balance", JNum (lit 0)); ("threshold_warn", JNum (lit 3000));
     ("threshold_urgent", JNum (lit 1000)); ("reminder_enabled", JBool false);
     ("reminder_time", JStr "20:00")].

Definition default_data : gmap string (json A) :=
  list_to_map
    [("records", JArr []); ("loans", JArr []); ("settings", JObj default_settings);
     ("overconsumption_categories", JArr [])].

(** [_load]: an exception while reading or merging is printed and dropped. *)
Definition _load (s : t) : t :=
  match disk s with
  | NoFile => s
  | Garbage => s
  | Parsed j =>
      match dict_update (_data s) j with
      | Some d => with_data d s
      | None => s
      end
  end.

(** [Storage(path)], with the file system as it is found *)
Definition init (path : string) (disk : file) (medium : nat -> write) : t :=
  _load (mk path default_data disk medium).

(** [save]: a failure to write, before or after the file is opened, is
    printed and dropped. *)
Definition save (s : t) : t :=
  mk (path s) (_data s)
    (match medium s 0%nat with
     | CannotOpen => disk s
     | Completes => Parsed (JObj (_data s))
     | BreaksOff => Garbage
     end)
    (fun n => medium s (S n)).

Definition get_default (k : string) (dflt : json A) (s : t) : json A :=
  default dflt (_data s !! k).

Definition get_records (s : t) : option (list (Record.t A)) :=
  l ← items (get_default "records" (JArr []) s); mapM Record.from_dict l.

(** [set_records] after [to_dict] has been applied to each record *)
Definition set_records_dicts (ds : list (json A)) (s : t) : t :=
  save (with_data (<["records" := JArr ds]> (_data s)) s).

Definition set_records (records : list (Record.t A)) (s : t) : t :=
  set_records_dicts (Record.to_dict <$> records) s.

Definition get_loans (s : t) : option (list (LoanRecord.t A)) :=
  l ← items (get_default "loans" (JArr []) s); mapM LoanRecord.from_dict l.

Definition set_loans (loans : list (LoanRecord.t A)) (s : t) : t :=
  save (with_data (<["loans" := JArr (LoanRecord.to_dict <$> loans)]> (_data s)) s).

Definition get_settings (s : t) : json A := get_default "settings" (JObj ∅) s.

(** [self._data['settings'].update(settings); self.save()] *)
Definition update_settings (settings : gmap string (json A)) : M t unit :=
  fun s =>
    match _data s !! "settings" with
    | None => Raise Builtin s
    | Some (JObj m) =>
        Return tt (save (with_data (<["settings" := JObj (settings ∪ m)]> (_data s)) s))
    | Some _ => Raise Builtin s
    end.

Definition get_overconsumption_categories (s : t) : json A :=
  get_default "overconsumption_categories" (JArr []) s.

Definition set_overconsumption_categories (cats : list string) (s : t) : t :=
  save (with_data (<["overconsumption_categories" := JArr (JStr <$> cats)]> (_data s)) s).
End Storage.
Arguments t A : clear implicits.
Arguments file A : clear implicits.
End Storage.

(** ** User: the account *)

(** [float(v)] *)
Definition py_float {A} `{Num A} (v : json A) : option A :=
  match v with
  | JNum x => Some x
  | JBool b => Some (lit (if b then 1 else 0))
  | JStr s => of_str s
  | _ => None
  end.

(** [set(v)] for a list of category names *)
Definition py_str_set {A} (v : json A) : option (gset string) :=
  l ← items v; list_to_set <$> mapM as_str l.

(** [key in v] *)
Fixpoint is_prefix (p s : string) : bool :=
  match p, s with
  | EmptyString, _ => true
  | String a p', String b s' => Ascii.eqb a b && is_prefix p' s'
  | String _ _, EmptyString => false
  end.
Fixpoint is_substring (p s : string) : bool :=
  is_prefix p s || match s with EmptyString => false | String _ s' => is_substring p s' end.

Definition py_in {A} (key : string) (v : json A) : option bool :=
  match v with
  | JObj m => Some (bool_decide (is_Some (m !! key)))
  | JArr l => Some (existsb (fun x => match x with JStr s => String.eqb s key | _ => false end) l)
  | JStr s => Some (is_substring key s)
  | _ => None
  end.

(** [all(key in v for key in keys)], left to right, stopping at the first
    [False] *)
Fixpoint py_all_in {A} (keys : list string) (v : json A) : option bool :=
  match keys with
  | [] => Some true
  | k :: ks =>
      match py_in k v with
      | Some true => py_all_in ks v
      | Some false => Some false
      | None => None
      end
  end.

(** [v[key]] for a string key *)
Definition py_getitem {A} (v : json A) (key : string) : option (json A) :=
  match v with JObj m => m !! key | _ => None end.

Module User.
Section User.
Context {A : Type} `{Num A}.

(** [settings] is the dict object that [storage] holds under ['settings']:
    the program shares it and brings the two in line through
    [update_settings] after every change; here each holds its value. *)
Record t := mk {
  storage : Storage.t A;
  records : list (Record.t A);
  loans : list (LoanRecord.t A);
  settings : gmap string (json A);
  overcats : gset string;
}.

Definition with_storage (s : Storage.t A) (u : t) : t :=
  mk s (records u) (loans u) (settings u) (overcats u).
Definition with_records (rs : list (Record.t A)) (u : t) : t :=
  mk (storage u) rs (loans u) (settings u) (overcats u).
Definition with_loans (ls : list (LoanRecord.t A)) (u : t) : t :=
  mk (storage u) (records u) ls (settings u) (overcats u).
Definition with_settings (st : gmap string (json A)) (u : t) : t :=
  mk (storage u) (records u) (loans u) st (overcats u).
Definition with_overcats (oc : gset string) (u : t) : t :=
  mk (storage u) (records u) (loans u) (settings u) oc.

(** [User(storage)]; [None] when a stored value cannot be read as the
    annotated type *)
Definition init (s : Storage.t A) : option t :=
  rs ← Storage.get_records s;
  ls ← Storage.get_loans s;
  st ← as_obj (Storage.get_settings s);
  oc ← py_str_set (Storage.get_overconsumption_categories s);
  Some (mk s rs ls st oc).

Definition in_storage {R} (m : M (Storage.t A) R) : M t R := zoom storage with_storage m.
Definition persist_records : M t unit :=
  let* u := get in modify (with_storage (Storage.set_records (records u) (storage u))).
Definition persist_loans : M t unit :=
  let* u := get in modify (with_storage (Storage.set_loans (loans u) (storage u))).
Definition persist_settings : M t unit :=
  let* u := get in in_storage (Storage.update_settings (settings u)).
Definition persist_overcats : M t unit :=
  let* u := get in
  modify (with_storage
    (Storage.set_overconsumption_categories (elements (overcats u)) (storage u))).

(** [rid] is the fresh [uuid4], [now] the clock read by [now_iso()];
    [amount] is whatever the caller passes, made a float by [float(amount)]. *)
Definition add_record (rid now : string) (amount : json A) (kind category : string)
    (timestamp : option string) (note : string) : M t (Record.t A) :=
  let* u := get in
  let ts := match timestamp with
            | Some s => if String.eqb s "" then now else s
            | None => now
            end in
  let* a := evaluate (py_float amount) in
  let rec := Record.mk rid a kind category ts note
               (bool_decide (category ∈ overcats u)) in
  do modify (with_records (records u ++ [rec])) then
  do persist_records then
  ret rec.

Definition delete_record (record_id : string) : M t bool :=
  let* u := get in
  let orig := length (records u) in
  let rs := List.filter (fun r => negb (String.eqb (Record.id r) record_id)) (records u) in
  do modify (with_records rs) then
  if negb (Nat.eqb (length rs) orig)
  then do persist_records then ret true
  else ret false.

Definition add_loan (lid now : string) (name : string) (amount : json A)
    (loan_date due_date : option string) (note : string) : M t (LoanRecord.t A) :=
  let* u := get in
  let ld := match loan_date with
            | Some s => if String.eqb s "" then now else s
            | None => now
            end in
  let* a := evaluate (py_float amount) in
  let loan := LoanRecord.mk lid name a ld due_date false note in
  do modify (with_loans (loans u ++ [loan])) then
  do persist_loans then
  ret loan.

(** [for l in self.loans: if l.id == loan_id: l.repaid = True; ...; return True] *)
Fixpoint mark_first (loan_id : string) (ls : list (LoanRecord.t A))
    : option (list (LoanRecord.t A)) :=
  match ls with
  | [] => None
  | l :: ls' =>
      if String.eqb (LoanRecord.id l) loan_id
      then Some (LoanRecord.mk (LoanRecord.id l) (LoanRecord.name l) (LoanRecord.amount l)
                   (LoanRecord.loan_date l) (LoanRecord.due_date l) true
                   (LoanRecord.note l) :: ls')
      else cons l <$> mark_first loan_id ls'
  end.

Definition mark_loan_repaid (loan_id : string) : M t bool :=
  let* u := get in
  match mark_first loan_id (loans u) with
  | Some ls =>
      do modify (with_loans ls) then
      do persist_loans then
      ret true
  | None => ret false
  end.

Definition delete_loan (loan_id : string) : M t bool :=
  let* u := get in
  let orig := length (loans u) in
  let ls := List.filter (fun l => negb (String.eqb (LoanRecord.id l) loan_id)) (loans u) in
  do modify (with_loans ls) then
  if negb (Nat.eqb (length ls) orig)
  then do persist_loans then ret true
  else ret false.

(** [self.settings[key] = float(value)] *)
Definition set_float_setting (key : string) (value : json A) : M t unit :=
  let* x := evaluate (py_float value) in
  modify (fun u => with_settings (<[key := JNum x]> (settings u)) u).

Definition set_thresholds (warn urgent : json A) : M t unit :=
  do set_float_setting "threshold_warn" warn then
  do set_float_setting "threshold_urgent" urgent then
  persist_settings.

Definition set_initial_balance (amount : json A) : M t unit :=
  do set_float_setting "initial_balance" amount then
  persist_settings.

Definition add_overconsumption_category (cat : string) : M t unit :=
  do modify (fun u => with_overcats (overcats u ∪ {[cat]}) u) then
  persist_overcats.

Definition remove_overconsumption_category (cat : string) : M t unit :=
  let* u := get in
  if bool_decide (cat ∈ overcats u) then
    do modify (with_overcats (overcats u ∖ {[cat]})) then
    persist_overcats
  else ret tt.

(** [float(self.settings.get('initial_balance', 0.0))] *)
Definition initial_balance (u : t) : option A :=
  py_float (default (JNum (lit 0)) (settings u !! "initial_balance")).

Definition balance_step (bal : A) (r : Record.t A) : A :=
  if String.eqb (Record.kind r) "income"
  then fadd bal (Record.amount r)
  else fsub bal (Record.amount r).

(** [get_balance]; [None] when [float] raises *)
Definition get_balance (u : t) : option A :=
  bal ← initial_balance u;
  Some (fold_left balance_step (records u) bal).

(** The dict that [create_backup] dumps; [now] is the clock. *)
Definition backup_data (now : string) (u : t) : json A :=
  JObj (list_to_map
    [("records", JArr (Record.to_dict <$> records u));
     ("loans", JArr (LoanRecord.to_dict <$> loans u));
     ("settings", JObj (settings u));
     ("overconsumption_categories", JArr (JStr <$> elements (overcats u)));
     ("backup_time", JStr now);
     ("version", JStr "1.0")]).

(** [create_backup]: answers the path and what was written there.  [stamp]
    is the clock in the form [%Y%m%d_%H%M%S], [can_write] whether the file
    can be written: opened, and the dump completed. *)
Definition create_backup (backup_path : option string) (stamp now : string)
    (can_write : bool) : M t (string * json A) :=
  let path := match backup_path with
              | Some p => p
              | None => "backup_expense_" ++ stamp ++ ".json"
              end in
  rewrap "备份失败"
    (let* u := get in
     if can_write then ret (path, backup_data now u)
     else raise Builtin).

Definition required_keys : list string := ["records"; "loans"; "settings"].

(** [[from_dict(d) for d in backup_data[key]]] *)
Definition read_list {B} (from_dict : json A -> option B) (backup_data : json A)
    (key : string) : option (list B) :=
  v ← py_getitem backup_data key;
  l ← items v;
  mapM from_dict l.

(** [restore_from_backup], reading what is found at [backup_path] *)
Definition restore_from_backup (f : Storage.file A) : M t bool :=
  rewrap "恢复失败"
    (let* backup_data :=
       match f with
       | Storage.Parsed j => ret j
       | Storage.NoFile => raise Builtin
       | Storage.Garbage => raise Builtin
       end in
     let* ok := evaluate (py_all_in required_keys backup_data) in
     if negb ok then raise (ValueError "无效的备份文件格式") else
     let* rs := evaluate (read_list Record.from_dict backup_data "records") in
     do modify (with_records rs) then
     let* ls := evaluate (read_list LoanRecord.from_dict backup_data "loans") in
     do modify (with_loans ls) then
     let* u := get in
     let* st := evaluate
                  (v ← py_getitem backup_data "settings"; dict_update (settings u) v) in
     do modify (with_settings st) then
     let* has_cats := evaluate (py_in "overconsumption_categories" backup_data) in
     do (if has_cats then
           let* oc := evaluate
                        (v ← py_getitem backup_data "overconsumption_categories";
                         py_str_set v) in
           modify (with_overcats oc)
         else ret tt) then
     do persist_records then
     do persist_loans then
     do persist_settings then
     do persist_overcats then
     ret true).
End User.
Arguments t A : clear implicits.
End User.

(** ** Statistics *)

(** Calendar dates as [datetime.date] builds them: the year must lie in
    [MINYEAR..MAXYEAR]. *)
Record date := mk_date { year : Z; month : Z; day : Z }.

Definition is_leap (y : Z) : bool :=
  (y mod 4 =? 0) && (negb (y mod 100 =? 0) || (y mod 400 =? 0)).
Definition days_in_month (y m : Z) : Z :=
  if m =? 2 then (if is_leap y then 29 else 28)
  else if (m =? 4) || (m =? 6) || (m =? 9) || (m =? 11) then 30 else 31.

Definition valid_date (d : date) : bool :=
  (1 <=? year d) && (year d <=? 9999) && (1 <=? month d) && (month d <=? 12)
  && (1 <=? day d) && (day d <=? days_in_month (year d) (month d)).

(** [datetime.date(y, m, d)]; [None] is [ValueError] *)
Definition new_date (y m d : Z) : option date :=
  let r := mk_date y m d in if valid_date r then Some r else None.

(** [(today.replace(day=1) - timedelta(days=1)).replace(day=1)]; [None] is
    the [OverflowError] of stepping before 0001-01-01 *)
Definition first_of_previous_month (today : date) : option date :=
  if month today =? 1
  then (if year today =? 1 then None else Some (mk_date (year today - 1) 12 1))
  else Some (mk_date (year today) (month today - 1) 1).

Definition digit (n : Z) : ascii := ascii_of_nat (48 + Z.to_nat (n mod 10)).
Definition pad2 (n : Z) : string := String (digit (n / 10)) (String (digit n) "").
Definition pad4 (n : Z) : string :=
  String (digit (n / 1000)) (String (digit (n / 100)) (pad2 n)).

(** [datetime.combine(d, time.min).isoformat()] *)
Definition isoformat_midnight (d : date) : string :=
  pad4 (year d) ++ "-" ++ pad2 (month d) ++ "-" ++ pad2 (day d) ++ "T00:00:00".

(** [while m <= 0: y -= 1; m += 12], cut after [fuel] rounds *)
Fixpoint month_back (fuel : nat) (y m : Z) : Z * Z :=
  if m <=? 0 then
    match fuel with
    | O => (y, m)
    | S fuel' => month_back fuel' (y - 1) (m + 12)
    end
  else (y, m).

(** [d1 <= d2] on dates *)
Definition date_leb (d1 d2 : date) : bool :=
  (year d1 <? year d2)
  || ((year d1 =? year d2)
      && ((month d1 <? month d2) || ((month d1 =? month d2) && (day d1 <=? day d2)))).

Module Statistics.
Section Statistics.
Context {A : Type} `{Num A}.

(** [d.strftime('%Y-%m')].  From the year 1000 on the C library writes the
    four digits of the year, a hyphen and the two digits of the month; how
    it writes an earlier year (with or without leading zeros) differs from
    one platform to another and is [platform_Ym]. *)
Variable platform_Ym : date -> string.
Definition strftime_Ym (d : date) : string :=
  if 1000 <=? year d then pad4 (year d) ++ "-" ++ pad2 (month d) else platform_Ym d.

Record totals_t := mk_totals { income : A; expense : A; balance : A }.

Definition filter_records (start end_ : option string) (records : list (Record.t A))
    : list (Record.t A) :=
  let recs := records in
  let recs := match start with
              | Some s => if String.eqb s "" then recs
                          else List.filter (fun r => String.leb s (Record.timestamp r)) recs
              | None => recs
              end in
  let recs := match end_ with
              | Some e => if String.eqb e "" then recs
                          else List.filter (fun r => String.ltb (Record.timestamp r) e) recs
              | None => recs
              end in
  recs.

(** the loop shared by [totals] and [monthly_series]:
    [income, expense = 0.0, 0.0; for r in recs: ...] *)
Definition sums_step (acc : A * A) (r : Record.t A) : A * A :=
  if String.eqb (Record.kind r) "income"
  then (fadd (fst acc) (Record.amount r), snd acc)
  else (fst acc, fadd (snd acc) (Record.amount r)).
Definition sums (recs : list (Record.t A)) : A * A :=
  fold_left sums_step recs (lit 0, lit 0).

Definition totals (start end_ : option string) (u : User.t A) : option totals_t :=
  let '(income, expense) := sums (filter_records start end_ (User.records u)) in
  b ← User.initial_balance u;
  Some (mk_totals income expense (fadd (fsub income expense) b)).

(** [buckets.setdefault(k, v)] *)
Definition setdefault (k : string) (v : A) (buckets : gmap string A) : gmap string A :=
  match buckets !! k with Some _ => buckets | None => <[k := v]> buckets end.
(** [buckets[k] += x], after [setdefault] has made [k] a key *)
Definition add_to (k : string) (x : A) (buckets : gmap string A) : gmap string A :=
  alter (fun old => fadd old x) k buckets.

Definition breakdown_step (buckets : gmap string A) (r : Record.t A) : gmap string A :=
  let buckets := setdefault (Record.category r) (lit 0) buckets in
  if String.eqb (Record.kind r) "expense"
  then add_to (Record.category r) (Record.amount r) buckets
  else add_to "Income" (Record.amount r) (setdefault "Income" (lit 0) buckets).

Definition category_breakdown (start end_ : option string) (u : User.t A)
    : gmap string A :=
  fold_left breakdown_step (filter_records start end_ (User.records u)) ∅.

(** one round of the loop of [monthly_series], for the offset [i] *)
Definition month_entry (today : date) (u : User.t A) (i : Z)
    : option (string * A * A) :=
  _ ← first_of_previous_month today;
  let '(y, m) := month_back (Z.to_nat i) (year today) (month today - i) in
  start ← new_date y m 1;
  end_ ← (if m =? 12 then new_date (y + 1) 1 1 else new_date y (m + 1) 1);
  let start_iso := isoformat_midnight start in
  let end_iso := isoformat_midnight end_ in
  let '(inc, exp) := sums (filter_records (Some start_iso) (Some end_iso) (User.records u)) in
  Some (strftime_Ym start, inc, exp).

(** [monthly_series(months)] on the day [today]; [None] when a date cannot
    be built *)
Definition monthly_series (today : date) (months : Z) (u : User.t A)
    : option (list (string * A * A)) :=
  mapM (month_entry today u) (reverse (seqZ 0 months)).

(** The builtin [sum] over a sequence of floats, started from the integer 0.
    How the interpreter adds them up (one after the other, or with a
    compensation term as newer versions do) is its own affair. *)
Variable py_sum : list A -> A.

(** one dict of ['monthly_trend'] *)
Record month_summary_t := mk_month_summary {
  month_label : string;   (* 'month' *)
  month_income : A;       (* 'income' *)
  month_expense : A;      (* 'expense' *)
  month_balance : A;      (* 'balance' *)
}.

(** the dict that [yearly_summary] returns *)
Record yearly_t := mk_yearly {
  summary_year : Z;
  total_income : A;
  total_expense : A;
  net_balance : A;
  monthly_trend : list month_summary_t;
  yearly_breakdown : gmap string A;   (* 'category_breakdown' *)
}.

(** [r.amount for r in recs if r.kind == k] *)
Definition kind_amounts (k : string) (recs : list (Record.t A)) : list A :=
  Record.amount <$> List.filter (fun r => String.eqb (Record.kind r) k) recs.

(** [f"{year}-{month:02d}-01T00:00:00"] *)
Definition month_bound (year month : Z) : string :=
  pretty year ++ "-" ++ pad2 month ++ "-01T00:00:00".

(** one round of the loop of [yearly_summary] *)
Definition month_summary (year : Z) (u : User.t A) (month : Z) : month_summary_t :=
  let month_start := month_bound year month in
  let month_end := if month =? 12 then month_bound (year + 1) 1
                   else month_bound year (month + 1) in
  let month_records := filter_records (Some month_start) (Some month_end) (User.records u) in
  let income := py_sum (kind_amounts "income" month_records) in
  let expense := py_sum (kind_amounts "expense" month_records) in
  mk_month_summary (pretty year ++ "-" ++ pad2 month) income expense (fsub income expense).

(** [yearly_summary(year)]; a caller that passes no year gets the year of
    the clock *)
Definition yearly_summary (year : Z) (u : User.t A) : yearly_t :=
  let start_date := month_bound year 1 in
  let end_date := month_bound (year + 1) 1 in
  let year_records := filter_records (Some start_date) (Some end_date) (User.records u) in
  let monthly_data := month_summary year u <$> seqZ 1 12 in
  let income := py_sum (kind_amounts "income" year_records) in
  let expense := py_sum (kind_amounts "expense" year_records) in
  mk_yearly year income expense (fsub income expense) monthly_data
    (category_breakdown (Some start_date) (Some end_date) u).
End Statistics.
Arguments totals_t A : clear implicits.
Arguments month_summary_t A : clear implicits.
Arguments yearly_t A : clear implicits.
End Statistics.

(** ** ReminderService: the balance thresholds *)

Module ReminderService.
Section ReminderService.
Context {A : Type} `{Num A}.

(** [f'{bal:.2f}'] *)
Variable fmt2 : A -> string.

Record t := mk {
  _warned_urgent : bool;
  _warned_low : bool;
  notified : list (string * string);  (* the calls of [_notify], oldest first *)
}.

Definition set_warned_urgent (b : bool) (s : t) : t :=
  mk b (_warned_low s) (notified s).
Definition set_warned_low (b : bool) (s : t) : t :=
  mk (_warned_urgent s) b (notified s).

Definition _notify (kind message : string) : M t unit :=
  modify (fun s => mk (_warned_urgent s) (_warned_low s) (notified s ++ [(kind, message)])).

(** the body of [check_thresholds] once [bal], [warn] and [urgent] are read *)
Definition check (bal warn urgent : A) : M t unit :=
  if fle bal urgent then
    do (let* s := get in
        if negb (_warned_urgent s) then
          do _notify "urgent" ("余额已低于紧急阈值：" ++ fmt2 bal) then
          modify (set_warned_urgent true)
        else ret tt) then
    modify (set_warned_low true)
  else if fle bal warn then
    do (let* s := get in
        if negb (_warned_low s) then
          do _notify "warn" ("余额已低于预警阈值：" ++ fmt2 bal) then
          modify (set_warned_low true)
        else ret tt) then
    modify (set_warned_urgent false)
  else
    do modify (set_warned_low false) then
    modify (set_warned_urgent false).

Definition threshold (u : User.t A) (key : string) (dflt : Z) : option A :=
  py_float (default (JNum (lit dflt)) (User.settings u !! key)).

Definition check_thresholds (u : User.t A) : M t unit :=
  let* bal := evaluate (User.get_balance u) in
  let* warn := evaluate (threshold u "threshold_warn" 3000) in
  let* urgent := evaluate (threshold u "threshold_urgent" 1000) in
  check bal warn urgent.

(** [check_overconsumption(record)] *)
Definition check_overconsumption (u : User.t A) (record : Record.t A) : M t unit :=
  if bool_decide (Record.category record ∈ User.overcats u) then
    _notify "over"
      ("检测到可能的过度消费：" ++ Record.category record ++ "，金额："
       ++ fmt2 (Record.amount record))
  else ret tt.

(** [datetime.datetime.fromisoformat(s).date()]; [None] when it raises.
    Which strings it reads depends on the version of the interpreter. *)
Variable fromisoformat_date : string -> option date.

(** [for x in l: f(x)] *)
Fixpoint for_each {B : Type} (f : B -> M t unit) (l : list B) : M t unit :=
  match l with
  | [] => ret tt
  | x :: l' => do f x then for_each f l'
  end.

(** the body of the loop of [check_loans]; an exception inside [try] is
    dropped *)
Definition check_loan (today : date) (l : LoanRecord.t A) : M t unit :=
  match LoanRecord.due_date l with
  | Some due =>
      if negb (String.eqb due "") && negb (LoanRecord.repaid l) then
        match fromisoformat_date due with
        | Some dd =>
            if date_leb dd today then
              _notify "loan"
                ("借款到期：" ++ LoanRecord.name l ++ " 金额 " ++ fmt2 (LoanRecord.amount l)
                 ++ " 应还日期 " ++ due)
            else ret tt
        | None => ret tt
        end
      else ret tt
  | None => ret tt
  end.

(** [check_loans] on the day [today] *)
Definition check_loans (today : date) (u : User.t A) : M t unit :=
  for_each (check_loan today) (User.loans u).

(** [schedule_daily_reminder]: the two settings are stored, nothing is
    scheduled *)
Definition schedule_daily_reminder (time_hhmm : string) (enabled : bool)
    : M (User.t A) unit :=
  do modify (fun u =>
       User.with_settings (<["reminder_enabled" := JBool enabled]> (User.settings u)) u) then
  do modify (fun u =>
       User.with_settings (<["reminder_time" := JStr time_hhmm]> (User.settings u)) u) then
  User.persist_settings.
End ReminderService.
End ReminderService.

(** ** update_record, on objects as the interpreter holds them

    [update_record] stores keyword values through [setattr] without looking
    at the annotations, so a record is here its instance dictionary: the
    seven fields that [__init__] sets, holding any value. *)

Module Dyn.
Section Dyn.
Context {A : Type} `{Num A}.

Definition obj : Type := gmap string (json A).

(** the instance that the dataclass constructor builds *)
Definition of_record (r : Record.t A) : obj :=
  default ∅ (as_obj (Record.to_dict r)).

(** Names that resolve through the class rather than the instance (the
    methods [to_dict] and [from_dict], the defaults of [note] and
    [overconsumption_mark], the attributes inherited from [object]), and
    what assigning one of them does ([None]: it raises).  Both belong to
    the interpreter. *)
Variable class_attr : string -> bool.
Variable setattr_class : string -> json A -> obj -> option obj.

Definition hasattr (r : obj) (k : string) : bool :=
  bool_decide (is_Some (r !! k)) || class_attr k.

Definition setattr (k : string) (v : json A) : M obj unit :=
  fun r =>
    match r !! k with
    | Some _ => Return tt (<[k := v]> r)
    | None =>
        match setattr_class k v r with
        | Some r' => Return tt r'
        | None => Raise Builtin r
        end
    end.

(** [for k, v in kwargs.items(): if hasattr(r, k): setattr(r, k, v)] *)
Fixpoint apply_kwargs (kwargs : list (string * json A)) : M obj unit :=
  match kwargs with
  | [] => ret tt
  | (k, v) :: rest =>
      let* r := get in
      do (if hasattr r k then setattr k v else ret tt) then
      apply_kwargs rest
  end.

(** [getattr(r, k)] for a field: the instance, then the class default *)
Definition getfield (r : obj) (k : string) : option (json A) :=
  match r !! k with
  | Some v => Some v
  | None => if String.eqb k "note" then Some (JStr "")
            else if String.eqb k "overconsumption_mark" then Some (JBool false)
            else None
  end.

(** [r.to_dict()]: the method unless an instance attribute hides it, then
    [asdict] over the declared fields *)
Definition to_dict (r : obj) : option (json A) :=
  match r !! "to_dict" with
  | Some _ => None
  | None =>
      i ← getfield r "id"; a ← getfield r "amount"; k ← getfield r "kind";
      c ← getfield r "category"; ts ← getfield r "timestamp";
      n ← getfield r "note"; o ← getfield r "overconsumption_mark";
      Some (JObj (list_to_map
        [("id", i); ("amount", a); ("kind", k); ("category", c); ("timestamp", ts);
         ("note", n); ("overconsumption_mark", o)]))
  end.

Record t := mk {
  storage : Storage.t A;
  records : list obj;
}.

(** [r.id == record_id] down the list: the index of the first match;
    the outer [None] is the [AttributeError] of a record without [id] *)
Fixpoint first_match (record_id : string) (rs : list obj) (i : nat) : option (option nat) :=
  match rs with
  | [] => Some None
  | r :: rs' =>
      match getfield r "id" with
      | None => None
      | Some (JStr s) =>
          if String.eqb s record_id then Some (Some i)
          else first_match record_id rs' (S i)
      | Some _ => first_match record_id rs' (S i)
      end
  end.

(** [self.storage.set_records(self.records)] *)
Definition persist_records : M t unit :=
  let* u := get in
  let* ds := evaluate (mapM to_dict (records u)) in
  put (mk (Storage.set_records_dicts ds (storage u)) (records u)).

(** the record at index [i], mutated in place *)
Definition at_index {R} (i : nat) (m : M obj R) : M t R :=
  fun u =>
    match records u !! i with
    | Some r =>
        match m r with
        | Return x r' => Return x (mk (storage u) (<[i := r']> (records u)))
        | Raise e r' => Raise e (mk (storage u) (<[i := r']> (records u)))
        end
    | None => Raise Builtin u
    end.

Definition update_record (record_id : string) (kwargs : list (string * json A))
    : M t (option obj) :=
  let* u := get in
  let* found := evaluate (first_match record_id (records u) 0) in
  match found with
  | Some i =>
      do at_index i (apply_kwargs kwargs) then
      do persist_records then
      at_index i (let* r := get in ret (Some r))
  | None => ret None
  end.
End Dyn.
Arguments obj A : clear implicits.
Arguments t A : clear implicits.
End Dyn.

(** * Reference definitions

    The formulas the properties are stated against, and the accounts the
    examples run on. *)

(** The examples run on doubles; none of them converts a string, and the
    parser of [float(str)] is left out. *)
Definition py_num : Num float := float_num (fun _ => None).
#[local] Existing Instance py_num.

(** A fresh account over an absent file, and the same holding given records. *)
Definition fresh_storage : Storage.t float :=
  Storage.init "data.json" Storage.NoFile Storage.sound.
Definition account_with (initial : float) (rs : list (Record.t float)) : User.t float :=
  User.mk fresh_storage rs [] (<["initial_balance" := JNum initial]> Storage.default_settings) ∅.

(** The kinds notified over a sequence of polls. *)
Definition poll_kinds (warn urgent : float) (bals : list float) : list string :=
  (ReminderService.notified
     (fold_left
        (fun s bal =>
           state_of (@ReminderService.check float py_num (fun _ => "") bal warn urgent s))
        bals (ReminderService.mk false false []))).*1.

Definition backup_without_loans : gmap string (json float) :=
  {[ "records" := JArr []; "settings" := JObj ∅ ]}.

Definition salary_account : User.t float :=
  account_with 500
    [Record.mk "1" 200%float "income" "salary" "2025-01-01T12:00:00" "" false].

(** The store holds a settings object under 'settings': true of the store
    of every account that [User] builds over a loaded [Storage], and kept by
    every mutating method (see [user_init_has_settings] and
    [mutate_keeps_settings]). *)
Definition store_has_settings {A : Type} (s : Storage.t A) : Prop :=
  exists m, Storage._data s !! "settings" = Some (JObj m).

(** The methods of [User] that change the account. *)
Inductive mutation {A : Type} :=
  | AddRecord (rid now : string) (amount : json A) (kind category : string)
      (timestamp : option string) (note : string)
  | DeleteRecord (record_id : string)
  | AddLoan (lid now name : string) (amount : json A) (loan_date due_date : option string)
      (note : string)
  | MarkLoanRepaid (loan_id : string)
  | DeleteLoan (loan_id : string)
  | SetThresholds (warn urgent : json A)
  | SetInitialBalance (amount : json A)
  | AddCategory (cat : string)
  | RemoveCategory (cat : string)
  | Restore (f : Storage.file A).
Arguments mutation A : clear implicits.

(** the account after the call, whether it returned or raised *)
Definition mutate {A : Type} `{Num A} (m : mutation A) (u : User.t A) : User.t A :=
  match m with
  | AddRecord rid now a k c ts n => state_of (User.add_record rid now a k c ts n u)
  | DeleteRecord i => state_of (User.delete_record i u)
  | AddLoan lid now name a ld dd n => state_of (User.add_loan lid now name a ld dd n u)
  | MarkLoanRepaid i => state_of (User.mark_loan_repaid i u)
  | DeleteLoan i => state_of (User.delete_loan i u)
  | SetThresholds w x => state_of (User.set_thresholds w x u)
  | SetInitialBalance a => state_of (User.set_initial_balance a u)
  | AddCategory c => state_of (User.add_overconsumption_category c u)
  | RemoveCategory c => state_of (User.remove_overconsumption_category c u)
  | Restore f => state_of (User.restore_from_backup f u)
  end.

(** a method that leaves the store with its settings object *)
Definition keeps {A : Type} {R : Type} (m : M (User.t A) R) : Prop :=
  forall u, store_has_settings (User.storage u) ->
            store_has_settings (User.storage (state_of (m u))).

(** One income of 5, filed under the category "Income". *)
Definition income_under_Income : User.t float :=
  account_with 0 [Record.mk "1" 5%float "income" "Income" "2025-01-01T12:00:00" "" false].

(** An account read from a file whose settings object is empty (an older or
    hand-written snapshot): no 'initial_balance', so the balance starts from
    the default 0.0. *)
Definition bare_storage : Storage.t float :=
  Storage.init "data.json" (Storage.Parsed (JObj {[ "settings" := JObj ∅ ]})) Storage.sound.
Definition bare_account : User.t float := User.mk bare_storage [] [] ∅ ∅.
(** the same after [set_initial_balance(100)] *)
Definition bare_account_later : User.t float :=
  state_of (User.set_initial_balance (JNum 100%float) bare_account).

(** Σ of a list of amounts *)
Definition total {A : Type} `{Num A} (l : list A) : A := foldr fadd (lit 0) l.
Definition is_kind {A : Type} (k : string) (r : Record.t A) : bool :=
  String.eqb (Record.kind r) k.
Definition amounts_of {A : Type} (p : Record.t A -> bool) (rs : list (Record.t A)) : list A :=
  Record.amount <$> List.filter p rs.

(** The formula of the specification:
    initial_balance + Σ(income amounts) − Σ(expense amounts). *)
Definition balance_formula {A : Type} `{Num A} (u : User.t A) : option A :=
  b ← User.initial_balance u;
  Some (fsub (fadd b (total (amounts_of (is_kind "income") (User.records u))))
             (total (amounts_of (is_kind "expense") (User.records u)))).

(** The same with every record that is not an income subtracted. *)
Definition balance_formula_else {A : Type} `{Num A} (u : User.t A) : option A :=
  b ← User.initial_balance u;
  Some (fsub (fadd b (total (amounts_of (is_kind "income") (User.records u))))
             (total (amounts_of (fun r => negb (is_kind "income" r)) (User.records u)))).

Definition known_kind {A : Type} (r : Record.t A) : Prop :=
  Record.kind r = "income" \/ Record.kind r = "expense".

Definition spec_example : User.t float :=
  account_with 500
    [Record.mk "1" 200%float "income" "salary" "2025-01-01T12:00:00" "" false;
     Record.mk "2" 150%float "expense" "food" "2025-01-02T12:00:00" "" false].

(** the example in exact integers *)
Definition Z_example : User.t Z :=
  User.mk (@Storage.init Z (Z_num (fun _ => None)) "data.json" Storage.NoFile Storage.sound)
    [Record.mk "1" 200 "income" "salary" "2025-01-01T12:00:00" "" false;
     Record.mk "2" 150 "expense" "food" "2025-01-02T12:00:00" "" false]
    [] {[ "initial_balance" := JNum 500 ]} ∅.

Ltac floats_differ :=
  lazymatch goal with
  | |- ?l <> ?r =>
      let r' := eval vm_compute in r in
      lazymatch r' with
      | Some ?c =>
          let E := fresh in
          intros E;
          apply (f_equal (fun o => match o with
                                   | Some x => PrimFloat.eqb x c
                                   | None => false
                                   end)) in E;
          vm_compute in E; discriminate E
      end
  end.

(** whether a timestamp lies in the half-open range [[lo, hi)] *)
Definition in_range {A : Type} (lo hi : string) (r : Record.t A) : bool :=
  String.leb lo (Record.timestamp r) && String.ltb (Record.timestamp r) hi.

(** a bound of [filter_records] that is given: neither [None] nor empty *)
Definition given_bound (o : option string) : option string :=
  match o with
  | Some s => if String.eqb s "" then None else Some s
  | None => None
  end.

(** whether [filter_records(start, end)] keeps a record *)
Definition kept {A : Type} (start end_ : option string) (r : Record.t A) : bool :=
  match given_bound start with Some s => String.leb s (Record.timestamp r) | None => true end
  && match given_bound end_ with Some e => String.ltb (Record.timestamp r) e | None => true end.

(** whether a record adds its amount to bucket [c] *)
Definition contributes {A : Type} (c : string) (r : Record.t A) : bool :=
  if is_kind "expense" r then String.eqb (Record.category r) c else String.eqb c "Income".
(** whether the records make [c] a key *)
Definition touched {A : Type} (c : string) (rs : list (Record.t A)) : bool :=
  existsb (fun r => String.eqb (Record.category r) c) rs
  || (String.eqb c "Income" && existsb (fun r => negb (is_kind "expense" r)) rs).
(** the buckets that the records fill, read at [c] *)
Definition bucket {A : Type} `{Num A} (c : string) (rs : list (Record.t A)) : option A :=
  if touched c rs then Some (fold_left fadd (amounts_of (contributes c) rs) (lit 0)) else None.

(** the first day of the month with index [k] *)
Definition month_start (k : Z) : date := mk_date (k / 12) (k mod 12 + 1) 1.

(** the label of the month with index [k]: "YYYY-MM" from the year 1000 on,
    what the platform writes for an earlier year *)
Definition month_label (platform_Ym : date -> string) (k : Z) : string :=
  if 12 * 1000 <=? k then pad4 (k / 12) ++ "-" ++ pad2 (k mod 12 + 1)
  else platform_Ym (month_start k).





(** The methods of [Record] as the names that resolve through the class, and
    [setattr] on one of them putting the value into the instance. *)
Definition method_names (k : string) : bool :=
  String.eqb k "to_dict" || String.eqb k "from_dict".
Definition store_in_instance (k : string) (v : json float) (r : Dyn.obj float)
    : option (Dyn.obj float) :=
  Some (<[k := v]> r).

Definition dyn_example : Dyn.t float :=
  Dyn.mk fresh_storage (Dyn.of_record <$> User.records spec_example).
Definition dyn_kwargs : list (string * json float) :=
  [("id", JStr "20"); ("amount", JStr "12.5"); ("timestamp", JNull);
   ("overconsumption_mark", JStr "yes"); ("colour", JStr "red")].
(** [__class__] as a name that resolves through the class, and [setattr]
    refusing a value that is no class *)
Definition class_name (k : string) : bool := String.eqb k "__class__".
Definition refuse (k : string) (v : json float) (r : Dyn.obj float)
    : option (Dyn.obj float) := None.

(** doubles with a [float(str)] that reads the one string "12.5" *)
Definition reads_12_5 : Num float :=
  float_num (fun s => if String.eqb s "12.5" then Some 12.5%float else None).

(** ** Definitions for the further properties *)

(** the data hold the four top-level keys of the default snapshot *)
Definition has_default_keys {A : Type} `{Num A} (d : gmap string (json A)) : Prop :=
  forall k, is_Some ((Storage.default_data (A:=A)) !! k) -> is_Some (d !! k).

(** the fields of [Record] without a default *)
Definition record_required : list string := ["id"; "amount"; "kind"; "category"; "timestamp"].

(** a record dict with a key that is no field *)
Definition tagged_record : gmap string (json float) :=
  {[ "id" := JStr "1"; "amount" := JNum 5%float; "kind" := JStr "expense";
     "category" := JStr "food"; "timestamp" := JStr "2025-01-01T12:00:00";
     "colour" := JStr "red" ]}.

(** [given or now]: the value given unless it is [None] or empty *)
Definition given_or (given : option string) (now : string) : string :=
  match given with
  | Some s => if String.eqb s "" then now else s
  | None => now
  end.

(** the loan with [repaid] set *)
Definition repay {A : Type} (l : LoanRecord.t A) : LoanRecord.t A :=
  LoanRecord.mk (LoanRecord.id l) (LoanRecord.name l) (LoanRecord.amount l)
    (LoanRecord.loan_date l) (LoanRecord.due_date l) true (LoanRecord.note l).

(** an account with two loans *)
Definition two_loans : User.t float :=
  User.mk fresh_storage []
    [LoanRecord.mk "a" "Ann" 50%float "2025-01-01T09:00:00" (Some "2025-02-01") false "";
     LoanRecord.mk "b" "Bob" 70%float "2025-01-05T09:00:00" None false ""]
    Storage.default_settings ∅.

(** an account with the over-consumption category 'food' *)
Definition food_marked : User.t float :=
  User.mk fresh_storage [] [] Storage.default_settings {[ "food" ]}.

(** the notice of [check_thresholds] for the urgent threshold *)
Definition urgent_notice {A : Type} (fmt2 : A -> string) (bal : A) : string * string :=
  ("urgent", "余额已低于紧急阈值：" ++ fmt2 bal).

(** the same for the warning threshold *)
Definition warn_notice {A : Type} (fmt2 : A -> string) (bal : A) : string * string :=
  ("warn", "余额已低于预警阈值：" ++ fmt2 bal).

(** the notice of [check_overconsumption] *)
Definition over_notice {A : Type} (fmt2 : A -> string) (r : Record.t A) : string * string :=
  ("over", "检测到可能的过度消费：" ++ Record.category r ++ "，金额：" ++ fmt2 (Record.amount r)).

(** whether [check_loans] notifies for the loan: a due date is given, the
    loan is not repaid, the date can be read and is not after [today] *)
Definition loan_due {A : Type} (fromisoformat_date : string -> option date) (today : date)
    (l : LoanRecord.t A) : bool :=
  match LoanRecord.due_date l with
  | Some due =>
      negb (String.eqb due "") && negb (LoanRecord.repaid l)
      && match fromisoformat_date due with
         | Some dd => date_leb dd today
         | None => false
         end
  | None => false
  end.

(** the notice of [check_loans] for a loan *)
Definition loan_notice {A : Type} (fmt2 : A -> string) (l : LoanRecord.t A)
    : string * string :=
  ("loan", "借款到期：" ++ LoanRecord.name l ++ " 金额 " ++ fmt2 (LoanRecord.amount l)
           ++ " 应还日期 " ++ default "" (LoanRecord.due_date l)).

(** the thirteen bounds of the months of a year, as [yearly_summary] writes
    them: the first of each month and the first of the next January *)
Definition year_bounds (year : Z) : list string :=
  (Statistics.month_bound year <$> seqZ 1 12) ++ [Statistics.month_bound (year + 1) 1].

(** each bound at or before the next *)
Fixpoint ascending (bs : list string) : bool :=
  match bs with
  | b1 :: (b2 :: _) as rest => String.leb b1 b2 && ascending rest
  | _ => true
  end.

(** Σ of the amounts picked by [p], range by range *)
Fixpoint range_totals {A : Type} `{Num A} (p : Record.t A -> bool) (bs : list string)
    (rs : list (Record.t A)) : list A :=
  match bs with
  | b1 :: (b2 :: _) as rest =>
      total (amounts_of p (List.filter (in_range b1 b2) rs)) :: range_totals p rest rs
  | _ => []
  end.

(** the builtin [sum] on exact integers *)
Definition Z_sum : list Z -> Z := @total Z (Z_num (fun _ => None)).

(** What the program reads when it is started again on the file that the
    account's store has left: [storage = Storage(path); user = User(storage)]. *)
Definition restart {A : Type} `{Num A} (u : User.t A) : option (User.t A) :=
  User.init
    (Storage.init (Storage.path (User.storage u)) (Storage.disk (User.storage u))
       (Storage.medium (User.storage u))).

(** The calls that change the account: the mutating methods of [User] and
    [schedule_daily_reminder]. *)
Inductive call {A : Type} :=
  | Mutation (m : mutation A)
  | ScheduleDailyReminder (time_hhmm : string) (enabled : bool).
Arguments call A : clear implicits.

(** a method called for its effect *)
Definition discard {S R : Type} (m : M S R) : M S unit := do m then ret tt.

(** the call, its result dropped *)
Definition perform {A : Type} `{Num A} (c : call A) : M (User.t A) unit :=
  match c with
  | Mutation (AddRecord rid now a k c ts n) => discard (User.add_record rid now a k c ts n)
  | Mutation (DeleteRecord i) => discard (User.delete_record i)
  | Mutation (AddLoan lid now name a ld dd n) => discard (User.add_loan lid now name a ld dd n)
  | Mutation (MarkLoanRepaid i) => discard (User.mark_loan_repaid i)
  | Mutation (DeleteLoan i) => discard (User.delete_loan i)
  | Mutation (SetThresholds w x) => User.set_thresholds w x
  | Mutation (SetInitialBalance a) => User.set_initial_balance a
  | Mutation (AddCategory c) => User.add_overconsumption_category c
  | Mutation (RemoveCategory c) => User.remove_overconsumption_category c
  | Mutation (Restore f) => discard (User.restore_from_backup f)
  | ScheduleDailyReminder t e => ReminderService.schedule_daily_reminder t e
  end.

(** every write of the store goes through, the store is what loading its
    file gives, and it reads as the given records, loans, settings and
    categories *)
Definition stored {A : Type} `{Num A} (s : Storage.t A) (rs : list (Record.t A))
    (ls : list (LoanRecord.t A)) (st : gmap string (json A)) (oc : gset string) : Prop :=
  (forall n, Storage.medium s n = Storage.Completes)
  /\ Storage.init (Storage.path s) (Storage.disk s) (Storage.medium s) = s
  /\ Storage.get_records s = Some rs
  /\ Storage.get_loans s = Some ls
  /\ Storage._data s !! "settings" = Some (JObj st)
  /\ py_str_set (Storage.get_overconsumption_categories s) = Some oc.

(** the account that [User] builds over a store without a file *)
Definition fresh_account : User.t float :=
  User.mk fresh_storage [] [] Storage.default_settings ∅.

(** A file system on which the first write breaks off, and the fresh account
    on it. *)
Definition breaks_off_first (n : nat) : Storage.write :=
  match n with O => Storage.BreaksOff | S _ => Storage.Completes end.
Definition unreliable_storage : Storage.t float :=
  Storage.init "data.json" Storage.NoFile breaks_off_first.
Definition unreliable_account : User.t float :=
  User.mk unreliable_storage [] [] Storage.default_settings ∅.

(** [self._data[k] = v; self.save()], the shape of every setter of [Storage] *)
Definition store_key {A : Type} (k : string) (v : json A) (s : Storage.t A) : Storage.t A :=
  Storage.save (Storage.with_data (<[k := v]> (Storage._data s)) s).

(** the calls made one after the other, stopping at the first that raises *)
Fixpoint perform_all {A : Type} `{Num A} (cs : list (call A)) : M (User.t A) unit :=
  match cs with
  | [] => ret tt
  | c :: cs' => do perform c then perform_all cs'
  end.

(** JSON text that is no mapping and no empty sequence: [dict.update]
    raises on it *)
Definition not_a_mapping {A : Type} (j : json A) : Prop :=
  match j with
  | JNull | JBool _ | JNum _ => True
  | JStr s => s <> ""
  | JArr _ | JObj _ => False
  end.

(** the fields of [LoanRecord] without a default *)
Definition loan_required : list string := ["id"; "name"; "amount"; "loan_date"].

(** a value that [LoanRecord.from_dict] cannot take: no dict, or a dict with
    a key that is no field or without a field that has no default *)
Definition not_a_loan {A : Type} (d : json A) : Prop :=
  match d with
  | JObj m =>
      (exists k, is_Some (m !! k) /\ k ∉ LoanRecord.field_names)
      \/ (exists k, k ∈ loan_required /\ m !! k = None)
  | _ => True
  end.

(** a backup whose records can be read and whose loans cannot *)
Definition backup_bad_loans : json float :=
  JObj {[ "records" := JArr [Record.to_dict
                               (Record.mk "9" 10%float "expense" "food"
                                  "2025-03-01T08:00:00" "" false)];
          "loans" := JArr [JNum 1%float];
          "settings" := JObj ∅ ]}.

(** a backup of an earlier version: no 'overconsumption_categories' *)
Definition backup_without_categories : json float :=
  JObj {[ "records" := JArr []; "loans" := JArr []; "settings" := JObj ∅ ]}.

(** * Properties *)

Lemma Z_exact parse : @ExactNum Z (Z_num parse).
Proof. split; simpl; intros; lia. Qed.

(** ** The reminder thresholds *)

(** C2.  One poll of the threshold check is a function of the two flags, the
    balance and the two thresholds: when [bal <= urgent] it notifies 'urgent'
    iff [_warned_urgent] was false and leaves both flags true; otherwise, when
    [bal <= warn], it notifies 'warn' iff [_warned_low] was false and leaves
    [_warned_low] true and [_warned_urgent] false; otherwise it notifies
    nothing and leaves both flags false. *)
Theorem check_thresholds_poll {A : Type} `{Num A} (fmt2 : A -> string)
    (bal warn urgent : A) (s : ReminderService.t) :
  ReminderService.check fmt2 bal warn urgent s =
  Return tt
    (if fle bal urgent then
       ReminderService.mk true true
         (ReminderService.notified s ++
            if ReminderService._warned_urgent s then []
            else [("urgent", "余额已低于紧急阈值：" ++ fmt2 bal)])
     else if fle bal warn then
       ReminderService.mk false true
         (ReminderService.notified s ++
            if ReminderService._warned_low s then []
            else [("warn", "余额已低于预警阈值：" ++ fmt2 bal)])
     else ReminderService.mk false false (ReminderService.notified s)).
Proof.
  destruct s as [wu wl log].
  unfold ReminderService.check.
  destruct (fle bal urgent); [| destruct (fle bal warn)].
  - destruct wu; cbn; rewrite ?app_nil_r; reflexivity.
  - destruct wl; cbn; rewrite ?app_nil_r; reflexivity.
  - reflexivity.
Qed.

(** The hysteresis scenario of the specification: warn once, urgent once,
    silent reset. *)
Example poll_hysteresis :
  poll_kinds 3000 1000 [5000; 2000; 2000; 500; 500; 5000]%float = ["warn"; "urgent"].
Proof. vm_compute. reflexivity. Qed.

(** ** Loading the store *)

(** C5.  Without a file the store holds the default snapshot: no records, no
    loans, no categories, and the settings initial_balance 0, threshold_warn
    3000, threshold_urgent 1000, reminder_enabled false, reminder_time
    "20:00".  With a file that parses to an object, each top-level key of the
    file holds the file's value and every other key keeps its default: the
    merge replaces top-level values whole. *)
Theorem storage_load_shallow_merge {A : Type} `{Num A} (path : string)
    (w : nat -> Storage.write) :
  Storage._data (Storage.init path Storage.NoFile w) = Storage.default_data
  /\ Storage.default_data =
       {[ "records" := JArr []; "loans" := JArr [];
          "settings" := JObj Storage.default_settings;
          "overconsumption_categories" := JArr [] ]}
  /\ Storage.default_settings =
       {[ "initial_balance" := JNum (lit 0); "threshold_warn" := JNum (lit 3000);
          "threshold_urgent" := JNum (lit 1000); "reminder_enabled" := JBool false;
          "reminder_time" := JStr "20:00" ]}
  /\ (forall (m : gmap string (json A)) (k : string),
        Storage._data (Storage.init path (Storage.Parsed (JObj m)) w) !! k =
        match m !! k with
        | Some v => Some v
        | None => Storage.default_data !! k
        end).
Proof.
  split; [reflexivity |]. split; [reflexivity |]. split; [reflexivity |].
  intros m k.
  change (Storage._data (Storage.init path (Storage.Parsed (JObj m)) w))
    with (m ∪ Storage.default_data).
  rewrite lookup_union. destruct (m !! k) as [v |].
  - apply union_Some_l.
  - apply (left_id None _).
Qed.

(** A settings object in the file replaces the default one: a key it omits
    is gone, not defaulted. *)
Example storage_load_settings_replaced :
  Storage._data
    (Storage.init "data.json"
       (Storage.Parsed (JObj {[ "settings" := JObj {[ "threshold_warn" := JNum 10%float ]} ]}))
       Storage.sound) !! "settings"
  = Some (JObj ({[ "threshold_warn" := JNum 10%float ]} : gmap string (json float))).
Proof. reflexivity. Qed.

(** ** Restore: validation comes first *)

Lemma py_all_in_required {A : Type} (m : gmap string (json A)) :
  py_all_in User.required_keys (JObj m) =
  Some (bool_decide (is_Some (m !! "records")) && bool_decide (is_Some (m !! "loans"))
        && bool_decide (is_Some (m !! "settings"))).
Proof.
  unfold User.required_keys. cbn.
  repeat case_bool_decide; reflexivity.
Qed.

(** C3.  A backup file whose top-level object lacks 'records', 'loans' or
    'settings' makes [restore_from_backup] raise the validation error, wrapped
    as a restore failure, and the account (records, loans, settings,
    categories and the store) is what it was. *)
Theorem restore_missing_key_rejected {A : Type} `{Num A} (u : User.t A)
    (m : gmap string (json A)) :
  m !! "records" = None \/ m !! "loans" = None \/ m !! "settings" = None ->
  User.restore_from_backup (Storage.Parsed (JObj m)) u =
  Raise (Wrapped "恢复失败" (ValueError "无效的备份文件格式")) u.
Proof.
  intros Hmiss.
  unfold User.restore_from_backup, rewrap, bind, evaluate. cbn [ret].
  rewrite py_all_in_required.
  assert (bool_decide (is_Some (m !! "records")) && bool_decide (is_Some (m !! "loans"))
          && bool_decide (is_Some (m !! "settings")) = false) as ->.
  { destruct Hmiss as [E | [E | E]]; rewrite E;
      rewrite (bool_decide_eq_false_2 (is_Some None)) by (intros [? ?]; discriminate);
      rewrite ?andb_false_r; reflexivity. }
  reflexivity.
Qed.

Lemma restore_missing_key_rejected_witness :
  User.restore_from_backup (Storage.Parsed (JObj backup_without_loans)) salary_account =
  Raise (Wrapped "恢复失败" (ValueError "无效的备份文件格式")) salary_account.
Proof.
  apply (restore_missing_key_rejected salary_account backup_without_loans).
  right. left. reflexivity.
Defined.

(** ** Backup and restore *)

Lemma mapM_from_to {A B : Type} (f : B -> json A) (g : json A -> option B) (l : list B) :
  (forall x, g (f x) = Some x) -> mapM g (f <$> l) = Some l.
Proof.
  intros Hfg. induction l as [| x l IH]; [reflexivity |].
  cbn. rewrite Hfg. cbn. rewrite IH. reflexivity.
Qed.

Lemma Record_from_to_dict {A : Type} (r : Record.t A) :
  Record.from_dict (Record.to_dict r) = Some r.
Proof. destruct r. reflexivity. Qed.

Lemma LoanRecord_from_to_dict {A : Type} (l : LoanRecord.t A) :
  LoanRecord.from_dict (LoanRecord.to_dict l) = Some l.
Proof. destruct l as [? ? ? ? [] ? ?]; reflexivity. Qed.

Section Backup.
Context {A : Type} `{Num A}.

Lemma save_data (s : Storage.t A) : Storage._data (Storage.save s) = Storage._data s.
Proof. reflexivity. Qed.

Lemma set_records_settings (rs : list (Record.t A)) (s : Storage.t A) :
  Storage._data (Storage.set_records rs s) !! "settings" = Storage._data s !! "settings".
Proof.
  unfold Storage.set_records, Storage.set_records_dicts. rewrite save_data. cbn.
  apply lookup_insert_ne. discriminate.
Qed.

Lemma set_loans_settings (ls : list (LoanRecord.t A)) (s : Storage.t A) :
  Storage._data (Storage.set_loans ls s) !! "settings" = Storage._data s !! "settings".
Proof.
  unfold Storage.set_loans. rewrite save_data. cbn.
  apply lookup_insert_ne. discriminate.
Qed.

Lemma update_settings_returns (st : gmap string (json A)) (s : Storage.t A) :
  store_has_settings s -> exists s', Storage.update_settings st s = Return tt s'.
Proof.
  intros [m Hm]. unfold Storage.update_settings. rewrite Hm. eauto.
Qed.

Lemma init_settings_key (path : string) (f : Storage.file A)
    (w : nat -> Storage.write) :
  is_Some (Storage._data (Storage.init path f w) !! "settings").
Proof.
  unfold Storage.init, Storage._load. cbn [Storage.disk].
  destruct f as [| | j]; [eexists; reflexivity .. |].
  destruct (dict_update _ j) as [d |] eqn:Ed; [| eexists; reflexivity].
  cbn [Storage._data Storage.with_data].
  destruct j as [| | | s | [| ? ?] | m]; try discriminate.
  - cbn in Ed. destruct (String.eqb s ""); [| discriminate].
    injection Ed as <-. eexists; reflexivity.
  - injection Ed as <-. eexists; reflexivity.
  - injection Ed as <-. cbn [Storage._data]. rewrite lookup_union.
    destruct (m !! "settings") as [v |]; [exists v; apply union_Some_l |].
    rewrite (left_id None _). eexists; reflexivity.
Qed.

(** Every account that [User] builds over a store that [Storage] has loaded
    has the settings object in its store. *)
Lemma user_init_has_settings (path : string) (f : Storage.file A)
    (w : nat -> Storage.write) (u : User.t A) :
  User.init (Storage.init path f w) = Some u -> store_has_settings (User.storage u).
Proof.
  unfold User.init. intros Hu.
  destruct (Storage.get_records _); [| discriminate].
  destruct (Storage.get_loans _); [| discriminate]. cbn in Hu.
  destruct (as_obj (Storage.get_settings _)) as [st |] eqn:Est; [| discriminate]. cbn in Hu.
  destruct (py_str_set _); [| discriminate]. injection Hu as <-. cbn [User.storage].
  unfold Storage.get_settings, Storage.get_default in Est.
  destruct (init_settings_key path f w) as [v Hv]. rewrite Hv in Est. cbn in Est.
  destruct v; try discriminate. eexists. exact Hv.
Qed.

Lemma backup_has_required (now : string) (s : User.t A) :
  py_all_in User.required_keys (User.backup_data now s) = Some true.
Proof. reflexivity. Qed.

Lemma backup_records (now : string) (s : User.t A) :
  User.read_list Record.from_dict (User.backup_data now s) "records" = Some (User.records s).
Proof.
  unfold User.read_list.
  change (py_getitem (User.backup_data now s) "records")
    with (Some (JArr (Record.to_dict <$> User.records s))).
  cbn. apply mapM_from_to, Record_from_to_dict.
Qed.

Lemma backup_loans (now : string) (s : User.t A) :
  User.read_list LoanRecord.from_dict (User.backup_data now s) "loans" = Some (User.loans s).
Proof.
  unfold User.read_list.
  change (py_getitem (User.backup_data now s) "loans")
    with (Some (JArr (LoanRecord.to_dict <$> User.loans s))).
  cbn. apply mapM_from_to, LoanRecord_from_to_dict.
Qed.

Lemma backup_settings (now : string) (s : User.t A) :
  py_getitem (User.backup_data now s) "settings" = Some (JObj (User.settings s)).
Proof. reflexivity. Qed.

Lemma backup_has_cats (now : string) (s : User.t A) :
  py_in "overconsumption_categories" (User.backup_data now s) = Some true.
Proof. reflexivity. Qed.

Lemma backup_cats (now : string) (s : User.t A) :
  (v ← py_getitem (User.backup_data now s) "overconsumption_categories"; py_str_set v)
  = Some (User.overcats s).
Proof.
  change (py_getitem (User.backup_data now s) "overconsumption_categories")
    with (Some (JArr (JStr <$> elements (User.overcats s)) : json A)).
  cbn. unfold py_str_set. cbn.
  rewrite (mapM_from_to JStr as_str) by reflexivity.
  cbn. f_equal. apply list_to_set_elements_L.
Qed.

(** Restoring the backup of [s] into any account [cur] over a store with a
    settings object: what comes back. *)
Lemma restore_own_backup (now : string) (s cur : User.t A) :
  store_has_settings (User.storage cur) ->
  exists st' : Storage.t A,
    User.restore_from_backup (Storage.Parsed (User.backup_data now s)) cur =
    Return true
      (User.mk st' (User.records s) (User.loans s)
         (User.settings s ∪ User.settings cur) (User.overcats s)).
Proof.
  intros Hst.
  unfold User.restore_from_backup, rewrap, bind, evaluate. cbn [ret].
  rewrite backup_has_required. cbv beta iota delta [negb].
  rewrite backup_records. cbn [ret modify].
  rewrite backup_loans. cbn [ret modify get].
  rewrite backup_settings. cbn [mbind option_bind dict_update ret modify].
  rewrite backup_has_cats. cbn [ret].
  rewrite backup_cats. cbn [ret modify].
  unfold User.persist_records, User.persist_loans, User.persist_settings,
    User.persist_overcats, User.in_storage, zoom, bind, get, modify.
  cbn [User.storage User.records User.loans User.settings User.overcats
       User.with_storage User.with_records User.with_loans User.with_settings
       User.with_overcats].
  destruct (update_settings_returns (User.settings s ∪ User.settings cur)
              (Storage.set_loans (User.loans s)
                 (Storage.set_records (User.records s) (User.storage cur)))) as [s' Hs'].
  { destruct Hst as [m Hm]. exists m.
    rewrite set_loans_settings, set_records_settings. exact Hm. }
  rewrite Hs'. cbn. eauto.
Qed.
End Backup.

Section Keeps.
Context {A : Type} `{Num A}.

Lemma keeps_ret {R : Type} (r : R) : keeps (A:=A) (ret r).
Proof. intros u Hu. exact Hu. Qed.
Lemma keeps_raise {R : Type} (e : exn) : keeps (A:=A) (raise (R:=R) e).
Proof. intros u Hu. exact Hu. Qed.
Lemma keeps_get : keeps (A:=A) get.
Proof. intros u Hu. exact Hu. Qed.
Lemma keeps_eval {R : Type} (o : option R) : keeps (A:=A) (evaluate o).
Proof. destruct o; [apply keeps_ret | apply keeps_raise]. Qed.
Lemma keeps_bind {R R' : Type} (m : M (User.t A) R) (k : R -> M (User.t A) R') :
  keeps m -> (forall r, keeps (k r)) -> keeps (bind m k).
Proof.
  intros Hm Hk u Hu. unfold bind. specialize (Hm u Hu).
  destruct (m u) as [r s' | e s']; [apply Hk, Hm | exact Hm].
Qed.
Lemma keeps_rewrap {R : Type} (pre : string) (m : M (User.t A) R) : keeps m -> keeps (rewrap pre m).
Proof.
  intros Hm u Hu. unfold rewrap. specialize (Hm u Hu). destruct (m u); exact Hm.
Qed.
Lemma keeps_modify (f : User.t A -> User.t A) :
  (forall u, store_has_settings (User.storage u) -> store_has_settings (User.storage (f u))) ->
  keeps (modify f).
Proof. intros Hf u Hu. apply Hf, Hu. Qed.

Lemma set_overcats_settings (cats : list string) (s : Storage.t A) :
  Storage._data (Storage.set_overconsumption_categories cats s) !! "settings"
  = Storage._data s !! "settings".
Proof.
  unfold Storage.set_overconsumption_categories. rewrite save_data. cbn.
  apply lookup_insert_ne. discriminate.
Qed.

Lemma keeps_persist_records : keeps (A:=A) User.persist_records.
Proof.
  intros u [m Hm]. exists m. exact (eq_trans (set_records_settings _ _) Hm).
Qed.
Lemma keeps_persist_loans : keeps (A:=A) User.persist_loans.
Proof.
  intros u [m Hm]. exists m. exact (eq_trans (set_loans_settings _ _) Hm).
Qed.
Lemma keeps_persist_overcats : keeps (A:=A) User.persist_overcats.
Proof.
  intros u [m Hm]. exists m. exact (eq_trans (set_overcats_settings _ _) Hm).
Qed.
Lemma keeps_persist_settings : keeps (A:=A) User.persist_settings.
Proof.
  intros u [m Hm]. unfold User.persist_settings, User.in_storage, zoom, bind, get.
  unfold Storage.update_settings. rewrite Hm.
  cbn [state_of User.storage User.with_storage]. eexists.
  rewrite save_data. cbn [Storage._data Storage.with_data]. apply lookup_insert_eq.
Qed.

Ltac keeps_step :=
  first
    [ apply keeps_persist_records | apply keeps_persist_loans | apply keeps_persist_overcats
    | apply keeps_persist_settings | apply keeps_ret | apply keeps_raise | apply keeps_get
    | apply keeps_eval | apply keeps_rewrap
    | apply keeps_bind; [| intros ?]
    | apply keeps_modify; intros ? ?; assumption
    | match goal with |- keeps (if ?b then _ else _) => destruct b end
    | match goal with |- keeps (match ?x with _ => _ end) => destruct x end ].

(** Every mutating method, returning or raising, leaves the store with its
    settings object. *)
Lemma mutate_keeps_settings (m : mutation A) (u : User.t A) :
  store_has_settings (User.storage u) -> store_has_settings (User.storage (mutate m u)).
Proof.
  destruct m; cbn [mutate];
    match goal with |- _ -> store_has_settings (User.storage (state_of (?f u))) =>
      revert u; change (keeps f) end.
  - unfold User.add_record. repeat keeps_step.
  - unfold User.delete_record. repeat keeps_step.
  - unfold User.add_loan. repeat keeps_step.
  - unfold User.mark_loan_repaid. repeat keeps_step.
  - unfold User.delete_loan. repeat keeps_step.
  - unfold User.set_thresholds, User.set_float_setting. repeat keeps_step.
  - unfold User.set_initial_balance, User.set_float_setting. repeat keeps_step.
  - unfold User.add_overconsumption_category. repeat keeps_step.
  - unfold User.remove_overconsumption_category. repeat keeps_step.
  - unfold User.restore_from_backup. repeat keeps_step.
Qed.

Lemma mutations_keep_settings (ms : list (mutation A)) (u : User.t A) :
  store_has_settings (User.storage u) ->
  store_has_settings (User.storage (fold_left (fun u m => mutate m u) ms u)).
Proof.
  revert u. induction ms as [| m ms IH]; intros u Hu; [exact Hu |].
  cbn. apply IH, mutate_keeps_settings, Hu.
Qed.
End Keeps.

(** C4, as the program has it.  [create_backup] in state [s] writes a file
    and leaves [s] as it is; restoring that file, whatever the account [cur]
    has become since (its store still holding the settings object, as it
    does after any sequence of mutating calls), gives back the records, the
    loans and the category set of [s]; the settings of [s] are merged key by
    key over the current ones; and [get_balance] is that of [s] when the
    settings of [s] held 'initial_balance'. *)
Theorem backup_restore_roundtrip {A : Type} `{Num A} (backup_path : option string)
    (stamp now : string) (s cur : User.t A) :
  store_has_settings (User.storage cur) ->
  exists (path : string) (content : json A) (u' : User.t A),
    User.create_backup backup_path stamp now true s = Return (path, content) s
    /\ User.restore_from_backup (Storage.Parsed content) cur = Return true u'
    /\ User.records u' = User.records s
    /\ User.loans u' = User.loans s
    /\ User.overcats u' = User.overcats s
    /\ (forall k, User.settings u' !! k =
                  match User.settings s !! k with
                  | Some v => Some v
                  | None => User.settings cur !! k
                  end)
    /\ (is_Some (User.settings s !! "initial_balance") ->
        User.get_balance u' = User.get_balance s).
Proof.
  intros Hst. destruct (restore_own_backup now s cur Hst) as [st' Hr].
  do 3 eexists. split; [reflexivity |]. split; [exact Hr |]. cbn.
  assert (forall k, (User.settings s ∪ User.settings cur) !! k =
                    match User.settings s !! k with
                    | Some v => Some v
                    | None => User.settings cur !! k
                    end) as Hmerge.
  { intros k. rewrite lookup_union. destruct (User.settings s !! k).
    - apply union_Some_l.
    - apply (left_id None _). }
  repeat split; try reflexivity; [exact Hmerge |].
  intros [v Hv]. unfold User.get_balance, User.initial_balance. cbn.
  rewrite Hmerge, Hv. reflexivity.
Qed.

Lemma backup_restore_roundtrip_witness :
  exists (path : string) (content : json float) (u' : User.t float),
    User.create_backup (Some "backup.json") "20250103_090000" "2025-01-03T09:00:00" true
      salary_account = Return (path, content) salary_account
    /\ User.restore_from_backup (Storage.Parsed content) bare_account_later = Return true u'
    /\ User.records u' = User.records salary_account
    /\ User.loans u' = User.loans salary_account
    /\ User.overcats u' = User.overcats salary_account
    /\ (forall k, User.settings u' !! k =
                  match User.settings salary_account !! k with
                  | Some v => Some v
                  | None => User.settings bare_account_later !! k
                  end)
    /\ (is_Some (User.settings salary_account !! "initial_balance") ->
        User.get_balance u' = User.get_balance salary_account).
Proof.
  apply (backup_restore_roundtrip (Some "backup.json") "20250103_090000"
           "2025-01-03T09:00:00" salary_account bare_account_later).
  exists (<["initial_balance" := JNum 100%float]> ∅). reflexivity.
Defined.

(** The round trip fails to give back the balance: [bare_account] is what
    [User] reads from its store, its balance is 0.0; after a backup,
    [set_initial_balance(100)] and the restore of that backup, the balance is
    100.0, because the backup has no 'initial_balance' to put back. *)
Lemma backup_restore_balance_differs :
  User.init bare_storage = Some bare_account
  /\ exists (content : json float) (u' : User.t float),
       User.create_backup (Some "backup.json") "20250103_090000" "2025-01-03T09:00:00" true
         bare_account = Return ("backup.json", content) bare_account
       /\ User.restore_from_backup (Storage.Parsed content) bare_account_later = Return true u'
       /\ User.get_balance bare_account = Some 0%float
       /\ User.get_balance u' = Some 100%float
       /\ User.get_balance u' <> User.get_balance bare_account.
Proof.
  split; [vm_compute; reflexivity |].
  do 2 eexists. split; [vm_compute; reflexivity |].
  split; [vm_compute; reflexivity |].
  split; [vm_compute; reflexivity |].
  split; [vm_compute; reflexivity |].
  floats_differ.
Qed.

(** ** The balance *)

Section Exact.
Context {A : Type} `{ExactNum A}.

Lemma fsub_0_r (x : A) : fsub x (lit 0) = x.
Proof. rewrite <- (fadd_0_r x) at 1. apply fadd_sub. Qed.

Lemma fadd_0_l (x : A) : fadd (lit 0) x = x.
Proof. rewrite fadd_comm. apply fadd_0_r. Qed.

Lemma fadd_fsub_swap (x y z : A) : fadd (fsub x y) z = fsub (fadd x z) y.
Proof.
  rewrite <- (fsub_add x y) at 2.
  rewrite <- fadd_assoc, (fadd_comm y z), fadd_assoc.
  symmetry. apply fadd_sub.
Qed.

Lemma fsub_fsub (x y z : A) : fsub (fsub x y) z = fsub x (fadd y z).
Proof.
  rewrite <- (fsub_add x y) at 2. rewrite <- (fsub_add (fsub x y) z) at 2.
  rewrite <- fadd_assoc, (fadd_comm z y). apply eq_sym, fadd_sub.
Qed.

(** the loop of [get_balance] from a balance already split into its parts *)
Lemma balance_loop (rs : list (Record.t A)) (b i e : A) :
  fold_left User.balance_step rs (fsub (fadd b i) e) =
  fsub (fadd b (fadd i (total (amounts_of (is_kind "income") rs))))
       (fadd e (total (amounts_of (fun r => negb (is_kind "income" r)) rs))).
Proof.
  revert i e. induction rs as [| r rs IH]; intros i e.
  - cbn. rewrite !fadd_0_r. reflexivity.
  - cbn [fold_left]. unfold User.balance_step at 2, amounts_of, is_kind. cbn [List.filter].
    destruct (String.eqb (Record.kind r) "income") eqn:Ek; cbn [negb fmap list_fmap total foldr].
    + rewrite fadd_fsub_swap, <- (fadd_assoc b i). rewrite IH.
      unfold amounts_of, is_kind. rewrite <- (fadd_assoc i). reflexivity.
    + rewrite fsub_fsub. rewrite IH.
      unfold amounts_of, is_kind. rewrite <- (fadd_assoc e). reflexivity.
Qed.

(** the loop of [totals] *)
Lemma sums_loop (rs : list (Record.t A)) (i e : A) :
  fold_left Statistics.sums_step rs (i, e) =
  (fadd i (total (amounts_of (is_kind "income") rs)),
   fadd e (total (amounts_of (fun r => negb (is_kind "income" r)) rs))).
Proof.
  revert i e. induction rs as [| r rs IH]; intros i e.
  - cbn. rewrite !fadd_0_r. reflexivity.
  - cbn [fold_left]. unfold Statistics.sums_step at 2, amounts_of, is_kind.
    cbn [List.filter fst snd].
    destruct (String.eqb (Record.kind r) "income") eqn:Ek; cbn [negb fmap list_fmap total foldr];
      rewrite IH; unfold amounts_of, is_kind; rewrite <- fadd_assoc; reflexivity.
Qed.

Lemma get_balance_else (u : User.t A) : User.get_balance u = balance_formula_else u.
Proof.
  unfold User.get_balance, balance_formula_else.
  destruct (User.initial_balance u) as [b |]; [| reflexivity]. cbn. f_equal.
  rewrite <- (fsub_0_r b) at 1. rewrite <- (fadd_0_r b) at 1.
  rewrite balance_loop, !fadd_0_l. reflexivity.
Qed.

Lemma else_is_expense (rs : list (Record.t A)) :
  Forall known_kind rs ->
  amounts_of (fun r => negb (is_kind "income" r)) rs = amounts_of (is_kind "expense") rs.
Proof.
  unfold amounts_of. intros Hk. f_equal.
  induction Hk as [| r rs Hr _ IH]; [reflexivity |].
  cbn [List.filter]. rewrite IH. unfold is_kind.
  destruct Hr as [Hr | Hr]; rewrite Hr; reflexivity.
Qed.
End Exact.

(** C1, as the program has it.  [get_balance] goes through the records in
    order from [float(initial_balance)], adding the amount of a record whose
    kind is 'income' and subtracting the amount of any other record.  In
    arithmetic without rounding that is initial_balance + Σ(income amounts) −
    Σ(amounts of the records that are not incomes), which is the formula of
    the specification when every kind is 'income' or 'expense'.  On the
    example (500; income 200, expense 150) it is 550.0 in doubles. *)
Theorem get_balance_formula :
  (forall (A : Type) (N : Num A), ExactNum A -> forall u : User.t A,
      User.get_balance u = balance_formula_else u
      /\ (Forall known_kind (User.records u) -> User.get_balance u = balance_formula u))
  /\ User.get_balance spec_example = Some 550%float.
Proof.
  split; [| vm_compute; reflexivity].
  intros A N E u. split; [apply get_balance_else |].
  intros Hk. rewrite get_balance_else. unfold balance_formula_else, balance_formula.
  rewrite (else_is_expense _ Hk). reflexivity.
Qed.

Lemma get_balance_formula_witness :
  @User.get_balance Z (Z_num (fun _ => None)) Z_example
  = @balance_formula Z (Z_num (fun _ => None)) Z_example.
Proof.
  apply (proj1 get_balance_formula Z (Z_num (fun _ => None)) (Z_exact _) Z_example).
  constructor; [left; reflexivity |].
  constructor; [right; reflexivity | constructor].
Defined.

(** The formula of the specification fails on a record of another kind (a
    'transfer' of 100 is subtracted: 400.0, not 500.0), and in doubles it
    depends on the order of the additions (0.1 with incomes 0.2 and 0.3). *)
Lemma get_balance_formula_fails :
  User.get_balance
    (account_with 500 [Record.mk "1" 100%float "transfer" "bank" "2025-01-01T12:00:00" "" false])
  <> balance_formula
    (account_with 500 [Record.mk "1" 100%float "transfer" "bank" "2025-01-01T12:00:00" "" false])
  /\ User.get_balance
       (account_with 0.1
          [Record.mk "1" 0.2%float "income" "a" "2025-01-01T12:00:00" "" false;
           Record.mk "2" 0.3%float "income" "b" "2025-01-02T12:00:00" "" false])
     <> balance_formula
       (account_with 0.1
          [Record.mk "1" 0.2%float "income" "a" "2025-01-01T12:00:00" "" false;
           Record.mk "2" 0.3%float "income" "b" "2025-01-02T12:00:00" "" false]).
Proof. split; floats_differ. Qed.

(** ** totals against get_balance *)

(** C8, as the program has it.  In arithmetic without rounding, [totals]
    without bounds answers the balance that [get_balance] answers ([totals]
    sums incomes and expenses apart and adds initial_balance last,
    [get_balance] adds and subtracts record by record). *)
Theorem totals_balance_is_get_balance {A : Type} `{ExactNum A} (u : User.t A) :
  Statistics.balance <$> Statistics.totals None None u = User.get_balance u.
Proof.
  rewrite get_balance_else. unfold Statistics.totals, balance_formula_else.
  unfold Statistics.sums. cbn [Statistics.filter_records]. rewrite sums_loop.
  destruct (User.initial_balance u) as [b |]; [| reflexivity].
  cbn. f_equal. rewrite !fadd_0_l, fadd_fsub_swap. f_equal. apply fadd_comm.
Qed.

Lemma totals_balance_is_get_balance_witness :
  Statistics.balance <$> @Statistics.totals Z (Z_num (fun _ => None)) None None Z_example
  = @User.get_balance Z (Z_num (fun _ => None)) Z_example.
Proof.
  exact (@totals_balance_is_get_balance Z (Z_num (fun _ => None)) (Z_exact _) Z_example).
Defined.

(** In doubles the two differ: with initial_balance 0.1, an income of 0.2
    and an expense of 0.3, [totals] answers 0.2 - 0.3 + 0.1 and [get_balance]
    answers 0.1 + 0.2 - 0.3. *)
Lemma totals_balance_differs :
  Statistics.balance <$>
    Statistics.totals None None
      (account_with 0.1
         [Record.mk "1" 0.2%float "income" "a" "2025-01-01T12:00:00" "" false;
          Record.mk "2" 0.3%float "expense" "b" "2025-01-02T12:00:00" "" false])
  <> User.get_balance
       (account_with 0.1
          [Record.mk "1" 0.2%float "income" "a" "2025-01-01T12:00:00" "" false;
           Record.mk "2" 0.3%float "expense" "b" "2025-01-02T12:00:00" "" false]).
Proof. floats_differ. Qed.

(** ** Kinds other than 'income' *)

Lemma filter_records_app {A : Type} (start end_ : option string) (l1 l2 : list (Record.t A)) :
  Statistics.filter_records start end_ (l1 ++ l2) =
  (Statistics.filter_records start end_ l1 ++ Statistics.filter_records start end_ l2)%list.
Proof.
  unfold Statistics.filter_records.
  destruct start as [s |], end_ as [e |];
    try destruct (String.eqb s ""); try destruct (String.eqb e "");
    rewrite ?List.filter_app; reflexivity.
Qed.

(** what [filter_records] keeps *)

Section Ranges.
Context {A : Type}.

Lemma filter_filter_andb {B : Type} (p q : B -> bool) (l : list B) :
  List.filter q (List.filter p l) = List.filter (fun x => p x && q x) l.
Proof.
  induction l as [| x l IH]; [reflexivity |].
  cbn. destruct (p x); cbn; [destruct (q x) |]; rewrite IH; reflexivity.
Qed.

Lemma filter_records_range (lo hi : string) (rs : list (Record.t A)) :
  lo <> "" -> hi <> "" ->
  Statistics.filter_records (Some lo) (Some hi) rs = List.filter (in_range lo hi) rs.
Proof.
  intros Hlo Hhi. unfold Statistics.filter_records.
  rewrite (proj2 (String.eqb_neq _ _) Hlo), (proj2 (String.eqb_neq _ _) Hhi).
  apply filter_filter_andb.
Qed.

End Ranges.

Section FilterProps.
Context {A : Type}.

Lemma filter_all {B : Type} (l : list B) : List.filter (fun _ => true) l = l.
Proof. induction l as [| x l IH]; [reflexivity |]. cbn. rewrite IH. reflexivity. Qed.

Lemma filter_records_kept (start end_ : option string) (rs : list (Record.t A)) :
  Statistics.filter_records start end_ rs = List.filter (kept start end_) rs.
Proof.
  unfold Statistics.filter_records, kept, given_bound.
  destruct start as [s |], end_ as [e |];
    repeat match goal with |- context [String.eqb ?x ""] => destruct (String.eqb x "") end;
    rewrite ?filter_filter_andb; cbn [andb];
    try reflexivity;
    try (symmetry; apply filter_all);
    apply List.filter_ext; intros r; rewrite ?andb_true_r; reflexivity.
Qed.

Lemma list_filter_sublist {B : Type} (p : B -> bool) (l : list B) :
  sublist (List.filter p l) l.
Proof.
  induction l as [| x l IH]; [constructor |].
  cbn. destruct (p x); [apply sublist_skip | apply sublist_cons]; exact IH.
Qed.

End FilterProps.

(** C9.  A record whose kind is not 'income' (whether 'expense' or anything
    else) is an expense for both computations.  On an account whose initial
    balance [float] can read, [get_balance] and [totals] return; with the
    record appended to the records, [get_balance] returns the balance less
    its amount, and [totals] returns, when the timestamp of the record lies
    in the range asked for, the same income, the expense total plus its
    amount and the balance made of these, and when it lies outside the
    totals that it returned before. *)
Theorem not_income_is_expense {A : Type} `{Num A} (u : User.t A) (r : Record.t A)
    (start end_ : option string) (b0 : A) :
  Record.kind r <> "income" ->
  User.initial_balance u = Some b0 ->
  exists (bal : A) (t : Statistics.totals_t A),
    User.get_balance u = Some bal
    /\ User.get_balance (User.with_records (User.records u ++ [r]) u)
       = Some (fsub bal (Record.amount r))
    /\ Statistics.totals start end_ u = Some t
    /\ Statistics.totals start end_ (User.with_records (User.records u ++ [r]) u)
       = Some (if kept start end_ r
               then Statistics.mk_totals (Statistics.income t)
                      (fadd (Statistics.expense t) (Record.amount r))
                      (fadd (fsub (Statistics.income t)
                               (fadd (Statistics.expense t) (Record.amount r))) b0)
               else t).
Proof.
  intros Hk Hb0.
  assert (String.eqb (Record.kind r) "income" = false) as Ek
    by (apply String.eqb_neq; exact Hk).
  assert (User.initial_balance (User.with_records (User.records u ++ [r]) u) = Some b0) as Hb1
    by exact Hb0.
  unfold User.get_balance, Statistics.totals. rewrite Hb0, Hb1.
  cbn [mbind option_bind User.with_records User.records].
  rewrite !filter_records_kept, List.filter_app. unfold Statistics.sums.
  rewrite !fold_left_app. cbn [List.filter].
  destruct (fold_left Statistics.sums_step _ (lit 0, lit 0)) as [i e].
  do 2 eexists. split; [reflexivity |]. split.
  - cbn [fold_left]. unfold User.balance_step at 1. rewrite Ek. reflexivity.
  - split; [reflexivity |].
    destruct (kept start end_ r); cbn [fold_left]; [| reflexivity].
    unfold Statistics.sums_step. rewrite Ek. reflexivity.
Qed.

Lemma not_income_is_expense_witness :
  exists (bal : float) (t : Statistics.totals_t float),
    User.get_balance salary_account = Some bal
    /\ User.get_balance
         (User.with_records
            (User.records salary_account
               ++ [Record.mk "9" 30%float "expnse" "food" "2025-01-05T08:00:00" "" false])
            salary_account)
       = Some (fsub bal 30%float)
    /\ Statistics.totals (Some "2025-01-01") None salary_account = Some t
    /\ Statistics.totals (Some "2025-01-01") None
         (User.with_records
            (User.records salary_account
               ++ [Record.mk "9" 30%float "expnse" "food" "2025-01-05T08:00:00" "" false])
            salary_account)
       = Some (if kept (Some "2025-01-01") None
                    (Record.mk "9" 30%float "expnse" "food" "2025-01-05T08:00:00" "" false)
               then Statistics.mk_totals (Statistics.income t)
                      (fadd (Statistics.expense t) 30%float)
                      (fadd (fsub (Statistics.income t)
                               (fadd (Statistics.expense t) 30%float)) 500%float)
               else t).
Proof.
  apply (not_income_is_expense salary_account
           (Record.mk "9" 30%float "expnse" "food" "2025-01-05T08:00:00" "" false)
           (Some "2025-01-01") None 500%float).
  - discriminate.
  - reflexivity.
Defined.

(** The 'expnse' of 30 on the account with 500 and an income of 200: the
    balance goes from 700.0 to 670.0 and the expense total from 0.0 to
    30.0. *)
Example misspelled_kind_is_subtracted :
  User.get_balance salary_account = Some 700%float
  /\ User.get_balance
       (User.with_records
          (User.records salary_account
             ++ [Record.mk "9" 30%float "expnse" "food" "2025-01-05T08:00:00" "" false])
          salary_account) = Some 670%float
  /\ Statistics.totals None None
       (User.with_records
          (User.records salary_account
             ++ [Record.mk "9" 30%float "expnse" "food" "2025-01-05T08:00:00" "" false])
          salary_account)
     = Some (Statistics.mk_totals 200%float 30%float 670%float).
Proof. repeat split; vm_compute; reflexivity. Qed.

(** ** category_breakdown *)

Section Breakdown.
Context {A : Type} `{Num A}.

Lemma setdefault_lookup (k k' : string) (v : A) (b : gmap string A) :
  Statistics.setdefault k v b !! k' =
  if String.eqb k k' then Some (default v (b !! k)) else b !! k'.
Proof.
  unfold Statistics.setdefault.
  destruct (String.eqb_spec k k') as [<- | Hne].
  - destruct (b !! k) eqn:E; [rewrite E; reflexivity | apply lookup_insert_eq].
  - destruct (b !! k) eqn:E; [reflexivity | apply lookup_insert_ne, Hne].
Qed.

Lemma add_to_lookup (k k' : string) (x : A) (b : gmap string A) :
  Statistics.add_to k x b !! k' =
  if String.eqb k k' then (fun old => fadd old x) <$> b !! k else b !! k'.
Proof.
  unfold Statistics.add_to.
  destruct (String.eqb_spec k k') as [<- | Hne].
  - apply lookup_alter_eq.
  - apply lookup_alter_ne, Hne.
Qed.

Lemma untouched_no_amounts (c : string) (rs : list (Record.t A)) :
  touched c rs = false -> amounts_of (contributes c) rs = [].
Proof.
  unfold touched, amounts_of. intros Ht.
  apply orb_false_elim in Ht as [H1 H2].
  induction rs as [| r rs IH]; [reflexivity |].
  cbn in H1, H2 |- *. apply orb_false_elim in H1 as [H1a H1b].
  unfold contributes at 1.
  destruct (is_kind "expense" r) eqn:Ek.
  - rewrite H1a. apply IH; [exact H1b |].
    destruct (String.eqb c "Income"); [| reflexivity]. cbn in H2 |- *. exact H2.
  - destruct (String.eqb c "Income"); [cbn in H2; discriminate |].
    apply IH; [exact H1b | reflexivity].
Qed.

Lemma bucket_default (c : string) (rs : list (Record.t A)) :
  default (lit 0) (bucket c rs) = fold_left fadd (amounts_of (contributes c) rs) (lit 0).
Proof.
  unfold bucket. destruct (touched c rs) eqn:Et; [reflexivity |].
  rewrite (untouched_no_amounts _ _ Et). reflexivity.
Qed.

Lemma touched_snoc (c : string) (rs : list (Record.t A)) (r : Record.t A) :
  touched c (rs ++ [r]) =
  touched c rs || String.eqb (Record.category r) c
  || (String.eqb c "Income" && negb (is_kind "expense" r)).
Proof.
  unfold touched. rewrite !existsb_app. cbn.
  destruct (existsb _ rs), (existsb _ rs), (String.eqb (Record.category r) c),
    (String.eqb c "Income"), (is_kind "expense" r); reflexivity.
Qed.

Lemma amounts_snoc (c : string) (rs : list (Record.t A)) (r : Record.t A) :
  fold_left fadd (amounts_of (contributes c) (rs ++ [r])) (lit 0) =
  if contributes c r
  then fadd (fold_left fadd (amounts_of (contributes c) rs) (lit 0)) (Record.amount r)
  else fold_left fadd (amounts_of (contributes c) rs) (lit 0).
Proof.
  unfold amounts_of. rewrite List.filter_app, fmap_app, fold_left_app. cbn.
  destruct (contributes c r); reflexivity.
Qed.

Lemma breakdown_step_bucket (b : gmap string A) (rs : list (Record.t A)) (r : Record.t A) :
  (forall c, b !! c = bucket c rs) ->
  forall c, Statistics.breakdown_step b r !! c = bucket c (rs ++ [r]).
Proof.
  intros Hb c. unfold Statistics.breakdown_step.
  unfold bucket at 1. rewrite touched_snoc, amounts_snoc. unfold contributes at 1.
  fold (is_kind "expense" r).
  destruct (is_kind "expense" r) eqn:Ek.
  - rewrite add_to_lookup, !setdefault_lookup, String.eqb_refl.
    rewrite andb_false_r, orb_false_r.
    destruct (String.eqb_spec (Record.category r) c) as [-> | Hne].
    + rewrite orb_true_r. cbn. rewrite Hb, bucket_default. reflexivity.
    + rewrite orb_false_r. rewrite Hb. reflexivity.
  - rewrite add_to_lookup, !setdefault_lookup, String.eqb_refl.
    rewrite andb_true_r. rewrite (String.eqb_sym c "Income").
    destruct (String.eqb_spec "Income" c) as [<- | Hne].
    + rewrite orb_true_r. cbn.
      destruct (String.eqb (Record.category r) "Income") eqn:Ec.
      * apply String.eqb_eq in Ec. rewrite Ec. cbn. rewrite Hb, bucket_default. reflexivity.
      * cbn. rewrite Hb, bucket_default. reflexivity.
    + rewrite orb_false_r.
      destruct (String.eqb_spec (Record.category r) c) as [-> | Hne'].
      * rewrite orb_true_r. rewrite Hb, bucket_default. reflexivity.
      * rewrite orb_false_r. rewrite Hb. reflexivity.
Qed.

Lemma no_contribution (c : string) (rs : list (Record.t A)) :
  c <> "Income" ->
  Forall (fun r' => is_kind "expense" r' = true -> Record.category r' <> c) rs ->
  amounts_of (contributes c) rs = [].
Proof.
  intros Hinc Hexp. unfold amounts_of.
  induction Hexp as [| r' rs Hr' _ IH]; [reflexivity |].
  cbn [List.filter]. unfold contributes at 1.
  destruct (is_kind "expense" r') eqn:Ek.
  - destruct (String.eqb_spec (Record.category r') c) as [E | _];
      [destruct (Hr' eq_refl E) | exact IH].
  - destruct (String.eqb_spec c "Income") as [E | _];
      [destruct (Hinc E) | exact IH].
Qed.

Lemma breakdown_loop (l2 l1 : list (Record.t A)) (b : gmap string A) :
  (forall c, b !! c = bucket c l1) ->
  forall c, fold_left Statistics.breakdown_step l2 b !! c = bucket c (l1 ++ l2).
Proof.
  revert l1 b. induction l2 as [| r l2 IH]; intros l1 b Hb c.
  - rewrite app_nil_r. apply Hb.
  - cbn [fold_left]. rewrite (cons_middle r l1 l2), app_assoc.
    apply IH. apply breakdown_step_bucket, Hb.
Qed.
End Breakdown.

(** C6, as the program has it.  Over the records that the range keeps
    (those whose timestamp is at or after [start] and before [end], a bound
    that is [None] or empty not restricting), [category_breakdown] answers
    the mapping in which the bucket of a category holds, added in record
    order to 0.0, the amounts of the expense records of that category, the
    bucket "Income" the amounts of all other records (every income record,
    whatever its category) besides the expenses filed under that very name,
    and in which every category met is a key.  The category of a record
    that is no expense has the bucket 0.0 when no expense shares it and it
    is not "Income" itself. *)
Theorem category_breakdown_buckets {A : Type} `{Num A} (start end_ : option string)
    (u : User.t A) :
  (forall c, Statistics.category_breakdown start end_ u !! c
             = bucket c (List.filter (kept start end_) (User.records u)))
  /\ (forall r, r ∈ List.filter (kept start end_) (User.records u) ->
        is_Some (Statistics.category_breakdown start end_ u !! Record.category r))
  /\ (forall r, r ∈ List.filter (kept start end_) (User.records u) ->
        Record.category r <> "Income" ->
        Forall (fun r' => is_kind "expense" r' = true -> Record.category r' <> Record.category r)
          (List.filter (kept start end_) (User.records u)) ->
        Statistics.category_breakdown start end_ u !! Record.category r = Some (lit 0)).
Proof.
  assert (forall c, Statistics.category_breakdown start end_ u !! c
                    = bucket c (List.filter (kept start end_) (User.records u))) as Hb.
  { intros c. unfold Statistics.category_breakdown. rewrite filter_records_kept.
    apply (breakdown_loop _ [] ∅). intros c'. rewrite lookup_empty.
    unfold bucket, touched. cbn. rewrite andb_false_r. reflexivity. }
  assert (forall r, r ∈ List.filter (kept start end_) (User.records u) ->
            touched (Record.category r) (List.filter (kept start end_) (User.records u))
            = true) as Ht.
  { intros r Hr. unfold touched. apply orb_true_iff. left.
    apply existsb_exists. exists r. split; [apply list_elem_of_In, Hr | apply String.eqb_refl]. }
  split; [exact Hb |]. split.
  - intros r Hr. rewrite Hb. unfold bucket. rewrite (Ht r Hr). eauto.
  - intros r Hr Hinc Hexp. rewrite Hb. unfold bucket. rewrite (Ht r Hr). f_equal.
    rewrite (no_contribution _ _ Hinc Hexp). reflexivity.
Qed.

Lemma category_breakdown_buckets_witness :
  Statistics.category_breakdown None None spec_example !! "salary" = Some 0%float.
Proof.
  pose (r := Record.mk "1" 200%float "income" "salary" "2025-01-01T12:00:00" "" false).
  assert (r ∈ List.filter (kept None None) (User.records spec_example)) as Hr
    by (apply list_elem_of_In; left; reflexivity).
  assert (Record.category r <> "Income") as Hc by discriminate.
  assert (Forall (fun r' => is_kind "expense" r' = true -> Record.category r' <> Record.category r)
            (List.filter (kept None None) (User.records spec_example))) as He
    by (repeat constructor; discriminate).
  exact (proj2 (proj2 (category_breakdown_buckets None None spec_example)) r Hr Hc He).
Defined.

(** An income filed under the category "Income": its category has no
    expense, and the bucket under that name is not 0.0 but the amount. *)
Lemma income_named_Income_is_not_zero :
  Statistics.category_breakdown None None income_under_Income = {[ "Income" := 5%float ]}
  /\ Statistics.category_breakdown None None income_under_Income !! "Income"
     <> Some 0%float.
Proof.
  split; [vm_compute; reflexivity |].
  intros E.
  apply (f_equal (fun o => match o with Some x => PrimFloat.eqb x 5 | None => false end)) in E.
  vm_compute in E. discriminate E.
Qed.

(** The buckets of an income under 'salary', an expense under 'food' and a
    'transfer' under 'bank': the categories of the two records that are no
    expenses are keys with 0.0, and both amounts are under "Income". *)
Example category_breakdown_example :
  Statistics.category_breakdown None None
    (account_with 0
       [Record.mk "1" 200%float "income" "salary" "2025-01-01T12:00:00" "" false;
        Record.mk "2" 150%float "expense" "food" "2025-01-02T12:00:00" "" false;
        Record.mk "3" 40%float "transfer" "bank" "2025-01-03T12:00:00" "" false])
  = {[ "salary" := 0%float; "Income" := 240%float; "food" := 150%float; "bank" := 0%float ]}.
Proof. vm_compute. reflexivity. Qed.

(** The same three records asked for the 2nd of January alone: only the
    expense under 'food' is in the range. *)
Example category_breakdown_in_range :
  Statistics.category_breakdown (Some "2025-01-02") (Some "2025-01-03")
    (account_with 0
       [Record.mk "1" 200%float "income" "salary" "2025-01-01T12:00:00" "" false;
        Record.mk "2" 150%float "expense" "food" "2025-01-02T12:00:00" "" false;
        Record.mk "3" 40%float "transfer" "bank" "2025-01-03T12:00:00" "" false])
  = {[ "food" := 150%float ]}.
Proof. vm_compute. reflexivity. Qed.

(** ** monthly_series *)

Lemma month_back_closed (fuel : nat) (y m : Z) :
  m <= 12 -> 1 <= m + 12 * Z.of_nat fuel ->
  month_back fuel y m = (y + (m - 1) / 12, (m - 1) mod 12 + 1).
Proof.
  revert y m. induction fuel as [| fuel IH]; intros y m Hm Hfuel; cbn [month_back].
  - destruct (Z.leb_spec m 0); [lia |].
    f_equal; Z.to_euclidean_division_equations; lia.
  - destruct (Z.leb_spec m 0).
    + rewrite IH by lia. f_equal; Z.to_euclidean_division_equations; lia.
    + f_equal; Z.to_euclidean_division_equations; lia.
Qed.

(** The rounds that [month_entry] allows the loop are enough: it ends with a
    month between 1 and 12. *)
Lemma month_back_ends (y m i : Z) :
  1 <= m <= 12 -> 0 <= i -> 1 <= snd (month_back (Z.to_nat i) y (m - i)) <= 12.
Proof.
  intros Hm Hi.
  rewrite month_back_closed by (rewrite ?Z2Nat.id by lia; lia).
  cbn [snd]. Z.to_euclidean_division_equations; lia.
Qed.



Section Monthly.
Context {A : Type} `{Num A}.
Variable platform_Ym : date -> string.




End Monthly.


(** The entries are as many as were asked for. *)
Lemma monthly_series_length {A : Type} `{Num A} (platform_Ym : date -> string)
    (today : date) (months : Z) (u : User.t A) (l : list (string * A * A)) :
  Statistics.monthly_series platform_Ym today months u = Some l ->
  Z.of_nat (length l) = Z.max 0 months.
Proof.
  unfold Statistics.monthly_series. intros E.
  apply length_mapM in E. rewrite <- E, length_reverse, length_seqZ. lia.
Qed.

(** Six months on 15 March 2025: October 2024 to March 2025, the two records
    of January in their month.  The labels are those of the program whatever
    the platform writes for the years before 1000. *)
Example monthly_series_example (platform_Ym : date -> string) :
  Statistics.monthly_series platform_Ym (mk_date 2025 3 15) 6 spec_example =
  Some [("2024-10", 0, 0); ("2024-11", 0, 0); ("2024-12", 0, 0);
        ("2025-01", 200, 150); ("2025-02", 0, 0); ("2025-03", 0, 0)]%float.
Proof. vm_compute. reflexivity. Qed.


(** ** update_record *)

Section DynProps.
Context {A : Type} `{Num A}.
Variable class_attr : string -> bool.
Variable setattr_class : string -> json A -> gmap string (json A) -> option (gmap string (json A)).










End DynProps.



(** [update_record('2', id='20')]: the record answers to the new id and no
    longer to the old one. *)
Example update_record_changes_id :
  (fun u => (Dyn.first_match "2" (Dyn.records u) 0, Dyn.first_match "20" (Dyn.records u) 0))
    (state_of (Dyn.update_record method_names store_in_instance "2" [("id", JStr "20")]
                 dyn_example))
  = (Some None, Some (Some 1%nat)).
Proof. vm_compute. reflexivity. Qed.

(** [update_record('2', amount='12.5')] leaves the string in the record;
    [add_record('12.5', ...)] stores the float 12.5. *)
Example update_record_keeps_amount_as_given :
  (r ← value_of (Dyn.update_record method_names store_in_instance "2"
                   [("amount", JStr "12.5")] dyn_example);
   o ← r; o !! "amount") = Some (JStr "12.5")
  /\ Record.amount <$>
       value_of (@User.add_record float reads_12_5 "3" "2025-02-01T10:00:00" (JStr "12.5")
                   "expense" "food" None "" spec_example)
     = Some 12.5%float.
Proof. split; vm_compute; reflexivity. Qed.


(** A keyword named [__class__], with a value that is no class: [hasattr]
    finds it, [setattr] raises, and neither the record nor the file has
    changed. *)
Example update_record_refused_by_setattr :
  Dyn.update_record class_name refuse "2" [("__class__", JNum 5%float)] dyn_example
  = Raise Builtin dyn_example.
Proof. vm_compute. reflexivity. Qed.

(** * Further properties

    Edge and error behaviour, round trips and the interplay of the methods,
    read off the code. *)

(** ** The data classes *)

(** X1.  [from_dict] undoes [to_dict]: for every record and every loan, the
    object built from the dict that [to_dict] gives is the object itself (a
    loan without a due date goes through [null]). *)
Theorem dataclass_dict_roundtrip {A : Type} :
  (forall r : Record.t A, Record.from_dict (Record.to_dict r) = Some r)
  /\ (forall l : LoanRecord.t A, LoanRecord.from_dict (LoanRecord.to_dict l) = Some l).
Proof. split; [apply Record_from_to_dict | apply LoanRecord_from_to_dict]. Qed.

(** X2.  [Record.from_dict] raises on a dict with a key that is no field of
    [Record], and on a dict without one of the fields that have no default
    (id, amount, kind, category, timestamp). *)
Theorem record_from_dict_rejects {A : Type} (m : gmap string (json A)) (k : string) :
  (is_Some (m !! k) /\ k ∉ Record.field_names) \/ (k ∈ record_required /\ m !! k = None) ->
  Record.from_dict (JObj m) = None.
Proof.
  intros [[Hk Hn] | [Hk Hn]]; unfold Record.from_dict; cbn [as_obj mbind option_bind].
  - rewrite bool_decide_eq_false_2; [reflexivity |].
    intros Hsub. apply Hn, Hsub. apply elem_of_dom, Hk.
  - case_bool_decide; [| reflexivity].
    unfold record_required in Hk.
    rewrite !elem_of_cons in Hk. rewrite elem_of_nil in Hk.
    destruct Hk as [-> | [-> | [-> | [-> | [-> | []]]]]]; rewrite ?Hn; cbn;
      repeat match goal with
             | |- context [m !! ?x ≫= ?f] => destruct (m !! x ≫= f); cbn; try reflexivity
             end; rewrite ?Hn; reflexivity.
Qed.

Lemma record_from_dict_rejects_witness :
  Record.from_dict (JObj tagged_record) = None.
Proof.
  apply (record_from_dict_rejects tagged_record "colour").
  left. split; [eexists; reflexivity |].
  vm_compute. discriminate.
Defined.

(** ** The store and its file *)

Section StoreProps.
Context {A : Type} `{Num A}.

Lemma default_keys (k : string) :
  is_Some (Storage.default_data (A:=A) !! k) ->
  k = "records" \/ k = "loans" \/ k = "settings" \/ k = "overconsumption_categories".
Proof.
  intros Hk.
  destruct (decide (k = "records")) as [-> | N1]; [tauto |].
  destruct (decide (k = "loans")) as [-> | N2]; [tauto |].
  destruct (decide (k = "settings")) as [-> | N3]; [tauto |].
  destruct (decide (k = "overconsumption_categories")) as [-> | N4]; [tauto |].
  exfalso. unfold Storage.default_data in Hk. cbn in Hk.
  rewrite !lookup_insert_ne in Hk by congruence.
  rewrite lookup_empty in Hk. destruct Hk; discriminate.
Qed.

Lemma union_defaults (d : gmap string (json A)) :
  has_default_keys d -> d ∪ Storage.default_data = d.
Proof.
  intros Hd. apply map_eq. intros k. rewrite lookup_union.
  destruct (d !! k) as [v |] eqn:Ed.
  - apply union_Some_l.
  - rewrite (left_id None _).
    destruct (Storage.default_data !! k) as [v |] eqn:Ek; [| reflexivity].
    destruct (Hd k) as [w Hw]; [eexists; exact Ek |]. congruence.
Qed.

Lemma init_has_default_keys (path : string) (f : Storage.file A)
    (w : nat -> Storage.write) :
  has_default_keys (Storage._data (Storage.init path f w)).
Proof.
  intros k Hk. unfold Storage.init, Storage._load. cbn [Storage.disk].
  destruct f as [| | j]; [exact Hk .. |].
  destruct (dict_update _ j) as [d |] eqn:Ed; [| exact Hk].
  cbn [Storage._data Storage.with_data].
  destruct j as [| | | s | [| ? ?] | m]; try discriminate.
  - cbn in Ed. destruct (String.eqb s ""); [| discriminate].
    injection Ed as <-. exact Hk.
  - injection Ed as <-. exact Hk.
  - injection Ed as <-. cbn [Storage._data]. rewrite lookup_union.
    destruct (m !! k) as [v |]; [exists v; apply union_Some_l |].
    rewrite (left_id None _). exact Hk.
Qed.

Lemma insert_has_default_keys (d : gmap string (json A)) (k : string) (v : json A) :
  has_default_keys d -> has_default_keys (<[k := v]> d).
Proof.
  intros Hd k' Hk'. destruct (decide (k = k')) as [-> | N].
  - rewrite lookup_insert_eq. eauto.
  - rewrite lookup_insert_ne by exact N. apply Hd, Hk'.
Qed.

Lemma reload_saved (s : Storage.t A) :
  Storage.medium s 0%nat = Storage.Completes -> has_default_keys (Storage._data s) ->
  Storage.init (Storage.path s) (Storage.disk (Storage.save s)) (Storage.medium (Storage.save s))
  = Storage.save s.
Proof.
  intros Hw Hd. unfold Storage.save. rewrite Hw. cbn [Storage.disk Storage.medium].
  unfold Storage.init, Storage._load. cbn [Storage.disk dict_update Storage._data].
  unfold Storage.with_data. cbn [Storage.path Storage._data Storage.disk Storage.medium].
  rewrite (union_defaults _ Hd). reflexivity.
Qed.

End StoreProps.

(** X4.  [save] never changes the data in memory, whatever the write meets.
    On a store whose data hold the four top-level keys, a [Storage] built
    afterwards on the same path is the saved store when the write went
    through, and holds the default snapshot when the dump broke off after
    the file was opened; when the file could not be opened, it is the file
    that was there before. *)
Theorem save_then_load {A : Type} `{Num A} (s : Storage.t A) :
  (forall k, k ∈ ["records"; "loans"; "settings"; "overconsumption_categories"] ->
             is_Some (Storage._data s !! k)) ->
  Storage._data (Storage.save s) = Storage._data s
  /\ match Storage.medium s 0%nat with
     | Storage.Completes =>
         Storage.init (Storage.path s) (Storage.disk (Storage.save s))
           (Storage.medium (Storage.save s)) = Storage.save s
     | Storage.BreaksOff =>
         Storage._data
           (Storage.init (Storage.path s) (Storage.disk (Storage.save s))
              (Storage.medium (Storage.save s))) = Storage.default_data
     | Storage.CannotOpen => Storage.disk (Storage.save s) = Storage.disk s
     end.
Proof.
  intros Hk. split; [apply save_data |].
  destruct (Storage.medium s 0%nat) eqn:Hw.
  - unfold Storage.save. rewrite Hw. reflexivity.
  - apply reload_saved; [exact Hw |].
    intros k Hd. apply Hk. apply default_keys in Hd.
    rewrite !elem_of_cons. tauto.
  - unfold Storage.save. rewrite Hw. reflexivity.
Qed.

Lemma save_then_load_witness :
  Storage._data (Storage.save fresh_storage) = Storage._data fresh_storage
  /\ match Storage.medium fresh_storage 0%nat with
     | Storage.Completes =>
         Storage.init (Storage.path fresh_storage) (Storage.disk (Storage.save fresh_storage))
           (Storage.medium (Storage.save fresh_storage)) = Storage.save fresh_storage
     | Storage.BreaksOff =>
         Storage._data
           (Storage.init (Storage.path fresh_storage)
              (Storage.disk (Storage.save fresh_storage))
              (Storage.medium (Storage.save fresh_storage))) = Storage.default_data
     | Storage.CannotOpen =>
         Storage.disk (Storage.save fresh_storage) = Storage.disk fresh_storage
     end.
Proof.
  apply (save_then_load fresh_storage).
  intros k Hk. rewrite !elem_of_cons in Hk. rewrite elem_of_nil in Hk.
  destruct Hk as [-> | [-> | [-> | [-> | []]]]]; eexists; reflexivity.
Defined.

Section StoreGetters.
Context {A : Type} `{Num A}.

Lemma set_records_data (rs : list (Record.t A)) (s : Storage.t A) :
  Storage._data (Storage.set_records rs s)
  = <["records" := JArr (Record.to_dict <$> rs)]> (Storage._data s).
Proof. unfold Storage.set_records, Storage.set_records_dicts. rewrite save_data. reflexivity. Qed.

Lemma set_loans_data (ls : list (LoanRecord.t A)) (s : Storage.t A) :
  Storage._data (Storage.set_loans ls s)
  = <["loans" := JArr (LoanRecord.to_dict <$> ls)]> (Storage._data s).
Proof. unfold Storage.set_loans. rewrite save_data. reflexivity. Qed.

Lemma set_overcats_data (cats : list string) (s : Storage.t A) :
  Storage._data (Storage.set_overconsumption_categories cats s)
  = <["overconsumption_categories" := JArr (JStr <$> cats)]> (Storage._data s).
Proof. unfold Storage.set_overconsumption_categories. rewrite save_data. reflexivity. Qed.

Lemma get_records_set_records (rs : list (Record.t A)) (s : Storage.t A) :
  Storage.get_records (Storage.set_records rs s) = Some rs.
Proof.
  unfold Storage.get_records, Storage.get_default. rewrite set_records_data, lookup_insert_eq.
  cbn. apply mapM_from_to, Record_from_to_dict.
Qed.

Lemma get_loans_set_loans (ls : list (LoanRecord.t A)) (s : Storage.t A) :
  Storage.get_loans (Storage.set_loans ls s) = Some ls.
Proof.
  unfold Storage.get_loans, Storage.get_default. rewrite set_loans_data, lookup_insert_eq.
  cbn. apply mapM_from_to, LoanRecord_from_to_dict.
Qed.

Lemma get_overcats_set_overcats (cats : list string) (s : Storage.t A) :
  py_str_set (Storage.get_overconsumption_categories (Storage.set_overconsumption_categories cats s))
  = Some (list_to_set cats).
Proof.
  unfold Storage.get_overconsumption_categories, Storage.get_default.
  rewrite set_overcats_data, lookup_insert_eq.
  unfold py_str_set. cbn. rewrite (mapM_from_to JStr as_str) by reflexivity. reflexivity.
Qed.

End StoreGetters.

(** X5.  What [set_records], [set_loans] and [set_overconsumption_categories]
    put into the store is what the matching getter reads back, whether or
    not the file can be written; the records setter does not touch the loans
    or the settings, nor the loans setter the records or the settings. *)
Theorem storage_set_then_get {A : Type} `{Num A} (s : Storage.t A)
    (rs : list (Record.t A)) (ls : list (LoanRecord.t A)) (cats : list string) :
  Storage.get_records (Storage.set_records rs s) = Some rs
  /\ Storage.get_loans (Storage.set_loans ls s) = Some ls
  /\ py_str_set (Storage.get_overconsumption_categories
                   (Storage.set_overconsumption_categories cats s)) = Some (list_to_set cats)
  /\ Storage.get_loans (Storage.set_records rs s) = Storage.get_loans s
  /\ Storage.get_records (Storage.set_loans ls s) = Storage.get_records s
  /\ Storage.get_settings (Storage.set_records rs s) = Storage.get_settings s
  /\ Storage.get_settings (Storage.set_loans ls s) = Storage.get_settings s.
Proof.
  split; [apply get_records_set_records |].
  split; [apply get_loans_set_loans |].
  split; [apply get_overcats_set_overcats |].
  unfold Storage.get_loans, Storage.get_records, Storage.get_settings, Storage.get_default.
  rewrite set_records_data, set_loans_data.
  rewrite !lookup_insert_ne by discriminate. repeat split; reflexivity.
Qed.

(** ** Records and loans of an account *)

Lemma filter_length_forallb {B : Type} (p : B -> bool) (l : list B) :
  Nat.eqb (length (List.filter p l)) (length l) = forallb p l.
Proof.
  assert (forall l', (length (List.filter p l') <= length l')%nat) as Hle.
  { intros l'. induction l' as [| x l' IH]; cbn; [lia |]. destruct (p x); cbn; lia. }
  induction l as [| x l IH]; [reflexivity |].
  cbn. destruct (p x); cbn; [exact IH |].
  apply Nat.eqb_neq. specialize (Hle l). lia.
Qed.

Lemma filter_forallb {B : Type} (p : B -> bool) (l : list B) :
  forallb p l = true -> List.filter p l = l.
Proof.
  induction l as [| x l IH]; [reflexivity |].
  cbn. destruct (p x); cbn; [| discriminate]. intros E. rewrite IH by exact E. reflexivity.
Qed.

Lemma forallb_negb_existsb {B : Type} (p : B -> bool) (l : list B) :
  forallb (fun x => negb (p x)) l = negb (existsb p l).
Proof.
  induction l as [| x l IH]; [reflexivity |]. cbn. rewrite IH. destruct (p x); reflexivity.
Qed.

Lemma forallb_filter_same {B : Type} (p : B -> bool) (l : list B) :
  forallb p (List.filter p l) = true.
Proof.
  induction l as [| x l IH]; [reflexivity |]. cbn. destruct (p x) eqn:E; cbn; rewrite ?E; exact IH.
Qed.

Section UserProps.
Context {A : Type} `{Num A}.

Lemma with_records_same (u : User.t A) : User.with_records (User.records u) u = u.
Proof. destruct u; reflexivity. Qed.

Lemma delete_record_result (i : string) (u : User.t A) :
  let rs := List.filter (fun r => negb (String.eqb (Record.id r) i)) (User.records u) in
  User.delete_record i u =
  if existsb (fun r => String.eqb (Record.id r) i) (User.records u)
  then Return true
         (User.with_storage (Storage.set_records rs (User.storage u)) (User.with_records rs u))
  else Return false u.
Proof.
  intros rs. unfold User.delete_record, bind, get, modify. cbn [ret].
  fold rs. unfold rs at 1. rewrite filter_length_forallb, forallb_negb_existsb, negb_involutive.
  destruct (existsb _ _) eqn:E; [reflexivity |].
  cbn. subst rs. rewrite filter_forallb.
  - rewrite with_records_same. reflexivity.
  - rewrite forallb_negb_existsb, E. reflexivity.
Qed.

End UserProps.

(** X8.  [delete_record] answers whether some record had the id; it removes
    every record with that id and keeps the others in order; loans, settings
    and categories stay; when a record was removed the stored list is the
    new list, when none had the id the account and its store are untouched;
    a second call with the same id answers [False] and changes nothing. *)
Theorem delete_record_spec {A : Type} `{Num A} (i : string) (u : User.t A) :
  let found := existsb (fun r => String.eqb (Record.id r) i) (User.records u) in
  let u' := state_of (User.delete_record i u) in
  User.delete_record i u = Return found u'
  /\ User.records u' =
       List.filter (fun r => negb (String.eqb (Record.id r) i)) (User.records u)
  /\ (User.loans u', User.settings u', User.overcats u')
     = (User.loans u, User.settings u, User.overcats u)
  /\ (found = true -> Storage.get_records (User.storage u') = Some (User.records u'))
  /\ (found = false -> u' = u)
  /\ User.delete_record i u' = Return false u'.
Proof.
  intros found u'. subst found u'. rewrite delete_record_result.
  destruct (existsb _ _) eqn:E; cbn [state_of].
  - repeat split; try reflexivity; [intros _; apply get_records_set_records | discriminate |].
    rewrite delete_record_result.
    cbn [User.records User.with_storage User.with_records].
    assert (existsb (fun r => String.eqb (Record.id r) i)
              (List.filter (fun r => negb (String.eqb (Record.id r) i)) (User.records u))
            = false) as ->; [| reflexivity].
    apply negb_true_iff. rewrite <- forallb_negb_existsb. apply forallb_filter_same.
  - repeat split; try reflexivity; try discriminate.
    + symmetry. apply filter_forallb. rewrite forallb_negb_existsb, E. reflexivity.
    + rewrite delete_record_result, E. reflexivity.
Qed.

Section UserProps2.
Context {A : Type} `{Num A}.

Lemma add_record_result (rid now : string) (amount : json A) (kind category : string)
    (timestamp : option string) (note : string) (u : User.t A) (a : A) :
  py_float amount = Some a ->
  let rec := Record.mk rid a kind category (given_or timestamp now) note
               (bool_decide (category ∈ User.overcats u)) in
  User.add_record rid now amount kind category timestamp note u =
  Return rec
    (User.with_storage (Storage.set_records (User.records u ++ [rec]) (User.storage u))
       (User.with_records (User.records u ++ [rec]) u)).
Proof.
  intros Ha rec. unfold User.add_record, bind, get, modify, evaluate. rewrite Ha. reflexivity.
Qed.

Lemma get_balance_snoc (u : User.t A) (s : Storage.t A) (r : Record.t A) :
  User.get_balance (User.with_storage s (User.with_records (User.records u ++ [r]) u))
  = (b ← User.get_balance u; Some (User.balance_step b r)).
Proof.
  unfold User.get_balance, User.initial_balance. cbn.
  destruct (py_float _); [| reflexivity]. cbn. rewrite fold_left_app. reflexivity.
Qed.

End UserProps2.

(** X6.  When [float(amount)] succeeds, [add_record] returns the record made
    of its arguments (the clock for a missing or empty timestamp, the mark
    set iff the category is in the over-consumption set at that moment),
    puts it last in the list, stores the list, leaves loans, settings and
    categories alone, and moves [get_balance] up by the amount for an
    'income' and down by it for any other kind. *)
Theorem add_record_appends {A : Type} `{Num A} (rid now : string) (amount : json A)
    (kind category : string) (timestamp : option string) (note : string) (u : User.t A)
    (a : A) :
  py_float amount = Some a ->
  let rec := Record.mk rid a kind category (given_or timestamp now) note
               (bool_decide (category ∈ User.overcats u)) in
  exists u' : User.t A,
    User.add_record rid now amount kind category timestamp note u = Return rec u'
    /\ User.records u' = (User.records u ++ [rec])%list
    /\ Storage.get_records (User.storage u') = Some (User.records u')
    /\ (User.loans u', User.settings u', User.overcats u')
       = (User.loans u, User.settings u, User.overcats u)
    /\ User.get_balance u' =
       (b ← User.get_balance u;
        Some (if String.eqb kind "income" then fadd b a else fsub b a)).
Proof.
  intros Ha rec. eexists. split; [apply add_record_result, Ha |].
  split; [reflexivity |]. split; [apply get_records_set_records |].
  split; [reflexivity |]. apply get_balance_snoc.
Qed.

Lemma add_record_appends_witness :
  let rec := Record.mk "2" 150%float "expense" "food" "2025-01-02T12:00:00" "" false in
  exists u' : User.t float,
    User.add_record "2" "2025-01-02T12:00:00" (JNum 150%float) "expense" "food" None ""
      salary_account = Return rec u'
    /\ User.records u' = (User.records salary_account ++ [rec])%list
    /\ Storage.get_records (User.storage u') = Some (User.records u')
    /\ (User.loans u', User.settings u', User.overcats u')
       = (User.loans salary_account, User.settings salary_account,
          User.overcats salary_account)
    /\ User.get_balance u' =
       (b ← User.get_balance salary_account;
        Some (if String.eqb "expense" "income" then fadd b 150%float
              else fsub b 150%float)).
Proof.
  apply (add_record_appends "2" "2025-01-02T12:00:00" (JNum 150%float) "expense" "food" None ""
           salary_account 150%float).
  reflexivity.
Defined.

(** X9.  Adding a record (with an amount that [float] takes) under an id
    that no record has and deleting that id again gives back the list of
    records, in the account and in the store, and the balance. *)
Theorem add_then_delete_record {A : Type} `{Num A} (rid now : string) (amount : json A)
    (kind category : string) (timestamp : option string) (note : string) (u : User.t A)
    (a : A) :
  py_float amount = Some a ->
  (forall r, r ∈ User.records u -> Record.id r <> rid) ->
  exists (rec : Record.t A) (u1 u2 : User.t A),
    User.add_record rid now amount kind category timestamp note u = Return rec u1
    /\ User.delete_record rid u1 = Return true u2
    /\ User.records u2 = User.records u
    /\ Storage.get_records (User.storage u2) = Some (User.records u)
    /\ User.get_balance u2 = User.get_balance u.
Proof.
  intros Ha Hfresh. do 3 eexists.
  split; [apply add_record_result, Ha |].
  rewrite delete_record_result.
  cbn [User.records User.with_storage User.with_records User.storage].
  assert (forall rs : list (Record.t A), (forall r, r ∈ rs -> Record.id r <> rid) ->
            existsb (fun r => String.eqb (Record.id r) rid) rs = false
            /\ List.filter (fun r => negb (String.eqb (Record.id r) rid)) rs = rs) as Hno.
  { intros rs Hrs. induction rs as [| r rs IH]; [split; reflexivity |].
    destruct IH as [IH1 IH2]; [intros r' Hr'; apply Hrs; right; exact Hr' |].
    assert (String.eqb (Record.id r) rid = false) as E
      by (apply String.eqb_neq, Hrs; left).
    cbn. rewrite E, IH1, IH2. split; reflexivity. }
  destruct (Hno _ Hfresh) as [E1 E2].
  rewrite existsb_app, E1. cbn [existsb Record.id]. rewrite String.eqb_refl. cbn [orb].
  rewrite List.filter_app, E2. cbn [List.filter Record.id]. rewrite String.eqb_refl.
  cbn [negb]. rewrite app_nil_r.
  split; [reflexivity |]. split; [reflexivity |].
  split; [apply get_records_set_records |].
  reflexivity.
Qed.

Lemma add_then_delete_record_witness :
  exists (rec : Record.t float) (u1 u2 : User.t float),
    User.add_record "2" "2025-01-02T12:00:00" (JNum 150%float) "expense" "food" None ""
      salary_account = Return rec u1
    /\ User.delete_record "2" u1 = Return true u2
    /\ User.records u2 = User.records salary_account
    /\ Storage.get_records (User.storage u2) = Some (User.records salary_account)
    /\ User.get_balance u2 = User.get_balance salary_account.
Proof.
  apply (add_then_delete_record "2" "2025-01-02T12:00:00" (JNum 150%float) "expense" "food"
           None "" salary_account 150%float); [reflexivity |].
  intros r Hr. apply list_elem_of_singleton in Hr. subst r. discriminate.
Defined.

(** X7.  When [float(amount)] raises, [add_record] and [add_loan] raise and the
    account, its store included, is what it was. *)
Theorem add_with_bad_amount_changes_nothing {A : Type} `{Num A} (rid now : string)
    (amount : json A) (kind category name : string) (timestamp due_date : option string)
    (note : string) (u : User.t A) :
  py_float amount = None ->
  User.add_record rid now amount kind category timestamp note u = Raise Builtin u
  /\ User.add_loan rid now name amount timestamp due_date note u = Raise Builtin u.
Proof.
  intros Ha. unfold User.add_record, User.add_loan, bind, get, evaluate. rewrite Ha.
  split; reflexivity.
Qed.

Lemma add_with_bad_amount_changes_nothing_witness :
  User.add_record "2" "2025-01-02T12:00:00" JNull "expense" "food" None "" salary_account
  = Raise Builtin salary_account
  /\ User.add_loan "2" "2025-01-02T12:00:00" "Ann" JNull None None "" salary_account
     = Raise Builtin salary_account.
Proof.
  apply (add_with_bad_amount_changes_nothing "2" "2025-01-02T12:00:00" JNull "expense" "food"
           "Ann" None None "" salary_account).
  reflexivity.
Defined.

Section LoanProps.
Context {A : Type} `{Num A}.

Lemma mark_first_none (i : string) (ls : list (LoanRecord.t A)) :
  (forall l, l ∈ ls -> LoanRecord.id l <> i) -> User.mark_first i ls = None.
Proof.
  induction ls as [| l ls IH]; intros Hno; [reflexivity |].
  cbn. rewrite (proj2 (String.eqb_neq _ _)) by (apply Hno; left).
  rewrite IH; [reflexivity |]. intros l' Hl'. apply Hno. right. exact Hl'.
Qed.

Lemma mark_first_split (i : string) (pre post : list (LoanRecord.t A)) (l : LoanRecord.t A) :
  (forall x, x ∈ pre -> LoanRecord.id x <> i) -> LoanRecord.id l = i ->
  User.mark_first i (pre ++ l :: post)%list = Some (pre ++ repay l :: post)%list.
Proof.
  intros Hpre Hl. subst i. induction pre as [| x pre IH].
  - cbn. rewrite String.eqb_refl. reflexivity.
  - cbn. rewrite (proj2 (String.eqb_neq _ _)) by (apply Hpre; left).
    rewrite IH; [reflexivity |]. intros y Hy. apply Hpre. right. exact Hy.
Qed.

Lemma with_loans_same (u : User.t A) : User.with_loans (User.loans u) u = u.
Proof. destruct u; reflexivity. Qed.

Lemma delete_loan_result (i : string) (u : User.t A) :
  let ls := List.filter (fun l => negb (String.eqb (LoanRecord.id l) i)) (User.loans u) in
  User.delete_loan i u =
  if existsb (fun l => String.eqb (LoanRecord.id l) i) (User.loans u)
  then Return true
         (User.with_storage (Storage.set_loans ls (User.storage u)) (User.with_loans ls u))
  else Return false u.
Proof.
  intros ls. unfold User.delete_loan, bind, get, modify. cbn [ret].
  fold ls. unfold ls at 1. rewrite filter_length_forallb, forallb_negb_existsb, negb_involutive.
  destruct (existsb _ _) eqn:E; [reflexivity |].
  cbn. subst ls. rewrite filter_forallb.
  - rewrite with_loans_same. reflexivity.
  - rewrite forallb_negb_existsb, E. reflexivity.
Qed.

End LoanProps.

(** X11.  [mark_loan_repaid] answers [False] and changes nothing when no loan
    has the id.  Otherwise it sets [repaid] on the first loan with the id
    and on no other loan, also not on a later one with the same id, stores
    the loans and answers [True]; the records stay; called again it answers
    [True] again and the loans stay the same. *)
Theorem mark_loan_repaid_first_match {A : Type} `{Num A} (i : string) (u : User.t A) :
  ((forall l, l ∈ User.loans u -> LoanRecord.id l <> i) ->
   User.mark_loan_repaid i u = Return false u)
  /\ (forall (pre post : list (LoanRecord.t A)) (l : LoanRecord.t A),
        User.loans u = (pre ++ l :: post)%list ->
        (forall x, x ∈ pre -> LoanRecord.id x <> i) -> LoanRecord.id l = i ->
        exists u' : User.t A,
          User.mark_loan_repaid i u = Return true u'
          /\ User.loans u' = (pre ++ repay l :: post)%list
          /\ Storage.get_loans (User.storage u') = Some (User.loans u')
          /\ User.records u' = User.records u
          /\ exists u'' : User.t A,
               User.mark_loan_repaid i u' = Return true u''
               /\ User.loans u'' = User.loans u').
Proof.
  split.
  - intros Hno. unfold User.mark_loan_repaid, bind, get.
    rewrite (mark_first_none i _ Hno). reflexivity.
  - intros pre post l Hu Hpre Hl.
    unfold User.mark_loan_repaid at 1. unfold bind, get, modify.
    rewrite Hu, (mark_first_split i pre post l Hpre Hl). cbn.
    eexists. split; [reflexivity |]. cbn.
    split; [reflexivity |]. split; [apply get_loans_set_loans |]. split; [reflexivity |].
    unfold User.mark_loan_repaid, bind, get, modify. cbn [User.loans].
    rewrite (mark_first_split i pre post (repay l) Hpre Hl). cbn.
    eexists. split; reflexivity.
Qed.

Lemma mark_loan_repaid_first_match_witness :
  exists u' : User.t float,
    User.mark_loan_repaid "b" two_loans = Return true u'
    /\ User.loans u' =
       [LoanRecord.mk "a" "Ann" 50%float "2025-01-01T09:00:00" (Some "2025-02-01") false "";
        LoanRecord.mk "b" "Bob" 70%float "2025-01-05T09:00:00" None true ""].
Proof.
  destruct (proj2 (mark_loan_repaid_first_match "b" two_loans)
              [LoanRecord.mk "a" "Ann" 50%float "2025-01-01T09:00:00" (Some "2025-02-01")
                 false ""]
              []
              (LoanRecord.mk "b" "Bob" 70%float "2025-01-05T09:00:00" None false "")
              eq_refl)
    as (u' & Hm & Hl & _).
  - intros x Hx. apply list_elem_of_singleton in Hx. subst x. discriminate.
  - reflexivity.
  - exists u'. split; [exact Hm | exact Hl].
Defined.

(** X12.  [delete_loan] answers whether some loan had the id; it removes every
    loan with that id and keeps the others in order; records, settings and
    categories stay; when a loan was removed the stored list is the new
    list, when none had the id the account and its store are untouched; a
    second call with the same id answers [False] and changes nothing. *)
Theorem delete_loan_spec {A : Type} `{Num A} (i : string) (u : User.t A) :
  let found := existsb (fun l => String.eqb (LoanRecord.id l) i) (User.loans u) in
  let u' := state_of (User.delete_loan i u) in
  User.delete_loan i u = Return found u'
  /\ User.loans u' =
       List.filter (fun l => negb (String.eqb (LoanRecord.id l) i)) (User.loans u)
  /\ (User.records u', User.settings u', User.overcats u')
     = (User.records u, User.settings u, User.overcats u)
  /\ (found = true -> Storage.get_loans (User.storage u') = Some (User.loans u'))
  /\ (found = false -> u' = u)
  /\ User.delete_loan i u' = Return false u'.
Proof.
  intros found u'. subst found u'. rewrite delete_loan_result.
  destruct (existsb _ _) eqn:E; cbn [state_of].
  - repeat split; try reflexivity; [intros _; apply get_loans_set_loans | discriminate |].
    rewrite delete_loan_result.
    cbn [User.loans User.with_storage User.with_loans].
    assert (existsb (fun l => String.eqb (LoanRecord.id l) i)
              (List.filter (fun l => negb (String.eqb (LoanRecord.id l) i)) (User.loans u))
            = false) as ->; [| reflexivity].
    apply negb_true_iff. rewrite <- forallb_negb_existsb. apply forallb_filter_same.
  - repeat split; try reflexivity; try discriminate.
    + symmetry. apply filter_forallb. rewrite forallb_negb_existsb, E. reflexivity.
    + rewrite delete_loan_result, E. reflexivity.
Qed.

(** ** Categories and thresholds *)

(** X15.  For a category that is not in the over-consumption set:
    [remove_overconsumption_category] changes nothing, the store included;
    [add_overconsumption_category] puts it into the set and stores the set
    without touching the records (no record is marked afterwards); removing
    it again gives back the set, in the account and in the store. *)
Theorem category_add_then_remove {A : Type} `{Num A} (c : string) (u : User.t A) :
  c ∉ User.overcats u ->
  User.remove_overconsumption_category c u = Return tt u
  /\ exists u1 u2 : User.t A,
       User.add_overconsumption_category c u = Return tt u1
       /\ User.overcats u1 = User.overcats u ∪ {[c]}
       /\ User.records u1 = User.records u
       /\ py_str_set (Storage.get_overconsumption_categories (User.storage u1))
          = Some (User.overcats u1)
       /\ User.remove_overconsumption_category c u1 = Return tt u2
       /\ User.overcats u2 = User.overcats u
       /\ py_str_set (Storage.get_overconsumption_categories (User.storage u2))
          = Some (User.overcats u).
Proof.
  intros Hc. split.
  - unfold User.remove_overconsumption_category, bind, get.
    rewrite bool_decide_eq_false_2 by exact Hc. reflexivity.
  - do 2 eexists. split; [reflexivity |]. cbn.
    split; [reflexivity |]. split; [reflexivity |].
    split; [rewrite get_overcats_set_overcats, list_to_set_elements_L; reflexivity |].
    unfold User.remove_overconsumption_category, bind, get, modify.
    cbn [User.overcats User.with_overcats User.with_storage].
    rewrite bool_decide_eq_true_2 by (apply elem_of_union_r, elem_of_singleton; reflexivity).
    split; [reflexivity |]. cbn.
    assert ((User.overcats u ∪ {[c]}) ∖ {[c]} = User.overcats u) as ->.
    { apply set_eq. intros x.
      rewrite elem_of_difference, elem_of_union, elem_of_singleton.
      split; [intros [[Hx | Hx] Hn]; [exact Hx | contradiction] |].
      intros Hx. split; [left; exact Hx |]. intros ->. contradiction. }
    split; [reflexivity |].
    rewrite get_overcats_set_overcats, list_to_set_elements_L. reflexivity.
Qed.

Lemma category_add_then_remove_witness :
  User.remove_overconsumption_category "games" food_marked = Return tt food_marked
  /\ exists u1 u2 : User.t float,
       User.add_overconsumption_category "games" food_marked = Return tt u1
       /\ User.overcats u1 = User.overcats food_marked ∪ {[ "games" ]}
       /\ User.records u1 = User.records food_marked
       /\ py_str_set (Storage.get_overconsumption_categories (User.storage u1))
          = Some (User.overcats u1)
       /\ User.remove_overconsumption_category "games" u1 = Return tt u2
       /\ User.overcats u2 = User.overcats food_marked
       /\ py_str_set (Storage.get_overconsumption_categories (User.storage u2))
          = Some (User.overcats food_marked).
Proof.
  apply (category_add_then_remove "games" food_marked).
  refine (bool_decide_unpack _ _). vm_compute. exact I.
Defined.

(** X13.  When [float(warn)] succeeds and [float(urgent)] raises,
    [set_thresholds] raises with the new 'threshold_warn' already in the
    settings of the account, which the reminder then reads, and nothing
    written to the file. *)
Theorem set_thresholds_half_applied {A : Type} `{Num A} (warn urgent : json A) (w : A)
    (u : User.t A) :
  py_float warn = Some w -> py_float urgent = None ->
  exists u' : User.t A,
    User.set_thresholds warn urgent u = Raise Builtin u'
    /\ User.settings u' = <["threshold_warn" := JNum w]> (User.settings u)
    /\ Storage.disk (User.storage u') = Storage.disk (User.storage u)
    /\ ReminderService.threshold u' "threshold_warn" 3000 = Some w.
Proof.
  intros Hw Hu. unfold User.set_thresholds, User.set_float_setting, bind, evaluate, modify.
  rewrite Hw. cbn [ret]. rewrite Hu. cbn [raise].
  eexists. split; [reflexivity |]. cbn. split; [reflexivity |]. split; [reflexivity |].
  unfold ReminderService.threshold. cbn. rewrite lookup_insert_eq. reflexivity.
Qed.

Lemma set_thresholds_half_applied_witness :
  exists u' : User.t float,
    User.set_thresholds (JNum 2000%float) JNull salary_account = Raise Builtin u'
    /\ User.settings u' = <["threshold_warn" := JNum 2000%float]> (User.settings salary_account)
    /\ Storage.disk (User.storage u') = Storage.disk (User.storage salary_account)
    /\ ReminderService.threshold u' "threshold_warn" 3000 = Some 2000%float.
Proof.
  apply (set_thresholds_half_applied (JNum 2000%float) JNull 2000%float salary_account);
    reflexivity.
Defined.

(** X14.  On an account whose store holds a settings object, [set_thresholds]
    with two numbers returns, leaves [get_balance] as it was, and the next
    [check_thresholds] compares the balance with exactly these two numbers,
    whatever their order. *)
Theorem set_thresholds_then_check {A : Type} `{Num A} (fmt2 : A -> string) (w x bal : A)
    (u : User.t A) (s : ReminderService.t) :
  store_has_settings (User.storage u) ->
  User.get_balance u = Some bal ->
  exists u' : User.t A,
    User.set_thresholds (JNum w) (JNum x) u = Return tt u'
    /\ User.get_balance u' = Some bal
    /\ ReminderService.check_thresholds fmt2 u' s = ReminderService.check fmt2 bal w x s.
Proof.
  intros [m Hm] Hbal.
  unfold User.set_thresholds, User.set_float_setting, bind, evaluate, modify. cbn.
  unfold User.persist_settings, User.in_storage, zoom, bind, get.
  cbn [User.storage User.settings User.with_settings].
  unfold Storage.update_settings. rewrite Hm.
  eexists. split; [reflexivity |].
  unfold User.with_storage, User.with_settings.
  cbn [User.storage User.records User.loans User.settings User.overcats].
  assert (forall s' : Storage.t A,
            User.get_balance
              (User.mk s' (User.records u) (User.loans u)
                 (<["threshold_urgent" := JNum x]>
                    (<["threshold_warn" := JNum w]> (User.settings u))) (User.overcats u))
            = Some bal) as Hb.
  { intros s'. rewrite <- Hbal. unfold User.get_balance, User.initial_balance.
    cbn [User.settings User.records].
    rewrite !lookup_insert_ne by discriminate. reflexivity. }
  split; [apply Hb |].
  unfold ReminderService.check_thresholds, bind, evaluate. rewrite Hb. cbn [ret].
  unfold ReminderService.threshold. cbn [User.settings].
  rewrite lookup_insert_ne by discriminate. rewrite !lookup_insert_eq. reflexivity.
Qed.

Lemma set_thresholds_then_check_witness :
  exists u' : User.t float,
    User.set_thresholds (JNum 800%float) (JNum 900%float) salary_account = Return tt u'
    /\ User.get_balance u' = Some 700%float
    /\ ReminderService.check_thresholds (fun _ => "") u' (ReminderService.mk false false [])
       = ReminderService.check (fun _ => "") 700%float 800%float 900%float
           (ReminderService.mk false false []).
Proof.
  apply (set_thresholds_then_check (fun _ => "") 800%float 900%float 700%float salary_account
           (ReminderService.mk false false [])).
  - exists Storage.default_settings. reflexivity.
  - reflexivity.
Defined.

(** ** The reminders *)

(** X24.  A second poll of the thresholds with the same balance and the same
    thresholds notifies nothing and leaves the flags as the first poll left
    them. *)
Theorem repeated_poll_is_silent {A : Type} `{Num A} (fmt2 : A -> string)
    (bal warn urgent : A) (s : ReminderService.t) :
  let s1 := state_of (ReminderService.check fmt2 bal warn urgent s) in
  ReminderService.check fmt2 bal warn urgent s1 = Return tt s1.
Proof.
  destruct s as [wu wl log]. unfold ReminderService.check.
  destruct (fle bal urgent) eqn:Eu; [| destruct (fle bal warn) eqn:Ew].
  - destruct wu; cbn; rewrite ?Eu; reflexivity.
  - destruct wl; cbn; rewrite ?Eu, ?Ew; reflexivity.
  - cbn. rewrite ?Eu, ?Ew. reflexivity.
Qed.

(** X25.  A poll with the balance above both thresholds notifies nothing and
    re-arms both reminders: whatever the flags were before, the next poll
    notifies 'urgent' when the balance is at or below the urgent threshold,
    else 'warn' when it is at or below the warning threshold, else
    nothing. *)
Theorem poll_after_recovery {A : Type} `{Num A} (fmt2 : A -> string)
    (bal warn urgent bal' warn' urgent' : A) (s : ReminderService.t) :
  fle bal urgent = false -> fle bal warn = false ->
  let s1 := state_of (ReminderService.check fmt2 bal warn urgent s) in
  ReminderService.notified s1 = ReminderService.notified s
  /\ ReminderService.notified (state_of (ReminderService.check fmt2 bal' warn' urgent' s1))
     = (ReminderService.notified s ++
        if fle bal' urgent' then [urgent_notice fmt2 bal']
        else if fle bal' warn' then [warn_notice fmt2 bal']
        else [])%list.
Proof.
  intros Eu Ew. destruct s as [wu wl log]. unfold ReminderService.check.
  rewrite Eu, Ew. cbn.
  destruct (fle bal' urgent'); [| destruct (fle bal' warn')]; cbn;
    rewrite ?app_nil_r; split; reflexivity.
Qed.

(** X26.  After a poll in the urgent band, a poll in the warning band notifies
    nothing (the urgent poll has set the warning flag), and it re-arms the
    urgent reminder: a third poll back in the urgent band notifies 'urgent'
    again. *)
Theorem urgent_masks_warn {A : Type} `{Num A} (fmt2 : A -> string)
    (b1 w1 u1 b2 w2 u2 b3 w3 u3 : A) (s : ReminderService.t) :
  fle b1 u1 = true -> fle b2 u2 = false -> fle b2 w2 = true -> fle b3 u3 = true ->
  let s1 := state_of (ReminderService.check fmt2 b1 w1 u1 s) in
  let s2 := state_of (ReminderService.check fmt2 b2 w2 u2 s1) in
  let s3 := state_of (ReminderService.check fmt2 b3 w3 u3 s2) in
  ReminderService.notified s2 = ReminderService.notified s1
  /\ ReminderService.notified s3
     = (ReminderService.notified s1 ++ [urgent_notice fmt2 b3])%list.
Proof.
  intros E1 E2 E2' E3. destruct s as [wu wl log]. unfold ReminderService.check.
  rewrite E1. destruct wu; cbn; rewrite E2, E2'; cbn; rewrite E3; cbn; split; reflexivity.
Qed.

Lemma poll_after_recovery_witness :
  let s := ReminderService.mk true true [] in
  let s1 := state_of (ReminderService.check (fun _ => "") 5000%float 3000%float 1000%float s) in
  ReminderService.notified s1 = ReminderService.notified s
  /\ ReminderService.notified
       (state_of (ReminderService.check (fun _ => "") 2000%float 3000%float 1000%float s1))
     = (ReminderService.notified s ++
        if fle 2000%float 1000%float then [urgent_notice (fun _ => "") 2000%float]
        else if fle 2000%float 3000%float then [warn_notice (fun _ => "") 2000%float]
        else [])%list.
Proof.
  apply (poll_after_recovery (fun _ => "") 5000%float 3000%float 1000%float
           2000%float 3000%float 1000%float (ReminderService.mk true true []));
    reflexivity.
Defined.

Lemma urgent_masks_warn_witness :
  let s := ReminderService.mk false false [] in
  let s1 := state_of (ReminderService.check (fun _ => "") 500%float 3000%float 1000%float s) in
  let s2 := state_of (ReminderService.check (fun _ => "") 2000%float 3000%float 1000%float s1) in
  let s3 := state_of (ReminderService.check (fun _ => "") 400%float 3000%float 1000%float s2) in
  ReminderService.notified s2 = ReminderService.notified s1
  /\ ReminderService.notified s3
     = (ReminderService.notified s1 ++ [urgent_notice (fun _ => "") 400%float])%list.
Proof.
  apply (urgent_masks_warn (fun _ => "") 500%float 3000%float 1000%float
           2000%float 3000%float 1000%float 400%float 3000%float 1000%float
           (ReminderService.mk false false [])); reflexivity.
Defined.

(** X27.  [check_overconsumption] on the record that [add_record] has just
    returned, as [on_add_record] calls it, notifies 'over' exactly when the
    record carries the over-consumption mark, and never touches the
    threshold flags. *)
Theorem overconsumption_notice_follows_mark {A : Type} `{Num A} (fmt2 : A -> string)
    (rid now : string) (amount : json A) (kind category : string)
    (timestamp : option string) (note : string) (u : User.t A) (a : A)
    (s : ReminderService.t) :
  py_float amount = Some a ->
  exists (rec : Record.t A) (u' : User.t A),
    User.add_record rid now amount kind category timestamp note u = Return rec u'
    /\ Record.overconsumption_mark rec = bool_decide (category ∈ User.overcats u)
    /\ ReminderService.check_overconsumption fmt2 u' rec s =
       Return tt
         (if Record.overconsumption_mark rec
          then ReminderService.mk (ReminderService._warned_urgent s)
                 (ReminderService._warned_low s)
                 (ReminderService.notified s ++ [over_notice fmt2 rec])
          else s).
Proof.
  intros Ha. do 2 eexists. split; [apply add_record_result, Ha |].
  split; [reflexivity |].
  unfold ReminderService.check_overconsumption.
  cbn [Record.category Record.overconsumption_mark User.overcats User.with_storage
       User.with_records].
  case_bool_decide; reflexivity.
Qed.

Lemma overconsumption_notice_follows_mark_witness :
  exists (rec : Record.t float) (u' : User.t float),
    User.add_record "3" "2025-01-03T12:00:00" (JNum 80%float) "expense" "food" None ""
      food_marked = Return rec u'
    /\ Record.overconsumption_mark rec = bool_decide ("food" ∈ User.overcats food_marked)
    /\ ReminderService.check_overconsumption (fun _ => "80.00") u' rec
         (ReminderService.mk false false []) =
       Return tt
         (if Record.overconsumption_mark rec
          then ReminderService.mk false false ([] ++ [over_notice (fun _ => "80.00") rec])
          else ReminderService.mk false false []).
Proof.
  apply (overconsumption_notice_follows_mark (fun _ => "80.00") "3" "2025-01-03T12:00:00"
           (JNum 80%float) "expense" "food" None "" food_marked 80%float
           (ReminderService.mk false false [])).
  reflexivity.
Defined.

Section LoanReminders.
Context {A : Type} `{Num A}.
Variable fmt2 : A -> string.
Variable fromisoformat_date : string -> option date.

Lemma check_loan_result (today : date) (l : LoanRecord.t A) (s : ReminderService.t) :
  ReminderService.check_loan fmt2 fromisoformat_date today l s =
  Return tt
    (ReminderService.mk (ReminderService._warned_urgent s) (ReminderService._warned_low s)
       (ReminderService.notified s ++
        if loan_due fromisoformat_date today l then [loan_notice fmt2 l] else [])).
Proof.
  destruct s as [wu wl log].
  unfold ReminderService.check_loan, loan_due, loan_notice.
  destruct (LoanRecord.due_date l) as [due |]; cbn; [| rewrite app_nil_r; reflexivity].
  destruct (negb (String.eqb due "") && negb (LoanRecord.repaid l)); cbn;
    [| rewrite app_nil_r; reflexivity].
  destruct (fromisoformat_date due) as [dd |]; cbn; [| rewrite app_nil_r; reflexivity].
  destruct (date_leb dd today); cbn; rewrite ?app_nil_r; reflexivity.
Qed.

Lemma for_each_check_loan (today : date) (ls : list (LoanRecord.t A))
    (s : ReminderService.t) :
  ReminderService.for_each (ReminderService.check_loan fmt2 fromisoformat_date today) ls s =
  Return tt
    (ReminderService.mk (ReminderService._warned_urgent s) (ReminderService._warned_low s)
       (ReminderService.notified s ++
        (loan_notice fmt2 <$> List.filter (loan_due fromisoformat_date today) ls))).
Proof.
  revert s. induction ls as [| l ls IH]; intros s.
  - destruct s. cbn. rewrite app_nil_r. reflexivity.
  - cbn [ReminderService.for_each]. unfold bind. rewrite check_loan_result, IH.
    cbn [ReminderService._warned_urgent ReminderService._warned_low ReminderService.notified
         List.filter].
    destruct (loan_due fromisoformat_date today l); cbn [fmap list_fmap];
      rewrite <- ?app_assoc, ?app_nil_r; reflexivity.
Qed.

End LoanReminders.

(** X28.  [check_loans] notifies 'loan' once, in list order, for each loan that
    has a non-empty due date, is not repaid and whose due date
    [fromisoformat] can read and is not after today; a due date that cannot
    be read is passed over; it never raises and leaves the threshold flags
    alone; nothing is remembered, so the next poll sends the same notices
    again. *)
Theorem check_loans_notices {A : Type} `{Num A} (fmt2 : A -> string)
    (fromisoformat_date : string -> option date) (today : date) (u : User.t A)
    (s : ReminderService.t) :
  let notices :=
    loan_notice fmt2 <$> List.filter (loan_due fromisoformat_date today) (User.loans u) in
  let s1 := ReminderService.mk (ReminderService._warned_urgent s)
              (ReminderService._warned_low s) (ReminderService.notified s ++ notices) in
  ReminderService.check_loans fmt2 fromisoformat_date today u s = Return tt s1
  /\ ReminderService.check_loans fmt2 fromisoformat_date today u s1
     = Return tt
         (ReminderService.mk (ReminderService._warned_urgent s)
            (ReminderService._warned_low s)
            (ReminderService.notified s ++ notices ++ notices)).
Proof.
  intros notices s1. unfold ReminderService.check_loans.
  rewrite !for_each_check_loan. subst s1 notices.
  cbn [ReminderService._warned_urgent ReminderService._warned_low ReminderService.notified].
  rewrite <- app_assoc. split; reflexivity.
Qed.

(** ** Time ranges *)

Section StringOrder.

Lemma string_compare_lt_trans (x y z : string) :
  String.compare x y = Lt -> String.compare y z = Lt -> String.compare x z = Lt.
Proof.
  revert y z. induction x as [| a x IH]; intros [| b y] [| c z]; cbn; try congruence.
  unfold Ascii.compare.
  destruct (N.compare_spec (N_of_ascii a) (N_of_ascii b)) as [Eab | Lab | Gab];
    try discriminate;
    destruct (N.compare_spec (N_of_ascii b) (N_of_ascii c)) as [Ebc | Lbc | Gbc];
    try discriminate; intros H1 H2.
  - rewrite Eab, Ebc, N.compare_refl. eapply IH; eassumption.
  - rewrite Eab. rewrite (proj2 (N.compare_lt_iff _ _) Lbc). reflexivity.
  - rewrite <- Ebc. rewrite (proj2 (N.compare_lt_iff _ _) Lab). reflexivity.
  - rewrite (proj2 (N.compare_lt_iff _ _) (N.lt_trans _ _ _ Lab Lbc)). reflexivity.
Qed.

Lemma string_ltb_leb (x y : string) : String.ltb x y = negb (String.leb y x).
Proof.
  unfold String.ltb, String.leb. rewrite (String.compare_antisym y x).
  destruct (String.compare x y); reflexivity.
Qed.

Lemma string_leb_trans (x y z : string) :
  String.leb x y = true -> String.leb y z = true -> String.leb x z = true.
Proof.
  unfold String.leb.
  destruct (String.compare x y) eqn:Exy; try discriminate; intros _;
    destruct (String.compare y z) eqn:Eyz; try discriminate; intros _.
  - apply String.compare_eq_iff in Exy. subst y. rewrite Eyz. reflexivity.
  - apply String.compare_eq_iff in Exy. subst y. rewrite Eyz. reflexivity.
  - apply String.compare_eq_iff in Eyz. subst z. rewrite Exy. reflexivity.
  - rewrite (string_compare_lt_trans _ _ _ Exy Eyz). reflexivity.
Qed.

Lemma string_ltb_leb_trans (x y z : string) :
  String.ltb x y = true -> String.leb y z = true -> String.ltb x z = true.
Proof.
  unfold String.ltb, String.leb.
  destruct (String.compare x y) eqn:Exy; try discriminate; intros _;
    destruct (String.compare y z) eqn:Eyz; try discriminate; intros _.
  - apply String.compare_eq_iff in Eyz. subst z. rewrite Exy. reflexivity.
  - rewrite (string_compare_lt_trans _ _ _ Exy Eyz). reflexivity.
Qed.

(** adjacent ranges: a timestamp in [[a, c)] is in exactly one of [[a, b)]
    and [[b, c)] *)
Lemma in_range_split {A : Type} (a b c : string) (r : Record.t A) :
  String.leb a b = true -> String.leb b c = true ->
  (in_range a b r = true -> in_range b c r = false /\ in_range a c r = true)
  /\ (in_range a b r = false -> in_range a c r = in_range b c r).
Proof.
  intros Hab Hbc. unfold in_range.
  rewrite (string_ltb_leb (Record.timestamp r) b).
  destruct (String.leb b (Record.timestamp r)) eqn:Eb; cbn [negb andb].
  - rewrite andb_false_r. split; [discriminate |]. intros _.
    rewrite (string_leb_trans _ _ _ Hab Eb). reflexivity.
  - split; [| intros E; rewrite andb_true_r in E; rewrite E; reflexivity].
    rewrite andb_true_r. intros Ha. split; [reflexivity |]. rewrite Ha. cbn.
    apply (string_ltb_leb_trans _ b); [| exact Hbc].
    rewrite string_ltb_leb, Eb. reflexivity.
Qed.

End StringOrder.

Section ExactRanges.
Context {A : Type} `{ExactNum A}.

Lemma total_cons (x : A) (l : list A) : total (x :: l) = fadd x (total l).
Proof. reflexivity. Qed.

Lemma total_app (l1 l2 : list A) : total (l1 ++ l2) = fadd (total l1) (total l2).
Proof.
  induction l1 as [| x l1 IH]; cbn [app].
  - cbn. rewrite fadd_0_l. reflexivity.
  - rewrite !total_cons, IH. apply fadd_assoc.
Qed.

(** the amounts picked by [p] over adjacent ranges add up *)
Lemma range_total_split (p : Record.t A -> bool) (a b c : string) (rs : list (Record.t A)) :
  String.leb a b = true -> String.leb b c = true ->
  total (amounts_of p (List.filter (in_range a c) rs))
  = fadd (total (amounts_of p (List.filter (in_range a b) rs)))
         (total (amounts_of p (List.filter (in_range b c) rs))).
Proof.
  intros Hab Hbc. unfold amounts_of.
  induction rs as [| r rs IH]; [cbn; rewrite fadd_0_l; reflexivity |].
  destruct (in_range_split a b c r Hab Hbc) as [Hin Hout].
  cbn [List.filter].
  destruct (in_range a b r) eqn:Eab.
  - destruct (Hin eq_refl) as [-> ->]. cbn [List.filter].
    destruct (p r); cbn [fmap list_fmap]; [| exact IH].
    rewrite !total_cons, IH. apply fadd_assoc.
  - rewrite (Hout eq_refl). destruct (in_range b c r); [| exact IH].
    cbn [List.filter]. destruct (p r); cbn [fmap list_fmap]; [| exact IH].
    rewrite !total_cons, IH.
    rewrite !fadd_assoc. f_equal. apply fadd_comm.
Qed.

End ExactRanges.

(** X20.  In arithmetic without rounding, on an account whose initial
    balance [float] can read, for non-empty bounds a <= b <= c the income and
    the expense of [totals] over [a, c) are the sums of those over [a, b) and
    over [b, c). *)
Theorem totals_of_adjacent_ranges {A : Type} `{ExactNum A} (a b c : string) (u : User.t A)
    (b0 : A) :
  a <> "" -> b <> "" -> c <> "" ->
  String.leb a b = true -> String.leb b c = true ->
  User.initial_balance u = Some b0 ->
  exists t1 t2 t : Statistics.totals_t A,
    Statistics.totals (Some a) (Some b) u = Some t1
    /\ Statistics.totals (Some b) (Some c) u = Some t2
    /\ Statistics.totals (Some a) (Some c) u = Some t
    /\ Statistics.income t = fadd (Statistics.income t1) (Statistics.income t2)
    /\ Statistics.expense t = fadd (Statistics.expense t1) (Statistics.expense t2).
Proof.
  intros Ha Hb Hc Hab Hbc Hb0. unfold Statistics.totals, Statistics.sums.
  rewrite !filter_records_range by assumption.
  rewrite !sums_loop, Hb0. cbn [mbind option_bind].
  do 3 eexists. do 3 (split; [reflexivity |]).
  cbn [Statistics.income Statistics.expense]. rewrite !fadd_0_l.
  split; apply range_total_split; assumption.
Qed.

Lemma totals_of_adjacent_ranges_witness :
  exists t1 t2 t : Statistics.totals_t Z,
    @Statistics.totals Z (Z_num (fun _ => None)) (Some "2025-01-01") (Some "2025-01-02")
      Z_example = Some t1
    /\ @Statistics.totals Z (Z_num (fun _ => None)) (Some "2025-01-02") (Some "2025-01-03")
         Z_example = Some t2
    /\ @Statistics.totals Z (Z_num (fun _ => None)) (Some "2025-01-01") (Some "2025-01-03")
         Z_example = Some t
    /\ Statistics.income t = Statistics.income t1 + Statistics.income t2
    /\ Statistics.expense t = Statistics.expense t1 + Statistics.expense t2.
Proof.
  apply (@totals_of_adjacent_ranges Z (Z_num (fun _ => None)) (Z_exact _)
           "2025-01-01" "2025-01-02" "2025-01-03" Z_example 500);
    try discriminate; reflexivity.
Defined.

(** ** The yearly summary *)

Lemma year_bounds_ascending (year : Z) :
  1000 <= year <= 9998 -> ascending (year_bounds year) = true.
Proof.
  intros Hy.
  assert (forallb (fun y => ascending (year_bounds y)) (seqZ 1000 8999) = true) as Hall
    by (vm_compute; reflexivity).
  rewrite forallb_forall in Hall. apply Hall.
  apply list_elem_of_In, elem_of_seqZ. lia.
Qed.

Section Chain.
Context {A : Type} `{ExactNum A}.

Lemma in_range_empty (b : string) (r : Record.t A) : in_range b b r = false.
Proof.
  unfold in_range. rewrite string_ltb_leb.
  destruct (String.leb b (Record.timestamp r)); reflexivity.
Qed.

Lemma string_leb_refl (x : string) : String.leb x x = true.
Proof.
  destruct (String.leb_total x x) as [E | E]; exact E.
Qed.

Lemma last_cons (x d : string) (l : list string) : List.last (x :: l) d = List.last l x.
Proof.
  revert x d. induction l as [| y l IH]; intros x d; [reflexivity |].
  change (List.last (x :: y :: l) d) with (List.last (y :: l) d).
  rewrite (IH y d). symmetry. apply IH.
Qed.

Lemma ascending_last (b : string) (bs : list string) :
  ascending (b :: bs) = true -> String.leb b (List.last bs b) = true.
Proof.
  revert b. induction bs as [| b2 bs IH]; intros b Hs.
  - apply string_leb_refl.
  - cbn [ascending] in Hs. apply andb_prop in Hs as [Hb Hs].
    rewrite last_cons. apply (string_leb_trans _ b2); [exact Hb |]. apply IH, Hs.
Qed.

(** a chain of adjacent ranges adds up to the range from its first bound to
    its last *)
Lemma chain_total (p : Record.t A -> bool) (b : string) (bs : list string)
    (rs : list (Record.t A)) :
  ascending (b :: bs) = true ->
  total (amounts_of p (List.filter (in_range b (List.last bs b)) rs))
  = total (range_totals p (b :: bs) rs).
Proof.
  revert b. induction bs as [| b2 bs IH]; intros b Hs.
  - cbn [List.last range_totals].
    assert (List.filter (in_range b b) rs = []) as ->; [| reflexivity].
    induction rs as [| r rs IHr]; [reflexivity |].
    cbn [List.filter]. rewrite in_range_empty. exact IHr.
  - pose proof Hs as Hs'. cbn [ascending] in Hs'. apply andb_prop in Hs' as [Hb Hs'].
    rewrite last_cons.
    rewrite (range_total_split p b b2 (List.last bs b2) rs Hb (ascending_last _ _ Hs')).
    rewrite (IH b2 Hs'). reflexivity.
Qed.

End Chain.

Lemma year_bounds_list (year : Z) :
  year_bounds year =
  [Statistics.month_bound year 1; Statistics.month_bound year 2;
   Statistics.month_bound year 3; Statistics.month_bound year 4;
   Statistics.month_bound year 5; Statistics.month_bound year 6;
   Statistics.month_bound year 7; Statistics.month_bound year 8;
   Statistics.month_bound year 9; Statistics.month_bound year 10;
   Statistics.month_bound year 11; Statistics.month_bound year 12;
   Statistics.month_bound (year + 1) 1].
Proof. reflexivity. Qed.

Lemma month_bound_nonempty (year month : Z) : Statistics.month_bound year month <> "".
Proof.
  unfold Statistics.month_bound. destruct (pretty year); discriminate.
Qed.

Section Yearly.
Context {A : Type} `{ExactNum A}.
Variable py_sum : list A -> A.
Hypothesis py_sum_exact : forall l, py_sum l = total l.

Lemma month_summary_income (year : Z) (u : User.t A) (m : Z) (p : string) :
  py_sum
    (Statistics.kind_amounts p
       (Statistics.filter_records (Some (Statistics.month_bound year m))
          (Some (if m =? 12 then Statistics.month_bound (year + 1) 1
                 else Statistics.month_bound year (m + 1))) (User.records u)))
  = total (amounts_of (is_kind p)
       (List.filter
          (in_range (Statistics.month_bound year m)
             (if m =? 12 then Statistics.month_bound (year + 1) 1
              else Statistics.month_bound year (m + 1))) (User.records u))).
Proof.
  rewrite py_sum_exact, filter_records_range;
    [reflexivity | apply month_bound_nonempty |].
  destruct (m =? 12); apply month_bound_nonempty.
Qed.

Lemma monthly_trend_totals (year : Z) (u : User.t A) :
  Statistics.month_income <$> Statistics.monthly_trend (Statistics.yearly_summary py_sum year u)
  = range_totals (is_kind "income") (year_bounds year) (User.records u)
  /\ Statistics.month_expense <$>
       Statistics.monthly_trend (Statistics.yearly_summary py_sum year u)
     = range_totals (is_kind "expense") (year_bounds year) (User.records u).
Proof.
  rewrite year_bounds_list. unfold Statistics.yearly_summary.
  cbn [Statistics.monthly_trend].
  change (seqZ 1 12) with [1; 2; 3; 4; 5; 6; 7; 8; 9; 10; 11; 12].
  cbn [fmap list_fmap range_totals]. unfold Statistics.month_summary.
  cbn [Statistics.month_income Statistics.month_expense].
  rewrite !month_summary_income.
  split; reflexivity.
Qed.

End Yearly.

Section YearlyExact.
Context {A : Type} `{ExactNum A}.

Lemma fsub_fadd_fadd (a b c d : A) :
  fsub (fadd a b) (fadd c d) = fadd (fsub a c) (fsub b d).
Proof.
  rewrite <- fsub_fsub, <- fadd_fsub_swap.
  rewrite (fadd_comm (fsub a c) b), <- fadd_fsub_swap. apply fadd_comm.
Qed.

Lemma total_balances (l : list (Statistics.month_summary_t A)) :
  Forall (fun m => Statistics.month_balance m
                   = fsub (Statistics.month_income m) (Statistics.month_expense m)) l ->
  total (Statistics.month_balance <$> l)
  = fsub (total (Statistics.month_income <$> l)) (total (Statistics.month_expense <$> l)).
Proof.
  induction 1 as [| m l Hm _ IH]; cbn [fmap list_fmap].
  - cbn. symmetry. apply fsub_0_r.
  - rewrite !total_cons, IH, Hm. symmetry. apply fsub_fadd_fadd.
Qed.

Lemma filter_records_known (start end_ : option string) (rs : list (Record.t A)) :
  Forall known_kind rs -> Forall known_kind (Statistics.filter_records start end_ rs).
Proof.
  intros Hk. unfold Statistics.filter_records.
  assert (forall (p : Record.t A -> bool) l, Forall known_kind l ->
            Forall known_kind (List.filter p l)) as Hf.
  { intros p l Hl. induction Hl as [| r l Hr _ IH]; [constructor |].
    cbn. destruct (p r); [constructor; assumption | exact IH]. }
  destruct start as [s |], end_ as [e |];
    repeat match goal with |- context [String.eqb ?x ""] => destruct (String.eqb x "") end;
    repeat apply Hf; exact Hk.
Qed.

End YearlyExact.

(** X22.  For a year from 1000 to 9998, in arithmetic without rounding (where
    the builtin [sum] is the sum), the twelve months of [yearly_summary] add
    up to the year: total income, total expense and net balance are the sums
    of the monthly incomes, expenses and balances. *)
Theorem yearly_totals_are_monthly_sums {A : Type} `{ExactNum A} (py_sum : list A -> A)
    (year : Z) (u : User.t A) :
  (forall l, py_sum l = total l) ->
  1000 <= year <= 9998 ->
  let y := Statistics.yearly_summary py_sum year u in
  Statistics.total_income y = total (Statistics.month_income <$> Statistics.monthly_trend y)
  /\ Statistics.total_expense y
     = total (Statistics.month_expense <$> Statistics.monthly_trend y)
  /\ Statistics.net_balance y
     = total (Statistics.month_balance <$> Statistics.monthly_trend y).
Proof.
  intros Hsum Hy y.
  assert (forall p, py_sum (Statistics.kind_amounts p
                      (Statistics.filter_records (Some (Statistics.month_bound year 1))
                         (Some (Statistics.month_bound (year + 1) 1)) (User.records u)))
                    = total (range_totals (is_kind p) (year_bounds year) (User.records u)))
    as Hyear.
  { intros p. rewrite Hsum, filter_records_range by apply month_bound_nonempty.
    pose proof (year_bounds_ascending year Hy) as Hasc.
    rewrite year_bounds_list in Hasc |- *.
    rewrite <- (chain_total _ _ _ _ Hasc). reflexivity. }
  destruct (monthly_trend_totals py_sum Hsum year u) as [Hi He].
  assert (Statistics.total_income y
          = total (Statistics.month_income <$> Statistics.monthly_trend y)) as Ti
    by (subst y; rewrite Hi; apply Hyear).
  assert (Statistics.total_expense y
          = total (Statistics.month_expense <$> Statistics.monthly_trend y)) as Te
    by (subst y; rewrite He; apply Hyear).
  split; [exact Ti |]. split; [exact Te |].
  rewrite total_balances.
  - rewrite <- Ti, <- Te. reflexivity.
  - subst y. unfold Statistics.yearly_summary. cbn [Statistics.monthly_trend].
    apply Forall_fmap, Forall_forall. intros m _. reflexivity.
Qed.

Lemma yearly_totals_are_monthly_sums_witness :
  let y := @Statistics.yearly_summary Z (Z_num (fun _ => None)) Z_sum 2025 Z_example in
  Statistics.total_income y = Z_sum (Statistics.month_income <$> Statistics.monthly_trend y)
  /\ Statistics.total_expense y
     = Z_sum (Statistics.month_expense <$> Statistics.monthly_trend y)
  /\ Statistics.net_balance y
     = Z_sum (Statistics.month_balance <$> Statistics.monthly_trend y).
Proof.
  apply (@yearly_totals_are_monthly_sums Z (Z_num (fun _ => None)) (Z_exact _) Z_sum 2025
           Z_example); [reflexivity | lia].
Defined.

(** X23.  When every record is an 'income' or an 'expense' and [float] can
    read the initial balance, in arithmetic without rounding (where the
    builtin [sum] is the sum), [yearly_summary] agrees with [totals] over the
    range of the year: same income, same expense, and its net balance plus
    the initial balance is the balance of [totals]. *)
Theorem yearly_summary_agrees_with_totals {A : Type} `{ExactNum A} (py_sum : list A -> A)
    (year : Z) (u : User.t A) (b0 : A) :
  (forall l, py_sum l = total l) ->
  Forall known_kind (User.records u) ->
  User.initial_balance u = Some b0 ->
  let y := Statistics.yearly_summary py_sum year u in
  exists t : Statistics.totals_t A,
    Statistics.totals (Some (Statistics.month_bound year 1))
      (Some (Statistics.month_bound (year + 1) 1)) u = Some t
    /\ Statistics.total_income y = Statistics.income t
    /\ Statistics.total_expense y = Statistics.expense t
    /\ fadd (Statistics.net_balance y) b0 = Statistics.balance t.
Proof.
  intros Hsum Hk Hb0 y. subst y. unfold Statistics.totals, Statistics.sums.
  rewrite sums_loop, Hb0. cbn [mbind option_bind].
  eexists. split; [reflexivity |].
  unfold Statistics.yearly_summary.
  cbn [Statistics.total_income Statistics.total_expense Statistics.net_balance
       Statistics.income Statistics.expense Statistics.balance].
  rewrite !Hsum, !fadd_0_l.
  rewrite (else_is_expense _ (filter_records_known _ _ _ Hk)).
  repeat split; reflexivity.
Qed.

Lemma yearly_summary_agrees_with_totals_witness :
  let y := @Statistics.yearly_summary Z (Z_num (fun _ => None)) Z_sum 2025 Z_example in
  exists t : Statistics.totals_t Z,
    @Statistics.totals Z (Z_num (fun _ => None)) (Some (Statistics.month_bound 2025 1))
      (Some (Statistics.month_bound (2025 + 1) 1)) Z_example = Some t
    /\ Statistics.total_income y = Statistics.income t
    /\ Statistics.total_expense y = Statistics.expense t
    /\ Statistics.net_balance y + 500 = Statistics.balance t.
Proof.
  apply (@yearly_summary_agrees_with_totals Z (Z_num (fun _ => None)) (Z_exact _) Z_sum 2025
           Z_example 500); [reflexivity | | reflexivity].
  constructor; [left; reflexivity |].
  constructor; [right; reflexivity | constructor].
Defined.

(** ** What is on file after a call *)

Section Persisted.
Context {A : Type} `{Num A}.

Lemma loaded_has_default_keys (s : Storage.t A) :
  Storage.init (Storage.path s) (Storage.disk s) (Storage.medium s) = s ->
  has_default_keys (Storage._data s).
Proof. intros <-. apply init_has_default_keys. Qed.

Lemma user_init_fields (s : Storage.t A) (u : User.t A) :
  User.init s = Some u ->
  User.storage u = s
  /\ Storage.get_records s = Some (User.records u)
  /\ Storage.get_loans s = Some (User.loans u)
  /\ as_obj (Storage.get_settings s) = Some (User.settings u)
  /\ py_str_set (Storage.get_overconsumption_categories s) = Some (User.overcats u).
Proof.
  unfold User.init. intros Hr.
  destruct (Storage.get_records _) as [rs |]; [| discriminate]. cbn in Hr.
  destruct (Storage.get_loans _) as [ls |]; [| discriminate]. cbn in Hr.
  destruct (as_obj (Storage.get_settings _)) as [st |]; [| discriminate]. cbn in Hr.
  destruct (py_str_set _) as [oc |]; [| discriminate]. cbn in Hr.
  injection Hr as <-. repeat split; reflexivity.
Qed.

Lemma stored_restart (u : User.t A) :
  (forall n, Storage.medium (User.storage u) n = Storage.Completes) ->
  restart u = Some u <->
  stored (User.storage u) (User.records u) (User.loans u) (User.settings u) (User.overcats u).
Proof.
  intros Hw. unfold restart, stored. split.
  - intros Hr. pose proof (user_init_fields _ _ Hr) as (Hl & _).
    symmetry in Hl. rewrite Hl in Hr.
    pose proof (user_init_fields _ _ Hr) as (_ & Er & El & Es & Eo).
    repeat split; try assumption.
    destruct (loaded_has_default_keys _ Hl "settings") as [v Hv]; [eexists; reflexivity |].
    unfold Storage.get_settings, Storage.get_default in Es. rewrite Hv in Es |- *.
    destruct v; try discriminate. cbn in Es. congruence.
  - intros (_ & Hl & Er & El & Es & Eo). rewrite Hl. unfold User.init.
    rewrite Er, El. cbn. unfold Storage.get_settings, Storage.get_default. rewrite Es. cbn.
    rewrite Eo. cbn. destruct u; reflexivity.
Qed.

Lemma store_loaded (k : string) (v : json A) (s : Storage.t A) :
  (forall n, Storage.medium s n = Storage.Completes) ->
  Storage.init (Storage.path s) (Storage.disk s) (Storage.medium s) = s ->
  (forall n, Storage.medium (store_key k v s) n = Storage.Completes)
  /\ Storage.init (Storage.path (store_key k v s)) (Storage.disk (store_key k v s))
       (Storage.medium (store_key k v s)) = store_key k v s
  /\ Storage._data (store_key k v s) = <[k := v]> (Storage._data s).
Proof.
  intros Hw Hl. pose proof (loaded_has_default_keys s Hl) as Hd.
  split; [intros n; apply (Hw (S n)) |]. split; [| apply save_data].
  apply (reload_saved (Storage.with_data (<[k := v]> (Storage._data s)) s));
    [apply (Hw 0%nat) |].
  apply insert_has_default_keys, Hd.
Qed.

Lemma stored_set_records (s : Storage.t A) rs ls st oc (rs' : list (Record.t A)) :
  stored s rs ls st oc -> stored (Storage.set_records rs' s) rs' ls st oc.
Proof.
  intros (Hw & Hl & Er & El & Es & Eo).
  destruct (store_loaded "records" (JArr (Record.to_dict <$> rs')) s Hw Hl) as (Hw' & Hl' & Hd).
  change (store_key "records" (JArr (Record.to_dict <$> rs')) s)
    with (Storage.set_records rs' s) in *.
  split; [exact Hw' |]. split; [exact Hl' |].
  split; [apply get_records_set_records |].
  unfold Storage.get_loans, Storage.get_overconsumption_categories, Storage.get_default in *.
  rewrite Hd, !lookup_insert_ne by discriminate.
  repeat split; assumption.
Qed.

Lemma stored_set_loans (s : Storage.t A) rs ls st oc (ls' : list (LoanRecord.t A)) :
  stored s rs ls st oc -> stored (Storage.set_loans ls' s) rs ls' st oc.
Proof.
  intros (Hw & Hl & Er & El & Es & Eo).
  destruct (store_loaded "loans" (JArr (LoanRecord.to_dict <$> ls')) s Hw Hl)
    as (Hw' & Hl' & Hd).
  change (store_key "loans" (JArr (LoanRecord.to_dict <$> ls')) s)
    with (Storage.set_loans ls' s) in *.
  split; [exact Hw' |]. split; [exact Hl' |].
  split; [| split; [apply get_loans_set_loans |]];
    unfold Storage.get_records, Storage.get_overconsumption_categories, Storage.get_default in *;
    rewrite Hd, !lookup_insert_ne by discriminate; repeat split; assumption.
Qed.

Lemma stored_set_overcats (s : Storage.t A) rs ls st oc (oc' : gset string) :
  stored s rs ls st oc ->
  stored (Storage.set_overconsumption_categories (elements oc') s) rs ls st oc'.
Proof.
  intros (Hw & Hl & Er & El & Es & Eo).
  destruct (store_loaded "overconsumption_categories" (JArr (JStr <$> elements oc')) s Hw Hl)
    as (Hw' & Hl' & Hd).
  change (store_key "overconsumption_categories" (JArr (JStr <$> elements oc')) s)
    with (Storage.set_overconsumption_categories (elements oc') s) in *.
  split; [exact Hw' |]. split; [exact Hl' |].
  assert (py_str_set
            (Storage.get_overconsumption_categories
               (Storage.set_overconsumption_categories (elements oc') s)) = Some oc') as Ho
    by (rewrite get_overcats_set_overcats, list_to_set_elements_L; reflexivity).
  unfold Storage.get_records, Storage.get_loans, Storage.get_default in *.
  rewrite Hd, !lookup_insert_ne by discriminate.
  repeat split; assumption.
Qed.

Lemma stored_update_settings (s : Storage.t A) rs ls st oc (st' : gmap string (json A)) :
  stored s rs ls st oc ->
  exists s', Storage.update_settings st' s = Return tt s' /\ stored s' rs ls (st' ∪ st) oc.
Proof.
  intros (Hw & Hl & Er & El & Es & Eo).
  unfold Storage.update_settings. rewrite Es. eexists. split; [reflexivity |].
  destruct (store_loaded "settings" (JObj (st' ∪ st)) s Hw Hl) as (Hw' & Hl' & Hd).
  unfold store_key in *.
  split; [exact Hw' |]. split; [exact Hl' |].
  unfold Storage.get_records, Storage.get_loans, Storage.get_overconsumption_categories,
    Storage.get_default in *.
  rewrite Hd, lookup_insert_eq.
  rewrite !(lookup_insert_ne _ "settings" "records") by discriminate.
  rewrite !(lookup_insert_ne _ "settings" "loans") by discriminate.
  rewrite !(lookup_insert_ne _ "settings" "overconsumption_categories") by discriminate.
  repeat split; assumption || reflexivity.
Qed.

(** the settings written back over themselves *)
Lemma union_over_part (m m' : gmap string (json A)) :
  (forall k v, m !! k = Some v -> m' !! k = Some v \/ exists v', m' !! k = Some v') ->
  m' ∪ m = m'.
Proof.
  intros Hsub. apply map_eq. intros k. rewrite lookup_union.
  destruct (m' !! k) as [v' |] eqn:E'.
  - apply union_Some_l.
  - rewrite (left_id None _). destruct (m !! k) as [v |] eqn:E; [| reflexivity].
    destruct (Hsub k v E) as [E2 | [? E2]]; congruence.
Qed.

Lemma insert_union_same (m : gmap string (json A)) (k : string) (v : json A) :
  <[k := v]> m ∪ m = <[k := v]> m.
Proof.
  apply union_over_part. intros k' v' Hk'. destruct (decide (k = k')) as [-> | N].
  - right. rewrite lookup_insert_eq. eauto.
  - left. rewrite lookup_insert_ne by exact N. exact Hk'.
Qed.

Lemma persist_settings_stored (u : User.t A) rs ls st oc :
  stored (User.storage u) rs ls st oc ->
  exists s', User.persist_settings u = Return tt (User.with_storage s' u)
             /\ stored s' rs ls (User.settings u ∪ st) oc.
Proof.
  intros Hs. unfold User.persist_settings, User.in_storage, zoom, bind, get.
  destruct (stored_update_settings _ _ _ _ _ (User.settings u) Hs) as (s' & -> & Hs').
  eauto.
Qed.

Lemma add_loan_result (lid now name : string) (amount : json A)
    (loan_date due_date : option string) (note : string) (u : User.t A) (a : A) :
  py_float amount = Some a ->
  let loan := LoanRecord.mk lid name a (given_or loan_date now) due_date false note in
  User.add_loan lid now name amount loan_date due_date note u =
  Return loan
    (User.with_storage (Storage.set_loans (User.loans u ++ [loan]) (User.storage u))
       (User.with_loans (User.loans u ++ [loan]) u)).
Proof.
  intros Ha loan. unfold User.add_loan, bind, get, modify, evaluate. rewrite Ha. reflexivity.
Qed.

Lemma stored_user (u : User.t A) :
  stored (User.storage u) (User.records u) (User.loans u) (User.settings u) (User.overcats u) ->
  restart u = Some u.
Proof.
  intros Hs. pose proof Hs as (Hw & _). apply stored_restart; assumption.
Qed.

Lemma union_union_same (m st : gmap string (json A)) : (m ∪ st) ∪ st = m ∪ st.
Proof.
  apply union_over_part. intros k v Hk. rewrite lookup_union.
  destruct (m !! k) as [w |] eqn:E.
  - right. exists w. apply union_Some_l.
  - left. rewrite (left_id None _). exact Hk.
Qed.

Lemma dict_update_over (d d' : gmap string (json A)) (v : json A) :
  dict_update d v = Some d' -> d' ∪ d = d'.
Proof.
  destruct v as [| | | s | [| ? ?] | m]; cbn; try discriminate.
  - destruct (String.eqb s ""); [| discriminate]. intros [= <-]. apply map_union_idemp.
  - intros [= <-]. apply map_union_idemp.
  - intros [= <-]. apply union_union_same.
Qed.

(** the four writes that end [restore_from_backup] *)
Lemma persist_all_stored (v : User.t A) rs ls st oc :
  stored (User.storage v) rs ls st oc ->
  User.settings v ∪ st = User.settings v ->
  exists s' : Storage.t A,
    (do User.persist_records then
     do User.persist_loans then
     do User.persist_settings then
     do User.persist_overcats then
     ret true) v = Return true (User.with_storage s' v)
    /\ stored s' (User.records v) (User.loans v) (User.settings v) (User.overcats v).
Proof.
  intros Hs Hst.
  pose proof (stored_set_loans _ _ _ _ _ (User.loans v)
                (stored_set_records _ _ _ _ _ (User.records v) Hs)) as Hs2.
  destruct (stored_update_settings _ _ _ _ _ (User.settings v) Hs2) as (s3 & E3 & Hs3).
  rewrite Hst in Hs3.
  pose proof (stored_set_overcats _ _ _ _ _ (User.overcats v) Hs3) as Hs4.
  eexists. split; [| exact Hs4].
  unfold User.persist_records, User.persist_loans, User.persist_settings,
    User.persist_overcats, User.in_storage, zoom, bind, get, modify.
  cbn [User.storage User.records User.loans User.settings User.overcats User.with_storage].
  rewrite E3. reflexivity.
Qed.

Lemma bind_Return {S R R' : Type} (m : M S R) (k : R -> M S R') (s s' : S) (r' : R') :
  bind m k s = Return r' s' -> exists r s1, m s = Return r s1 /\ k r s1 = Return r' s'.
Proof. unfold bind. destruct (m s) as [r s1 | e s1]; [eauto | discriminate]. Qed.

Lemma evaluate_Return {S R : Type} (o : option R) (s s' : S) (r : R) :
  evaluate o s = Return r s' -> o = Some r /\ s' = s.
Proof. destruct o; cbn; [intros [= <- <-]; auto | discriminate]. Qed.

Lemma rewrap_Return {S R : Type} (pre : string) (m : M S R) (s s' : S) (r : R) :
  rewrap pre m s = Return r s' -> m s = Return r s'.
Proof. unfold rewrap. destruct (m s); [auto | discriminate]. Qed.

Lemma restore_stored (f : Storage.file A) (u u' : User.t A) (b : bool) :
  stored (User.storage u) (User.records u) (User.loans u) (User.settings u) (User.overcats u) ->
  User.restore_from_backup f u = Return b u' ->
  stored (User.storage u') (User.records u') (User.loans u') (User.settings u')
    (User.overcats u').
Proof.
  intros Hs Hr. unfold User.restore_from_backup in Hr. apply rewrap_Return in Hr.
  apply bind_Return in Hr as (j & s1 & Hj & Hr).
  assert (s1 = u) as -> by (destruct f; cbv [ret raise] in Hj; congruence). clear Hj.
  apply bind_Return in Hr as (ok & s1 & Hok & Hr). apply evaluate_Return in Hok as (_ & ->).
  destruct ok; cbn [negb] in Hr; [| discriminate].
  apply bind_Return in Hr as (rs & s1 & Hrs & Hr). apply evaluate_Return in Hrs as (_ & ->).
  apply bind_Return in Hr as ([] & s1 & Hm & Hr). injection Hm as <-.
  apply bind_Return in Hr as (ls & s1 & Hls & Hr). apply evaluate_Return in Hls as (_ & ->).
  apply bind_Return in Hr as ([] & s1 & Hm & Hr). injection Hm as <-.
  apply bind_Return in Hr as (v & s1 & Hg & Hr). injection Hg as <- <-.
  apply bind_Return in Hr as (st4 & s1 & Hst & Hr). apply evaluate_Return in Hst as (Hst & ->).
  apply bind_Return in Hr as ([] & s1 & Hm & Hr). injection Hm as <-.
  apply bind_Return in Hr as (has_cats & s1 & Hc & Hr). apply evaluate_Return in Hc as (_ & ->).
  apply bind_Return in Hr as ([] & v & Hoc & Hr).
  assert (User.settings v ∪ User.settings u = User.settings v
          /\ User.storage v = User.storage u) as (Hover & Hsto).
  { assert (st4 ∪ User.settings u = st4) as Hst4.
    { cbn [User.settings User.with_loans User.with_records] in Hst.
      destruct (py_getitem j "settings") as [x |]; [| discriminate].
      apply (dict_update_over _ _ x). exact Hst. }
    destruct has_cats.
    - apply bind_Return in Hoc as (oc & s1 & Ho & Hm).
      apply evaluate_Return in Ho as (_ & ->). injection Hm as <-. split; [exact Hst4 | reflexivity].
    - injection Hoc as <-. split; [exact Hst4 | reflexivity]. }
  rewrite <- Hsto in Hs.
  destruct (persist_all_stored v _ _ _ _ Hs Hover) as (s' & E & Hs').
  rewrite E in Hr. injection Hr as <- <-. exact Hs'.
Qed.

Lemma perform_mutation_stored (m : mutation A) (u u' : User.t A) :
  stored (User.storage u) (User.records u) (User.loans u) (User.settings u) (User.overcats u) ->
  perform (Mutation m) u = Return tt u' ->
  stored (User.storage u') (User.records u') (User.loans u') (User.settings u')
    (User.overcats u').
Proof.
  intros Hs Hc. destruct m; cbn [perform] in Hc; unfold discard, bind in Hc.
  - destruct (py_float amount) as [a |] eqn:Ea.
    + rewrite (add_record_result _ _ _ _ _ _ _ _ _ Ea) in Hc. injection Hc as <-.
      exact (stored_set_records _ _ _ _ _ _ Hs).
    + unfold User.add_record, bind, get, evaluate in Hc. rewrite Ea in Hc. discriminate.
  - rewrite delete_record_result in Hc. destruct (existsb _ _); injection Hc as <-.
    + exact (stored_set_records _ _ _ _ _ _ Hs).
    + exact Hs.
  - destruct (py_float amount) as [a |] eqn:Ea.
    + rewrite (add_loan_result _ _ _ _ _ _ _ _ _ Ea) in Hc. injection Hc as <-.
      exact (stored_set_loans _ _ _ _ _ _ Hs).
    + unfold User.add_loan, bind, get, evaluate in Hc. rewrite Ea in Hc. discriminate.
  - unfold User.mark_loan_repaid, bind, get in Hc.
    destruct (User.mark_first loan_id (User.loans u)) as [ls |]; injection Hc as <-.
    + exact (stored_set_loans _ _ _ _ _ _ Hs).
    + exact Hs.
  - rewrite delete_loan_result in Hc. destruct (existsb _ _); injection Hc as <-.
    + exact (stored_set_loans _ _ _ _ _ _ Hs).
    + exact Hs.
  - unfold User.set_thresholds, User.set_float_setting, bind, evaluate, modify in Hc.
    destruct (py_float warn) as [w |]; [| discriminate]. cbn [ret] in Hc.
    destruct (py_float urgent) as [x |]; [| discriminate]. cbn [ret] in Hc.
    match type of Hc with User.persist_settings ?v = _ =>
      destruct (persist_settings_stored v _ _ _ _ Hs) as (s' & E & Hs') end.
    rewrite E in Hc. injection Hc as <-. cbn in Hs' |- *.
    rewrite <- insert_union_l, insert_union_same in Hs'. exact Hs'.
  - unfold User.set_initial_balance, User.set_float_setting, bind, evaluate, modify in Hc.
    destruct (py_float amount) as [a |]; [| discriminate]. cbn [ret] in Hc.
    match type of Hc with User.persist_settings ?v = _ =>
      destruct (persist_settings_stored v _ _ _ _ Hs) as (s' & E & Hs') end.
    rewrite E in Hc. injection Hc as <-. cbn in Hs' |- *.
    rewrite insert_union_same in Hs'. exact Hs'.
  - unfold User.add_overconsumption_category, bind, modify in Hc. injection Hc as <-.
    exact (stored_set_overcats _ _ _ _ _ _ Hs).
  - unfold User.remove_overconsumption_category, bind, get, modify in Hc.
    case_bool_decide; injection Hc as <-.
    + exact (stored_set_overcats _ _ _ _ _ _ Hs).
    + exact Hs.
  - destruct (User.restore_from_backup f u) as [b u1 | e u1] eqn:Er; [| discriminate].
    injection Hc as <-. exact (restore_stored _ _ _ _ Hs Er).
Qed.

Lemma perform_stored (c : call A) (u u' : User.t A) :
  stored (User.storage u) (User.records u) (User.loans u) (User.settings u) (User.overcats u) ->
  perform c u = Return tt u' ->
  stored (User.storage u') (User.records u') (User.loans u') (User.settings u')
    (User.overcats u').
Proof.
  intros Hs Hc. destruct c as [m | t e]; [exact (perform_mutation_stored m u u' Hs Hc) |].
  cbn [perform] in Hc. unfold ReminderService.schedule_daily_reminder, bind, modify in Hc.
  match type of Hc with User.persist_settings ?v = _ =>
    destruct (persist_settings_stored v _ _ _ _ Hs) as (s' & E & Hs') end.
  rewrite E in Hc. injection Hc as <-. cbn in Hs' |- *.
  rewrite <- insert_union_l, insert_union_same in Hs'. exact Hs'.
Qed.

Lemma perform_all_stored (cs : list (call A)) (u u' : User.t A) :
  stored (User.storage u) (User.records u) (User.loans u) (User.settings u) (User.overcats u) ->
  perform_all cs u = Return tt u' ->
  stored (User.storage u') (User.records u') (User.loans u') (User.settings u')
    (User.overcats u').
Proof.
  revert u. induction cs as [| c cs IH]; intros u Hs Hc.
  - injection Hc as <-. exact Hs.
  - cbn [perform_all] in Hc. apply bind_Return in Hc as ([] & u1 & Hc1 & Hc).
    apply (IH u1); [| exact Hc]. exact (perform_stored c u u1 Hs Hc1).
Qed.

Lemma init_fields (path : string) (f : Storage.file A)
    (w : nat -> Storage.write) :
  Storage.path (Storage.init path f w) = path
  /\ Storage.disk (Storage.init path f w) = f
  /\ Storage.medium (Storage.init path f w) = w.
Proof.
  unfold Storage.init, Storage._load. cbn [Storage.disk].
  destruct f as [| | j]; try (repeat split; reflexivity).
  destruct (dict_update _ j); repeat split; reflexivity.
Qed.

Lemma started_stored (path : string) (f : Storage.file A) (w : nat -> Storage.write)
    (u : User.t A) :
  (forall n, w n = Storage.Completes) ->
  User.init (Storage.init path f w) = Some u ->
  stored (User.storage u) (User.records u) (User.loans u) (User.settings u) (User.overcats u).
Proof.
  intros Hall Hu. pose proof (user_init_fields _ _ Hu) as (Hs & _).
  destruct (init_fields path f w) as (Hp & Hd & Hw).
  apply stored_restart; [rewrite Hs, Hw; exact Hall |].
  unfold restart. rewrite Hs, Hp, Hd, Hw. exact Hu.
Qed.

End Persisted.

(** X18.  On a file system where every write goes through: from an account
    that [User] built over a [Storage], after any sequence of calls of the
    mutating methods of [User] and of [schedule_daily_reminder] that all
    return, starting the program again on the file gives the account as it
    is in memory: same records, loans, settings, categories and store.
    (Where a write breaks off, the call returns all the same and the file is
    lost: see [broken_write_loses_the_file].) *)
Theorem returning_calls_are_persisted {A : Type} `{Num A} (path : string)
    (f : Storage.file A) (w : nat -> Storage.write) (cs : list (call A))
    (u0 u : User.t A) :
  (forall n, w n = Storage.Completes) ->
  User.init (Storage.init path f w) = Some u0 ->
  perform_all cs u0 = Return tt u ->
  restart u = Some u.
Proof.
  intros Hw H0 Hc.
  apply stored_user. apply (perform_all_stored cs u0 u); [| exact Hc].
  exact (started_stored path f w u0 Hw H0).
Qed.

Lemma returning_calls_are_persisted_witness :
  restart
    (state_of
       (perform_all
          [Mutation (AddRecord "1" "2025-01-01T12:00:00" (JNum 200%float) "income" "salary"
                       None "");
           Mutation (SetInitialBalance (JNum 500%float));
           Mutation (AddCategory "food");
           ScheduleDailyReminder "21:30" true]
          fresh_account))
  = Some
      (state_of
         (perform_all
            [Mutation (AddRecord "1" "2025-01-01T12:00:00" (JNum 200%float) "income" "salary"
                         None "");
             Mutation (SetInitialBalance (JNum 500%float));
             Mutation (AddCategory "food");
             ScheduleDailyReminder "21:30" true]
            fresh_account)).
Proof.
  apply (returning_calls_are_persisted "data.json" Storage.NoFile Storage.sound
           [Mutation (AddRecord "1" "2025-01-01T12:00:00" (JNum 200%float) "income" "salary"
                        None "");
            Mutation (SetInitialBalance (JNum 500%float));
            Mutation (AddCategory "food");
            ScheduleDailyReminder "21:30" true]
           fresh_account); [reflexivity | vm_compute; reflexivity ..].
Defined.

(** A write that breaks off: [add_record] returns with the record in the
    account, [save] having dropped the error; the file no longer parses and
    the program started again has no records. *)
Example broken_write_loses_the_file :
  exists (rec : Record.t float) (u1 : User.t float),
    User.init unreliable_storage = Some unreliable_account
    /\ User.add_record "1" "2025-01-01T12:00:00" (JNum 200%float) "income" "salary" None ""
         unreliable_account = Return rec u1
    /\ User.records u1 = [rec]
    /\ Storage.disk (User.storage u1) = Storage.Garbage
    /\ User.records <$> restart u1 = Some [].
Proof. do 2 eexists. repeat split; vm_compute; reflexivity. Qed.

(** ** Files that cannot be used *)

(** X3.  A data file that cannot be read or parsed, or whose JSON is [null], a
    boolean, a number or a non-empty string, leaves the store with the
    default snapshot and the file as it was found; the first [set_records]
    whose write goes through then puts the defaults and the new records in
    its place. *)
Theorem unreadable_file_gives_defaults {A : Type} `{Num A} (path : string)
    (f : Storage.file A) (w : nat -> Storage.write) (rs : list (Record.t A)) :
  f = Storage.Garbage \/ (exists j, f = Storage.Parsed j /\ not_a_mapping j) ->
  Storage._data (Storage.init path f w) = Storage.default_data
  /\ Storage.disk (Storage.init path f w) = f
  /\ (w 0%nat = Storage.Completes ->
      Storage.disk (Storage.set_records rs (Storage.init path f w))
      = Storage.Parsed
          (JObj (<["records" := JArr (Record.to_dict <$> rs)]> Storage.default_data))).
Proof.
  intros Hf.
  assert (Storage.init path f w = Storage.mk path Storage.default_data f w) as ->.
  { destruct Hf as [-> | (j & -> & Hj)]; [reflexivity |].
    destruct j as [| b | x | s | l | m]; try (destruct Hj; fail); try reflexivity.
    assert (String.eqb s "" = false) as E by (apply String.eqb_neq, Hj).
    unfold Storage.init, Storage._load. cbn [Storage.disk dict_update]. rewrite E.
    reflexivity. }
  split; [reflexivity |]. split; [reflexivity |].
  intros Hw. unfold Storage.set_records, Storage.set_records_dicts, Storage.save.
  cbn [Storage.medium Storage.with_data Storage.disk Storage._data]. rewrite Hw. reflexivity.
Qed.

Lemma unreadable_file_gives_defaults_witness :
  Storage._data (Storage.init "data.json" (Storage.Parsed (JNum 3%float)) Storage.sound)
  = Storage.default_data
  /\ Storage.disk (Storage.init "data.json" (Storage.Parsed (JNum 3%float)) Storage.sound)
     = Storage.Parsed (JNum 3%float)
  /\ (Storage.sound 0%nat = Storage.Completes ->
      Storage.disk
        (Storage.set_records []
           (Storage.init "data.json" (Storage.Parsed (JNum 3%float)) Storage.sound))
      = Storage.Parsed
          (JObj (<["records" := JArr (Record.to_dict <$> [])]> Storage.default_data))).
Proof.
  apply (unreadable_file_gives_defaults "data.json" (Storage.Parsed (JNum 3%float))
           Storage.sound []).
  right. exists (JNum 3%float). split; [reflexivity | exact I].
Defined.

Lemma mapM_rejects {B C : Type} (f : B -> option C) (l : list B) (bad : B) :
  bad ∈ l -> f bad = None -> mapM f l = None.
Proof.
  intros Hin Hbad. induction Hin as [bad l | bad x l _ IH]; cbn.
  - rewrite Hbad. reflexivity.
  - destruct (f x); [| reflexivity]. cbn. rewrite (IH Hbad). reflexivity.
Qed.

Lemma not_a_loan_rejected {A : Type} (d : json A) :
  not_a_loan d -> LoanRecord.from_dict d = None.
Proof.
  destruct d as [| | | | | m]; try reflexivity.
  intros [(k & Hk & Hn) | (k & Hk & Hn)]; unfold LoanRecord.from_dict;
    cbn [as_obj mbind option_bind].
  - rewrite bool_decide_eq_false_2; [reflexivity |].
    intros Hsub. apply Hn, Hsub. apply elem_of_dom, Hk.
  - case_bool_decide; [| reflexivity].
    unfold loan_required in Hk.
    rewrite !elem_of_cons in Hk. rewrite elem_of_nil in Hk.
    destruct Hk as [-> | [-> | [-> | [-> | []]]]]; rewrite ?Hn; cbn;
      repeat match goal with
             | |- context [m !! ?x ≫= ?f] => destruct (m !! x ≫= f); cbn; try reflexivity
             end; rewrite ?Hn; reflexivity.
Qed.

(** X16.  A backup with the three required keys whose records can be read and
    whose list of loans holds an entry that [LoanRecord.from_dict] cannot
    take makes [restore_from_backup] raise the wrapped error with the
    records of the backup already in place of the account's: loans,
    settings, categories and the store are the old ones. *)
Theorem restore_half_applied {A : Type} `{Num A} (m : gmap string (json A))
    (rs : list (Record.t A)) (l : list (json A)) (bad : json A) (u : User.t A) :
  User.read_list Record.from_dict (JObj m) "records" = Some rs ->
  m !! "loans" = Some (JArr l) -> bad ∈ l -> not_a_loan bad ->
  is_Some (m !! "settings") ->
  User.restore_from_backup (Storage.Parsed (JObj m)) u
  = Raise (Wrapped "恢复失败" Builtin)
      (User.mk (User.storage u) rs (User.loans u) (User.settings u) (User.overcats u)).
Proof.
  intros Hr Hl Hin Hbad Hs.
  assert (is_Some (m !! "records")) as Hrec.
  { unfold User.read_list in Hr. cbn [py_getitem] in Hr.
    destruct (m !! "records"); [eauto | discriminate]. }
  assert (User.read_list LoanRecord.from_dict (JObj m) "loans" = None) as Hno.
  { unfold User.read_list. cbn [py_getitem]. rewrite Hl. cbn.
    apply (mapM_rejects _ _ bad Hin), not_a_loan_rejected, Hbad. }
  unfold User.restore_from_backup, rewrap, bind, evaluate. cbn [ret].
  rewrite py_all_in_required.
  rewrite !bool_decide_eq_true_2 by (assumption || (rewrite Hl; eauto)).
  cbv beta iota delta [andb negb].
  rewrite Hr. cbn [ret modify]. rewrite Hno. reflexivity.
Qed.

Lemma restore_half_applied_witness :
  User.restore_from_backup (Storage.Parsed backup_bad_loans) salary_account
  = Raise (Wrapped "恢复失败" Builtin)
      (User.mk (User.storage salary_account)
         [Record.mk "9" 10%float "expense" "food" "2025-03-01T08:00:00" "" false]
         (User.loans salary_account) (User.settings salary_account)
         (User.overcats salary_account)).
Proof.
  apply (restore_half_applied _
           [Record.mk "9" 10%float "expense" "food" "2025-03-01T08:00:00" "" false]
           [JNum 1%float] (JNum 1%float) salary_account).
  - reflexivity.
  - reflexivity.
  - apply list_elem_of_singleton. reflexivity.
  - exact I.
  - eexists; reflexivity.
Defined.

(** X17.  Into an account whose store holds a settings object, a backup
    without 'overconsumption_categories' whose records and loans can be read
    and whose settings are an object is restored with the over-consumption
    set of the account left as it is; records and loans are those of the
    backup and its settings are merged over the current ones. *)
Theorem restore_without_categories {A : Type} `{Num A} (m bs : gmap string (json A))
    (rs : list (Record.t A)) (ls : list (LoanRecord.t A)) (u : User.t A) :
  store_has_settings (User.storage u) ->
  User.read_list Record.from_dict (JObj m) "records" = Some rs ->
  User.read_list LoanRecord.from_dict (JObj m) "loans" = Some ls ->
  m !! "settings" = Some (JObj bs) ->
  m !! "overconsumption_categories" = None ->
  exists u' : User.t A,
    User.restore_from_backup (Storage.Parsed (JObj m)) u = Return true u'
    /\ User.records u' = rs
    /\ User.loans u' = ls
    /\ User.settings u' = bs ∪ User.settings u
    /\ User.overcats u' = User.overcats u.
Proof.
  intros Hst Hr Hl Hs Hc.
  assert (is_Some (m !! "records")) as Hrec.
  { unfold User.read_list in Hr. cbn [py_getitem] in Hr.
    destruct (m !! "records"); [eauto | discriminate]. }
  assert (is_Some (m !! "loans")) as Hloans.
  { unfold User.read_list in Hl. cbn [py_getitem] in Hl.
    destruct (m !! "loans"); [eauto | discriminate]. }
  unfold User.restore_from_backup, rewrap, bind, evaluate. cbn [ret].
  rewrite py_all_in_required.
  rewrite !bool_decide_eq_true_2 by (assumption || (rewrite Hs; eauto)).
  cbv beta iota delta [andb negb].
  rewrite Hr. cbn [ret modify]. rewrite Hl. cbn [ret modify get].
  cbn [py_getitem]. rewrite Hs. cbn [mbind option_bind dict_update ret modify py_in].
  rewrite bool_decide_eq_false_2 by (rewrite Hc; intros [? ?]; discriminate).
  cbn [ret].
  unfold User.persist_records, User.persist_loans, User.persist_settings,
    User.persist_overcats, User.in_storage, zoom, bind, get, modify.
  cbn [User.storage User.records User.loans User.settings User.overcats
       User.with_storage User.with_records User.with_loans User.with_settings
       User.with_overcats].
  destruct (update_settings_returns (bs ∪ User.settings u)
              (Storage.set_loans ls (Storage.set_records rs (User.storage u)))) as [s' Hs'].
  { destruct Hst as [m0 Hm0]. exists m0.
    rewrite set_loans_settings, set_records_settings. exact Hm0. }
  rewrite Hs'. cbn. eexists. split; [reflexivity |]. repeat split; reflexivity.
Qed.

Lemma restore_without_categories_witness :
  exists u' : User.t float,
    User.restore_from_backup (Storage.Parsed backup_without_categories) food_marked
    = Return true u'
    /\ User.records u' = []
    /\ User.loans u' = []
    /\ User.settings u' = ∅ ∪ User.settings food_marked
    /\ User.overcats u' = User.overcats food_marked.
Proof.
  apply (restore_without_categories _ ∅ [] [] food_marked).
  - exists Storage.default_settings. reflexivity.
  - reflexivity.
  - reflexivity.
  - reflexivity.
  - reflexivity.
Defined.

(** X29.  Restoring the same backup a second time changes nothing more: into
    an account whose store holds a settings object, the backup of any
    account is restored twice with the records, loans, settings and
    categories that the first restore gave. *)
Theorem restore_twice_is_restore_once {A : Type} `{Num A} (now : string)
    (s cur : User.t A) :
  store_has_settings (User.storage cur) ->
  exists u1 u2 : User.t A,
    User.restore_from_backup (Storage.Parsed (User.backup_data now s)) cur = Return true u1
    /\ User.restore_from_backup (Storage.Parsed (User.backup_data now s)) u1 = Return true u2
    /\ User.records u2 = User.records u1
    /\ User.loans u2 = User.loans u1
    /\ User.settings u2 = User.settings u1
    /\ User.overcats u2 = User.overcats u1.
Proof.
  intros Hst.
  destruct (restore_own_backup now s cur Hst) as [st1 H1].
  pose proof (mutate_keeps_settings (Restore (Storage.Parsed (User.backup_data now s))) cur Hst)
    as Hst1.
  cbn [mutate] in Hst1. rewrite H1 in Hst1. cbn [state_of] in Hst1.
  destruct (restore_own_backup now s _ Hst1) as [st2 H2].
  do 2 eexists. split; [exact H1 |]. split; [exact H2 |].
  cbn [User.records User.loans User.settings User.overcats].
  repeat split; try reflexivity.
  apply map_eq. intros k. rewrite !lookup_union.
  destruct (User.settings s !! k), (User.settings cur !! k); reflexivity.
Qed.

Lemma restore_twice_is_restore_once_witness :
  exists u1 u2 : User.t float,
    User.restore_from_backup
      (Storage.Parsed (User.backup_data "2025-01-03T09:00:00" salary_account))
      bare_account_later = Return true u1
    /\ User.restore_from_backup
         (Storage.Parsed (User.backup_data "2025-01-03T09:00:00" salary_account)) u1
       = Return true u2
    /\ User.records u2 = User.records u1
    /\ User.loans u2 = User.loans u1
    /\ User.settings u2 = User.settings u1
    /\ User.overcats u2 = User.overcats u1.
Proof.
  apply (restore_twice_is_restore_once "2025-01-03T09:00:00" salary_account
           bare_account_later).
  exists (<["initial_balance" := JNum 100%float]> ∅). reflexivity.
Defined.

(** ** What filter_records keeps, and the Income bucket *)

(** X19.  [filter_records] keeps the records in their order; it keeps a record
    iff its timestamp is, as a string, at or after [start] and before [end],
    where a bound that is [None] or the empty string does not restrict. *)
Theorem filter_records_range_spec {A : Type} (start end_ : option string)
    (rs : list (Record.t A)) :
  sublist (Statistics.filter_records start end_ rs) rs
  /\ (forall r, r ∈ Statistics.filter_records start end_ rs <->
                r ∈ rs
                /\ (forall s, start = Some s -> s <> "" ->
                              String.leb s (Record.timestamp r) = true)
                /\ (forall e, end_ = Some e -> e <> "" ->
                              String.ltb (Record.timestamp r) e = true))
  /\ Statistics.filter_records (Some "") end_ rs = Statistics.filter_records None end_ rs
  /\ Statistics.filter_records start (Some "") rs = Statistics.filter_records start None rs.
Proof.
  split; [rewrite filter_records_kept; apply list_filter_sublist |].
  split; [| split; reflexivity].
  intros r. rewrite filter_records_kept, list_elem_of_In, filter_In, <- list_elem_of_In.
  unfold kept, given_bound. rewrite andb_true_iff.
  split.
  - intros (Hin & Hs & He). split; [exact Hin |]. split.
    + intros s -> Hne. rewrite (proj2 (String.eqb_neq _ _) Hne) in Hs. exact Hs.
    + intros e -> Hne. rewrite (proj2 (String.eqb_neq _ _) Hne) in He. exact He.
  - intros (Hin & Hs & He). split; [exact Hin |]. split.
    + destruct start as [s |]; [| reflexivity].
      destruct (String.eqb_spec s "") as [_ | Hne]; [reflexivity |]. apply (Hs s eq_refl Hne).
    + destruct end_ as [e |]; [| reflexivity].
      destruct (String.eqb_spec e "") as [_ | Hne]; [reflexivity |]. apply (He e eq_refl Hne).
Qed.

Section IncomeBucket.
Context {A : Type} `{Num A}.

Lemma sums_income (rs : list (Record.t A)) (i e : A) :
  fst (fold_left Statistics.sums_step rs (i, e))
  = fold_left fadd (amounts_of (is_kind "income") rs) i.
Proof.
  revert i e. induction rs as [| r rs IH]; intros i e; [reflexivity |].
  cbn [fold_left]. unfold Statistics.sums_step at 2, amounts_of, is_kind.
  cbn [List.filter fst snd].
  destruct (String.eqb (Record.kind r) "income"); cbn [fmap list_fmap fold_left]; apply IH.
Qed.

Lemma category_breakdown_bucket (start end_ : option string) (u : User.t A) (c : string) :
  Statistics.category_breakdown start end_ u !! c
  = bucket c (Statistics.filter_records start end_ (User.records u)).
Proof.
  unfold Statistics.category_breakdown.
  apply (breakdown_loop _ [] ∅). intros c'. rewrite lookup_empty.
  unfold bucket, touched. cbn. rewrite andb_false_r. reflexivity.
Qed.

Lemma income_contributions (rs : list (Record.t A)) :
  Forall (fun r => known_kind r
                   /\ (Record.kind r = "expense" -> Record.category r <> "Income")) rs ->
  amounts_of (contributes "Income") rs = amounts_of (is_kind "income") rs
  /\ touched "Income" rs = existsb (is_kind "income") rs.
Proof.
  unfold amounts_of, touched.
  induction 1 as [| r rs [Hk Hc] _ [IH1 IH2]]; [split; reflexivity |].
  cbn [List.filter existsb].
  assert (contributes "Income" r = is_kind "income" r
          /\ (String.eqb (Record.category r) "Income" || negb (is_kind "expense" r)
              = is_kind "income" r)) as [E1 E2].
  { unfold contributes, is_kind. destruct Hk as [Hk | Hk]; rewrite Hk; cbn.
    - rewrite orb_true_r. split; reflexivity.
    - rewrite (proj2 (String.eqb_neq _ _) (Hc Hk)). split; reflexivity. }
  rewrite E1. split.
  - destruct (is_kind "income" r); cbn [fmap list_fmap]; rewrite IH1; reflexivity.
  - rewrite <- IH2, <- E2. cbn.
    destruct (String.eqb (Record.category r) "Income"), (negb (is_kind "expense" r)),
      (existsb (fun r0 : Record.t A => String.eqb (Record.category r0) "Income") rs),
      (existsb (fun r0 : Record.t A => negb (is_kind "expense" r0)) rs); reflexivity.
Qed.

Lemma filter_records_forall (P : Record.t A -> Prop) (start end_ : option string)
    (rs : list (Record.t A)) :
  Forall P rs -> Forall P (Statistics.filter_records start end_ rs).
Proof.
  intros HP. rewrite filter_records_kept.
  induction HP as [| r l Hr _ IH]; [constructor |].
  cbn. destruct (kept start end_ r); [constructor; assumption | exact IH].
Qed.

End IncomeBucket.

(** X21.  When every record is an 'income' or an 'expense' and no expense is
    filed under the category "Income", the bucket "Income" of
    [category_breakdown] is absent if the range holds no income and is
    otherwise the income that [totals] gives for the same range, also in
    doubles: both add the same amounts in the same order. *)
Theorem income_bucket_is_total_income {A : Type} `{Num A} (start end_ : option string)
    (u : User.t A) (t : Statistics.totals_t A) :
  Forall (fun r => known_kind r
                   /\ (Record.kind r = "expense" -> Record.category r <> "Income"))
    (User.records u) ->
  Statistics.totals start end_ u = Some t ->
  Statistics.category_breakdown start end_ u !! "Income"
  = if existsb (is_kind "income") (Statistics.filter_records start end_ (User.records u))
    then Some (Statistics.income t) else None.
Proof.
  intros Hrs Ht. rewrite category_breakdown_bucket. unfold bucket.
  destruct (income_contributions _ (filter_records_forall _ start end_ _ Hrs)) as [-> ->].
  destruct (existsb _ _); [| reflexivity]. f_equal.
  unfold Statistics.totals in Ht.
  destruct (Statistics.sums _) as [inc exp] eqn:Es.
  destruct (User.initial_balance u); [| discriminate]. injection Ht as <-.
  cbn [Statistics.income]. unfold Statistics.sums in Es.
  rewrite <- sums_income with (e := lit 0). rewrite Es. reflexivity.
Qed.

Lemma income_bucket_is_total_income_witness :
  Statistics.category_breakdown None None spec_example !! "Income" = Some 200%float.
Proof.
  apply (income_bucket_is_total_income None None spec_example
           (Statistics.mk_totals 200%float 150%float 550%float)).
  - constructor; [split; [left; reflexivity | discriminate] |].
    constructor; [split; [right; reflexivity | discriminate] | constructor].
  - vm_compute. reflexivity.
Defined.

(** ** update_record on an id that no record has *)

Section DynMissing.
Context {A : Type} `{Num A}.
Variable class_attr : string -> bool.
Variable setattr_class : string -> json A -> gmap string (json A) -> option (gmap string (json A)).

Lemma first_match_none (record_id : string) (rs : list (gmap string (json A))) (i : nat) :
  Forall (fun r => exists v, Dyn.getfield r "id" = Some v /\ v <> JStr record_id) rs ->
  Dyn.first_match record_id rs i = Some None.
Proof.
  intros Hrs. revert i. induction Hrs as [| r rs (v & Hv & Hne) _ IH]; intros i; [reflexivity |].
  cbn [Dyn.first_match]. unfold Dyn.obj in *. rewrite Hv.
  destruct v as [| | | s | |]; try apply IH.
  destruct (String.eqb_spec s record_id) as [-> | _]; [destruct (Hne eq_refl) | apply IH].
Qed.

End DynMissing.

(** X10.  When no record has the id, [update_record] returns [None] and
    neither the records nor the store change, whatever the keywords. *)
Theorem update_record_unknown_id {A : Type} `{Num A} (class_attr : string -> bool)
    (setattr_class : string -> json A -> gmap string (json A) -> option (gmap string (json A)))
    (record_id : string) (kwargs : list (string * json A)) (u : Dyn.t A) :
  Forall (fun r => exists v, Dyn.getfield r "id" = Some v /\ v <> JStr record_id)
    (Dyn.records u) ->
  Dyn.update_record class_attr setattr_class record_id kwargs u = Return None u.
Proof.
  intros Hrs. unfold Dyn.update_record, bind, get, evaluate.
  rewrite (first_match_none record_id _ 0 Hrs). reflexivity.
Qed.

Lemma update_record_unknown_id_witness :
  Dyn.update_record method_names store_in_instance "7" dyn_kwargs dyn_example
  = Return None dyn_example.
Proof.
  apply (update_record_unknown_id method_names store_in_instance "7" dyn_kwargs dyn_example).
  repeat constructor; eexists; (split; [reflexivity | discriminate]).
Defined.
